(** * CrowdFUNding backend: the blockchain-to-store synchronisation engine

    A shallow embedding of
      - [src/controllers/syncController.ts]   (webhook receiver, batch, sync status),
      - [src/services/autoSync.ts]            (the poller and its in-progress flag),
      - [src/controllers/contributionController.ts] (QRIS settlement and the
        mint / approve / donate sequence),
    over the tables declared in [src/sql/blockchain_cache.sql].

    The relational store is a record of finite maps keyed by the primary key
    of each table; every SQL statement of the source is a function from a
    store to a result, which is either a new store or the error the server
    raises.  JavaScript values that reach a handler through [req.body] are
    kept untyped ([jsval]) so that the truthiness tests of the source can be
    written as they are. *)

From Stdlib Require Import ZArith Lia Ascii String DecimalString.
From stdpp Require Import gmap strings list.

Local Open Scope string_scope.
Local Open Scope list_scope.
Local Open Scope Z_scope.

(* ===================================================================== *)
(** ** JavaScript values *)
(* ===================================================================== *)

(** The values a JSON body or an indexer item can hold in one field.
    Numbers are the integers; fractional numbers are not represented. *)
Inductive jsval : Type :=
  | JUndefined
  | JNull
  | JBool (b : bool)
  | JNum (n : Z)
  | JStr (s : string).

(** [!!v] of JavaScript. *)
Definition truthy (v : jsval) : bool :=
  match v with
  | JUndefined | JNull => false
  | JBool b => b
  | JNum n => negb (Z.eqb n 0)
  | JStr s => negb (String.eqb s "")
  end.

(** [v === undefined]. *)
Definition is_undefined (v : jsval) : bool :=
  match v with JUndefined => true | _ => false end.

(** [a || b]. *)
Definition js_or (a b : jsval) : jsval := if truthy a then a else b.

(* ===================================================================== *)
(** ** The relational store *)
(* ===================================================================== *)

(** Errors a statement can raise. *)
Inductive dberror : Type :=
  | InvalidInput        (* a parameter is not accepted by the column type *)
  | NotNullViolation
  | UniqueViolation
  | ForeignKeyViolation
  | NumericOutOfRange
  | UndefinedColumn
  | InFailedTransaction.

Inductive res (A : Type) : Type :=
  | Ok (a : A)
  | Err (e : dberror).
Arguments Ok {A} a.
Arguments Err {A} e.

Definition res_bind {A B} (r : res A) (k : A -> res B) : res B :=
  match r with Ok a => k a | Err e => Err e end.

Notation "'try!' x := r 'in' k" := (res_bind r (fun x => k))
  (at level 10, x name, r at level 100, k at level 200).

(** How the server converts a non-null parameter to a column type.  The
    conversions belong to the database server, not to the repository: they
    are left abstract, [None] meaning that the server rejects the value. *)
Class PgCasts : Type := {
  cast_integer : jsval -> option Z;         (* INTEGER *)
  cast_bigint  : jsval -> option Z;         (* BIGINT *)
  cast_numeric : jsval -> option Z;         (* NUMERIC(30, 0) *)
  cast_varchar : nat -> jsval -> option string  (* VARCHAR(n) *)
}.

(** Binding one parameter to a nullable column: the driver sends
    [undefined] and [null] as NULL, anything else is converted. *)
Definition bind_col {A} (cast : jsval -> option A) (v : jsval) : res (option A) :=
  match v with
  | JUndefined | JNull => Ok None
  | _ => match cast v with
         | Some a => Ok (Some a)
         | None => Err InvalidInput
         end
  end.

(** A column declared NOT NULL. *)
Definition not_null {A} (c : option A) : res A :=
  match c with
  | Some a => Ok a
  | None => Err NotNullViolation
  end.

(** Rows, one record per table of [blockchain_cache.sql].  Times are
    seconds read from the server clock. *)
Record campaign_row : Type := {
  c_id : Z;
  c_name : string;
  c_creator_name : option string;
  c_owner : string;
  c_balance : option Z;
  c_target_amount : Z;
  c_creation_time : Z;
  c_last_synced_at : Z;
  c_created_at : Z;
  c_updated_at : Z
}.

Record donation_row : Type := {
  d_id : string;
  d_campaign_id : Z;
  d_donor : string;
  d_amount : Z;
  d_transaction_hash : string;
  d_block_number : Z;
  d_timestamp : Z;
  d_last_synced_at : Z;
  d_created_at : Z;
  (* columns the settlement path writes; the DDL does not declare them,
     so their values are kept as they are sent *)
  d_payment_method : jsval;
  d_qris_order_id : jsval;
  d_qris_gross_amount : jsval
}.

Record withdrawal_row : Type := {
  w_id : string;
  w_campaign_id : Z;
  w_name : option string;
  w_owner : string;
  w_creator_name : option string;
  w_amount : Z;
  w_transaction_hash : string;
  w_block_number : Z;
  w_timestamp : Z;
  w_last_synced_at : Z;
  w_created_at : Z
}.

Record badge_row : Type := {
  b_token_id : Z;
  b_owner : string;
  b_name : string;
  b_transaction_hash : string;
  b_block_number : Z;
  b_timestamp : Z;
  b_last_synced_at : Z;
  b_created_at : Z
}.

(** [sync_status] has a serial key and no uniqueness on [entity_type]: it is
    a list of rows.  The two counters default to 0 and the source never
    writes NULL into them. *)
Record sync_row : Type := {
  s_entity_type : string;
  s_last_block_number : Z;
  s_last_synced_at : Z;
  s_total_synced : Z;
  s_status : string;
  s_error_message : option string;
  s_created_at : Z;
  s_updated_at : Z
}.

Record store : Type := {
  campaigns : gmap Z campaign_row;
  donations : gmap string donation_row;
  withdrawals : gmap string withdrawal_row;
  badges : gmap Z badge_row;
  sync_status : list sync_row;
  (* whether blockchain_donations has the three QRIS columns; the DDL under
     src/sql creates the table without them *)
  qris_columns : bool
}.

Definition set_campaigns (m : gmap Z campaign_row) (s : store) : store :=
  {| campaigns := m; donations := donations s; withdrawals := withdrawals s;
     badges := badges s; sync_status := sync_status s;
     qris_columns := qris_columns s |}.

Definition set_donations (m : gmap string donation_row) (s : store) : store :=
  {| campaigns := campaigns s; donations := m; withdrawals := withdrawals s;
     badges := badges s; sync_status := sync_status s;
     qris_columns := qris_columns s |}.

Definition set_withdrawals (m : gmap string withdrawal_row) (s : store) : store :=
  {| campaigns := campaigns s; donations := donations s; withdrawals := m;
     badges := badges s; sync_status := sync_status s;
     qris_columns := qris_columns s |}.

Definition set_badges (m : gmap Z badge_row) (s : store) : store :=
  {| campaigns := campaigns s; donations := donations s;
     withdrawals := withdrawals s; badges := m; sync_status := sync_status s;
     qris_columns := qris_columns s |}.

Definition set_sync_status (l : list sync_row) (s : store) : store :=
  {| campaigns := campaigns s; donations := donations s;
     withdrawals := withdrawals s; badges := badges s; sync_status := l;
     qris_columns := qris_columns s |}.

(** The seed of [blockchain_cache.sql]: empty tables and one healthy
    sync-status row per entity type, stamped with the setup time. *)
Definition seed_row (t0 : Z) (entity : string) : sync_row :=
  {| s_entity_type := entity; s_last_block_number := 0;
     s_last_synced_at := t0; s_total_synced := 0;
     s_status := "healthy"; s_error_message := None;
     s_created_at := t0; s_updated_at := t0 |}.

Definition ddl_store (t0 : Z) : store :=
  {| campaigns := ∅; donations := ∅; withdrawals := ∅; badges := ∅;
     sync_status := [seed_row t0 "campaign"; seed_row t0 "donation";
                     seed_row t0 "withdrawal"; seed_row t0 "badge"];
     qris_columns := false |}.

(** Largest value of an INTEGER column. *)
Definition int4_max : Z := 2147483647.

(* ===================================================================== *)
(** ** The statements of the upsert engine *)
(* ===================================================================== *)

Section Engine.
Context `{casts : PgCasts}.

(** Request bodies and indexer items, field by field as the source
    destructures them. *)
Record campaign_body : Type := {
  cb_id : jsval; cb_name : jsval; cb_creatorName : jsval; cb_owner : jsval;
  cb_balance : jsval; cb_targetAmount : jsval; cb_creationTime : jsval
}.

Record donation_body : Type := {
  db_id : jsval; db_campaignId : jsval; db_donor : jsval; db_amount : jsval;
  db_transactionHash : jsval; db_blockNumber : jsval; db_timestamp : jsval
}.

Record withdrawal_body : Type := {
  wb_id : jsval; wb_campaignId : jsval; wb_name : jsval; wb_owner : jsval;
  wb_creatorName : jsval; wb_amount : jsval; wb_transactionHash : jsval;
  wb_blockNumber : jsval; wb_timestamp : jsval
}.

Record badge_body : Type := {
  bb_tokenId : jsval; bb_owner : jsval; bb_name : jsval;
  bb_transactionHash : jsval; bb_blockNumber : jsval; bb_timestamp : jsval
}.

(** The tuple proposed by [INSERT INTO blockchain_campaigns (id, name,
    creator_name, owner, balance, target_amount, creation_time,
    last_synced_at) VALUES ($1, .., $7, CURRENT_TIMESTAMP)]: parameters are
    converted first, then the NOT NULL columns are checked. *)
Definition bind_campaign (now : Z)
    (id name creator owner balance target creation : jsval) : res campaign_row :=
  try! id := bind_col cast_integer id in
  try! name := bind_col (cast_varchar 255) name in
  try! creator := bind_col (cast_varchar 255) creator in
  try! owner := bind_col (cast_varchar 42) owner in
  try! balance := bind_col cast_numeric balance in
  try! target := bind_col cast_numeric target in
  try! creation := bind_col cast_bigint creation in
  try! id := not_null id in
  try! name := not_null name in
  try! owner := not_null owner in
  try! target := not_null target in
  try! creation := not_null creation in
  Ok {| c_id := id; c_name := name; c_creator_name := creator;
        c_owner := owner; c_balance := balance; c_target_amount := target;
        c_creation_time := creation; c_last_synced_at := now;
        c_created_at := now; c_updated_at := now |}.

Definition bind_donation (now : Z)
    (id campaign donor amount txhash block ts : jsval) : res donation_row :=
  try! id := bind_col (cast_varchar 255) id in
  try! campaign := bind_col cast_integer campaign in
  try! donor := bind_col (cast_varchar 42) donor in
  try! amount := bind_col cast_numeric amount in
  try! txhash := bind_col (cast_varchar 66) txhash in
  try! block := bind_col cast_bigint block in
  try! ts := bind_col cast_bigint ts in
  try! id := not_null id in
  try! campaign := not_null campaign in
  try! donor := not_null donor in
  try! amount := not_null amount in
  try! txhash := not_null txhash in
  try! block := not_null block in
  try! ts := not_null ts in
  Ok {| d_id := id; d_campaign_id := campaign; d_donor := donor;
        d_amount := amount; d_transaction_hash := txhash;
        d_block_number := block; d_timestamp := ts;
        d_last_synced_at := now; d_created_at := now;
        d_payment_method := JNull; d_qris_order_id := JNull;
        d_qris_gross_amount := JNull |}.

Definition bind_withdrawal (now : Z)
    (id campaign name owner creator amount txhash block ts : jsval)
    : res withdrawal_row :=
  try! id := bind_col (cast_varchar 255) id in
  try! campaign := bind_col cast_integer campaign in
  try! name := bind_col (cast_varchar 255) name in
  try! owner := bind_col (cast_varchar 42) owner in
  try! creator := bind_col (cast_varchar 255) creator in
  try! amount := bind_col cast_numeric amount in
  try! txhash := bind_col (cast_varchar 66) txhash in
  try! block := bind_col cast_bigint block in
  try! ts := bind_col cast_bigint ts in
  try! id := not_null id in
  try! campaign := not_null campaign in
  try! owner := not_null owner in
  try! amount := not_null amount in
  try! txhash := not_null txhash in
  try! block := not_null block in
  try! ts := not_null ts in
  Ok {| w_id := id; w_campaign_id := campaign; w_name := name;
        w_owner := owner; w_creator_name := creator; w_amount := amount;
        w_transaction_hash := txhash; w_block_number := block;
        w_timestamp := ts; w_last_synced_at := now; w_created_at := now |}.

Definition bind_badge (now : Z)
    (token owner name txhash block ts : jsval) : res badge_row :=
  try! token := bind_col cast_integer token in
  try! owner := bind_col (cast_varchar 42) owner in
  try! name := bind_col (cast_varchar 255) name in
  try! txhash := bind_col (cast_varchar 66) txhash in
  try! block := bind_col cast_bigint block in
  try! ts := bind_col cast_bigint ts in
  try! token := not_null token in
  try! owner := not_null owner in
  try! name := not_null name in
  try! txhash := not_null txhash in
  try! block := not_null block in
  try! ts := not_null ts in
  Ok {| b_token_id := token; b_owner := owner; b_name := name;
        b_transaction_hash := txhash; b_block_number := block;
        b_timestamp := ts; b_last_synced_at := now; b_created_at := now |}.

(** [ON CONFLICT (id) DO UPDATE SET ...], one function per SET list of the
    source; [old] is the stored row and [ex] the EXCLUDED one.  The
    BEFORE UPDATE trigger of blockchain_campaigns stamps [updated_at] on
    every path. *)

(* syncCampaign: name, creator_name, owner, balance, target_amount,
   last_synced_at, updated_at *)
Definition campaign_set_webhook (now : Z) (old ex : campaign_row) : campaign_row :=
  {| c_id := c_id old; c_name := c_name ex;
     c_creator_name := c_creator_name ex; c_owner := c_owner ex;
     c_balance := c_balance ex; c_target_amount := c_target_amount ex;
     c_creation_time := c_creation_time old; c_last_synced_at := now;
     c_created_at := c_created_at old; c_updated_at := now |}.

(* syncFromPonder: name, creator_name, balance, target_amount,
   last_synced_at, updated_at *)
Definition campaign_set_poller (now : Z) (old ex : campaign_row) : campaign_row :=
  {| c_id := c_id old; c_name := c_name ex;
     c_creator_name := c_creator_name ex; c_owner := c_owner old;
     c_balance := c_balance ex; c_target_amount := c_target_amount ex;
     c_creation_time := c_creation_time old; c_last_synced_at := now;
     c_created_at := c_created_at old; c_updated_at := now |}.

(* syncBatch: name, balance, target_amount, last_synced_at *)
Definition campaign_set_batch (now : Z) (old ex : campaign_row) : campaign_row :=
  {| c_id := c_id old; c_name := c_name ex;
     c_creator_name := c_creator_name old; c_owner := c_owner old;
     c_balance := c_balance ex; c_target_amount := c_target_amount ex;
     c_creation_time := c_creation_time old; c_last_synced_at := now;
     c_created_at := c_created_at old; c_updated_at := now |}.

(* badges, all three paths: owner, last_synced_at *)
Definition badge_set (now : Z) (old ex : badge_row) : badge_row :=
  {| b_token_id := b_token_id old; b_owner := b_owner ex;
     b_name := b_name old; b_transaction_hash := b_transaction_hash old;
     b_block_number := b_block_number old; b_timestamp := b_timestamp old;
     b_last_synced_at := now; b_created_at := b_created_at old |}.

Definition upsert_campaign
    (on_conflict : Z -> campaign_row -> campaign_row -> campaign_row)
    (now : Z) (r : campaign_row) (s : store) : store :=
  match campaigns s !! c_id r with
  | Some old => set_campaigns (<[c_id r := on_conflict now old r]> (campaigns s)) s
  | None => set_campaigns (<[c_id r := r]> (campaigns s)) s
  end.

Definition upsert_badge (now : Z) (r : badge_row) (s : store) : store :=
  match badges s !! b_token_id r with
  | Some old => set_badges (<[b_token_id r := badge_set now old r]> (badges s)) s
  | None => set_badges (<[b_token_id r := r]> (badges s)) s
  end.

(** [INSERT INTO blockchain_donations ... ON CONFLICT (id) DO NOTHING]: a
    row with the same id stops the insert; otherwise the referenced
    campaign must exist. *)
Definition insert_donation_do_nothing (r : donation_row) (s : store) : res store :=
  match donations s !! d_id r with
  | Some _ => Ok s
  | None =>
      match campaigns s !! d_campaign_id r with
      | Some _ => Ok (set_donations (<[d_id r := r]> (donations s)) s)
      | None => Err ForeignKeyViolation
      end
  end.

Definition insert_withdrawal_do_nothing (r : withdrawal_row) (s : store) : res store :=
  match withdrawals s !! w_id r with
  | Some _ => Ok s
  | None =>
      match campaigns s !! w_campaign_id r with
      | Some _ => Ok (set_withdrawals (<[w_id r := r]> (withdrawals s)) s)
      | None => Err ForeignKeyViolation
      end
  end.

(** The parameter lists as the three paths build them. *)

(* syncCampaign 77-85 and syncFromPonder 72-80 *)
Definition campaign_tuple (now : Z) (b : campaign_body) : res campaign_row :=
  bind_campaign now (cb_id b) (cb_name b)
    (js_or (cb_creatorName b) (JStr "")) (cb_owner b)
    (js_or (cb_balance b) (JStr "0")) (cb_targetAmount b) (cb_creationTime b).

(* syncBatch 414-422 *)
Definition campaign_tuple_batch (now : Z) (b : campaign_body) : res campaign_row :=
  bind_campaign now (cb_id b) (cb_name b) (cb_creatorName b) (cb_owner b)
    (cb_balance b) (cb_targetAmount b) (cb_creationTime b).

(* syncDonation 224, syncFromPonder 118-126, syncBatch 437-445 *)
Definition donation_tuple (now : Z) (b : donation_body) : res donation_row :=
  bind_donation now (db_id b) (db_campaignId b) (db_donor b) (db_amount b)
    (db_transactionHash b) (db_blockNumber b) (db_timestamp b).

(* syncWithdrawal 295-305 and syncFromPonder 214-224 *)
Definition withdrawal_tuple (now : Z) (b : withdrawal_body) : res withdrawal_row :=
  bind_withdrawal now (wb_id b) (wb_campaignId b)
    (js_or (wb_name b) (JStr "")) (wb_owner b)
    (js_or (wb_creatorName b) (JStr "")) (wb_amount b)
    (wb_transactionHash b) (wb_blockNumber b) (wb_timestamp b).

(* syncBatch 460-470 *)
Definition withdrawal_tuple_batch (now : Z) (b : withdrawal_body) : res withdrawal_row :=
  bind_withdrawal now (wb_id b) (wb_campaignId b) (wb_name b) (wb_owner b)
    (wb_creatorName b) (wb_amount b) (wb_transactionHash b)
    (wb_blockNumber b) (wb_timestamp b).

(* syncBadge 360, syncFromPonder 166-173, syncBatch 485-492 *)
Definition badge_tuple (now : Z) (b : badge_body) : res badge_row :=
  bind_badge now (bb_tokenId b) (bb_owner b) (bb_name b)
    (bb_transactionHash b) (bb_blockNumber b) (bb_timestamp b).

(** The statements as the three paths issue them. *)

(* syncCampaign, syncController.ts 62-86 *)
Definition sql_campaign_webhook (now : Z) (b : campaign_body) (s : store) : res store :=
  try! r := campaign_tuple now b in
  Ok (upsert_campaign campaign_set_webhook now r s).

(* syncFromPonder, autoSync.ts 57-83 *)
Definition sql_campaign_poller (now : Z) (b : campaign_body) (s : store) : res store :=
  try! r := campaign_tuple now b in
  Ok (upsert_campaign campaign_set_poller now r s).

(* syncBatch, syncController.ts 404-426 *)
Definition sql_campaign_batch (now : Z) (b : campaign_body) (s : store) : res store :=
  try! r := campaign_tuple_batch now b in
  Ok (upsert_campaign campaign_set_batch now r s).

(* syncDonation 216-225, syncFromPonder 109-130, syncBatch 430-448 *)
Definition sql_donation (now : Z) (b : donation_body) (s : store) : res store :=
  try! r := donation_tuple now b in
  insert_donation_do_nothing r s.

(* syncWithdrawal 287-306 and syncFromPonder 205-227 *)
Definition sql_withdrawal (now : Z) (b : withdrawal_body) (s : store) : res store :=
  try! r := withdrawal_tuple now b in
  insert_withdrawal_do_nothing r s.

(* syncBatch 453-473 *)
Definition sql_withdrawal_batch (now : Z) (b : withdrawal_body) (s : store) : res store :=
  try! r := withdrawal_tuple_batch now b in
  insert_withdrawal_do_nothing r s.

(* syncBadge 350-361, syncFromPonder 155-175, syncBatch 478-495 *)
Definition sql_badge (now : Z) (b : badge_body) (s : store) : res store :=
  try! r := badge_tuple now b in
  Ok (upsert_badge now r s).

(* --------------------------------------------------------------------- *)
(** *** The sync-status ledger *)
(* --------------------------------------------------------------------- *)

(** One row under [UPDATE sync_status SET last_block_number =
    COALESCE($1, last_block_number), last_synced_at = CURRENT_TIMESTAMP,
    total_synced = total_synced + 1, status = 'healthy',
    error_message = NULL]; [total_synced] is an INTEGER, and the trigger
    stamps [updated_at]. *)
Definition update_sync_row (now : Z) (block : option Z) (r : sync_row) : res sync_row :=
  if int4_max <? s_total_synced r + 1 then Err NumericOutOfRange
  else Ok {| s_entity_type := s_entity_type r;
             s_last_block_number :=
               match block with Some b => b | None => s_last_block_number r end;
             s_last_synced_at := now;
             s_total_synced := s_total_synced r + 1;
             s_status := "healthy";
             s_error_message := None;
             s_created_at := s_created_at r;
             s_updated_at := now |}.

(** [... WHERE entity_type = $2] over the rows of the table. *)
Fixpoint update_sync_rows (now : Z) (block : option Z) (entity : string)
    (rows : list sync_row) : res (list sync_row) :=
  match rows with
  | [] => Ok []
  | r :: rest =>
      try! r' := (if String.eqb (s_entity_type r) entity
                  then update_sync_row now block r else Ok r) in
      try! rest' := update_sync_rows now block entity rest in
      Ok (r' :: rest')
  end.

Definition sql_update_sync_status (now : Z) (entity : string) (blockNumber : jsval)
    (s : store) : res store :=
  try! block := bind_col cast_bigint blockNumber in
  try! rows := update_sync_rows now block entity (sync_status s) in
  Ok (set_sync_status rows s).

(** A statement that does not write to sync_status. *)
Definition ledger_kept (stmt : store -> res store) : Prop :=
  forall s s', stmt s = Ok s' -> sync_status s' = sync_status s.

(** No counter of the entity type is at the top of INTEGER. *)
Definition counter_room (entity : string) (rows : list sync_row) : bool :=
  forallb (fun r => negb (String.eqb (s_entity_type r) entity)
                    || (s_total_synced r + 1 <=? int4_max)) rows.

(** [updateSyncStatus]: the statement runs inside try/catch and a failure
    is only logged. *)
Definition updateSyncStatus (now : Z) (entity : string) (blockNumber : jsval)
    (s : store) : store :=
  match sql_update_sync_status now entity blockNumber s with
  | Ok s' => s'
  | Err _ => s
  end.

End Engine.

(* ===================================================================== *)
(** ** The webhook receiver (syncController.ts) *)
(* ===================================================================== *)

(** What a handler sends back: the HTTP status, the [success] flag and the
    message, which for a caught exception is the message of the error. *)
Inductive message : Type :=
  | Text (s : string)
  | Raised (e : dberror).

Record response : Type := {
  r_status : nat;
  r_success : bool;
  r_message : message
}.

Definition reply_ok (m : string) : response :=
  {| r_status := 200; r_success := true; r_message := Text m |}.

Definition reply_missing : response :=
  {| r_status := 400; r_success := false;
     r_message := Text "Missing required fields" |}.

Definition reply_error (e : dberror) : response :=
  {| r_status := 500; r_success := false; r_message := Raised e |}.

Section Webhook.
Context `{casts : PgCasts}.

(** Every statement of a single-entity handler runs on its own (no BEGIN):
    a statement that raises leaves the store as it was. *)
(** The test of line 53. *)
Definition campaign_rejected (b : campaign_body) : bool :=
  is_undefined (cb_id b) || negb (truthy (cb_name b))
  || negb (truthy (cb_owner b)) || negb (truthy (cb_targetAmount b))
  || negb (truthy (cb_creationTime b)).

Definition syncCampaign (now : Z) (b : campaign_body) (s : store) : response * store :=
  if campaign_rejected b
  then (reply_missing, s)
  else match sql_campaign_webhook now b s with
       | Ok s' => (reply_ok "Campaign synced successfully",
                   updateSyncStatus now "campaign" JUndefined s')
       | Err e => (reply_error e, s)
       end.

(** The test of lines 190-198. *)
Definition donation_rejected (b : donation_body) : bool :=
  is_undefined (db_id b) || is_undefined (db_campaignId b)
  || negb (truthy (db_donor b)) || negb (truthy (db_amount b))
  || negb (truthy (db_transactionHash b))
  || negb (truthy (db_blockNumber b)) || negb (truthy (db_timestamp b)).

Definition syncDonation (now : Z) (b : donation_body) (s : store) : response * store :=
  if donation_rejected b
  then (reply_missing, s)
  else match sql_donation now b s with
       | Ok s' => (reply_ok "Donation synced successfully",
                   updateSyncStatus now "donation" (db_blockNumber b) s')
       | Err e => (reply_error e, s)
       end.

Definition syncWithdrawal (now : Z) (b : withdrawal_body) (s : store) : response * store :=
  if is_undefined (wb_id b) || is_undefined (wb_campaignId b)
     || negb (truthy (wb_owner b)) || negb (truthy (wb_amount b))
     || negb (truthy (wb_transactionHash b))
  then (reply_missing, s)
  else match sql_withdrawal now b s with
       | Ok s' => (reply_ok "Withdrawal synced successfully",
                   updateSyncStatus now "withdrawal" (wb_blockNumber b) s')
       | Err e => (reply_error e, s)
       end.

(** The test of line 341. *)
Definition badge_rejected (b : badge_body) : bool :=
  is_undefined (bb_tokenId b) || negb (truthy (bb_owner b))
  || negb (truthy (bb_name b)) || negb (truthy (bb_transactionHash b)).

Definition syncBadge (now : Z) (b : badge_body) (s : store) : response * store :=
  if badge_rejected b
  then (reply_missing, s)
  else match sql_badge now b s with
       | Ok s' => (reply_ok "Badge synced successfully",
                   updateSyncStatus now "badge" (bb_blockNumber b) s')
       | Err e => (reply_error e, s)
       end.

(* --------------------------------------------------------------------- *)
(** *** The batch endpoint and its transaction *)
(* --------------------------------------------------------------------- *)

(** A connection: the committed store and, between BEGIN and COMMIT or
    ROLLBACK, the working copy of the open transaction.  A statement that
    raises inside a transaction leaves it failed. *)
Inductive txn_state : Type :=
  | Idle
  | Open (work : store)
  | Failed.

Record session : Type := {
  committed : store;
  txn : txn_state
}.

(** Computations on a connection that may throw. *)
Definition db (A : Type) : Type := session -> res A * session.

Definition db_ret {A} (a : A) : db A := fun c => (Ok a, c).

Definition db_bind {A B} (m : db A) (k : A -> db B) : db B :=
  fun c => match m c with
           | (Ok a, c') => k a c'
           | (Err e, c') => (Err e, c')
           end.

Notation "'await!' x := m 'in' k" := (db_bind m (fun x => k))
  (at level 10, x name, m at level 100, k at level 200).

(** [client.query(stmt)]. *)
Definition query (stmt : store -> res store) : db unit :=
  fun c =>
    match txn c with
    | Idle =>
        match stmt (committed c) with
        | Ok s' => (Ok tt, {| committed := s'; txn := Idle |})
        | Err e => (Err e, c)
        end
    | Open w =>
        match stmt w with
        | Ok w' => (Ok tt, {| committed := committed c; txn := Open w' |})
        | Err e => (Err e, {| committed := committed c; txn := Failed |})
        end
    | Failed => (Err InFailedTransaction, c)
    end.

Definition sql_begin : db unit :=
  fun c =>
    match txn c with
    | Idle => (Ok tt, {| committed := committed c; txn := Open (committed c) |})
    | Open _ => (Ok tt, c)
    | Failed => (Err InFailedTransaction, c)
    end.

Definition sql_commit : db unit :=
  fun c =>
    match txn c with
    | Open w => (Ok tt, {| committed := w; txn := Idle |})
    | _ => (Ok tt, {| committed := committed c; txn := Idle |})
    end.

Definition sql_rollback : db unit :=
  fun c => (Ok tt, {| committed := committed c; txn := Idle |}).

(** [for (const x of items) { await client.query(..., x); count++ }] *)
Fixpoint for_each {A} (stmt : A -> store -> res store) (items : list A) (count : nat)
    : db nat :=
  match items with
  | [] => db_ret count
  | x :: rest =>
      await! _ := query (stmt x) in
      for_each stmt rest (S count)
  end.

(** [if (items && Array.isArray(items)) { for ... }]; [None] stands for a
    field that is absent or not an array. *)
Definition batch_loop {A} (stmt : A -> store -> res store) (items : option (list A))
    : db nat :=
  match items with
  | Some l => for_each stmt l 0
  | None => db_ret 0%nat
  end.

Record batch_body : Type := {
  bt_campaigns : option (list campaign_body);
  bt_donations : option (list donation_body);
  bt_withdrawals : option (list withdrawal_body);
  bt_badges : option (list badge_body)
}.

Record syncedCount : Type := {
  n_campaigns : nat; n_donations : nat; n_withdrawals : nat; n_badges : nat
}.

(** The body of the try block of [syncBatch]. *)
Definition batch_statements (now : Z) (b : batch_body) : db syncedCount :=
  await! _ := sql_begin in
  await! nc := batch_loop (sql_campaign_batch now) (bt_campaigns b) in
  await! nd := batch_loop (sql_donation now) (bt_donations b) in
  await! nw := batch_loop (sql_withdrawal_batch now) (bt_withdrawals b) in
  await! nb := batch_loop (sql_badge now) (bt_badges b) in
  await! _ := sql_commit in
  db_ret {| n_campaigns := nc; n_donations := nd;
            n_withdrawals := nw; n_badges := nb |}.

(** [syncBatch] on a fresh connection of the pool: the catch block rolls
    back and answers 500. *)
Definition syncBatch (now : Z) (b : batch_body) (s : store)
    : response * option syncedCount * store :=
  match batch_statements now b {| committed := s; txn := Idle |} with
  | (Ok n, c) => (reply_ok "Batch sync completed", Some n, committed c)
  | (Err e, c) => (reply_error e, None, committed (snd (sql_rollback c)))
  end.

(** Inside a transaction: the committed store is [s] and BEGIN has run. *)
Definition inside (s : store) (c : session) : Prop :=
  committed c = s /\ txn c <> Idle.

(** The ledger is [l] in the committed store and in the working copy. *)
Definition ledger_is (l : list sync_row) (c : session) : Prop :=
  sync_status (committed c) = l /\
  match txn c with Open w => sync_status w = l | _ => True end.

(** Computations that raise on every connection. *)
Definition raises {A} (m : db A) : Prop :=
  forall c, exists e c', m c = (Err e, c').

(** An array of the batch holds an item whose parameters the server does
    not accept: a value of the wrong type, or nothing for a NOT NULL
    column. *)
Definition is_err {A} (r : res A) : bool :=
  match r with Ok _ => false | Err _ => true end.

Definition unbindable {A B} (tuple : A -> res B) (items : option (list A)) : bool :=
  match items with
  | Some l => existsb (fun x => is_err (tuple x)) l
  | None => false
  end.

Definition malformed (now : Z) (b : batch_body) : bool :=
  unbindable (campaign_tuple_batch now) (bt_campaigns b)
  || unbindable (donation_tuple now) (bt_donations b)
  || unbindable (withdrawal_tuple_batch now) (bt_withdrawals b)
  || unbindable (badge_tuple now) (bt_badges b).

End Webhook.

(* ===================================================================== *)
(** ** The poller (autoSync.ts) *)
(* ===================================================================== *)

Section Poller.
Context `{casts : PgCasts}.

(** What the indexer answers to the four queries of one cycle; [None] is a
    request that threw, a missing [items] is the empty list. *)
Record indexer : Type := {
  ix_campaigns : option (list campaign_body);
  ix_donations : option (list donation_body);
  ix_badges : option (list badge_body);
  ix_withdrawals : option (list withdrawal_body)
}.

(** One [for] loop of the poller.  Statements commit one by one; the first
    one that raises ends the loop through the catch of its entity type. *)
Fixpoint poll_each {A} (stmt : A -> store -> res store) (items : list A)
    (s : store) (count : nat) : store * nat :=
  match items with
  | [] => (s, count)
  | x :: rest =>
      match stmt x s with
      | Ok s' => poll_each stmt rest s' (S count)
      | Err _ => (s, count)
      end
  end.

Definition poll_entity {A} (stmt : A -> store -> res store)
    (feed : option (list A)) (s : store) : store * nat :=
  match feed with
  | Some items => poll_each stmt items s 0
  | None => (s, 0%nat)
  end.

(** The four try blocks, in the order of the source. *)
Inductive phase : Type := PhCampaigns | PhDonations | PhBadges | PhWithdrawals.

Definition run_phase (now : Z) (ix : indexer) (ph : phase) (s : store) : store :=
  match ph with
  | PhCampaigns => fst (poll_entity (sql_campaign_poller now) (ix_campaigns ix) s)
  | PhDonations => fst (poll_entity (sql_donation now) (ix_donations ix) s)
  | PhBadges => fst (poll_entity (sql_badge now) (ix_badges ix) s)
  | PhWithdrawals => fst (poll_entity (sql_withdrawal now) (ix_withdrawals ix) s)
  end.

Definition next_phase (ph : phase) : option phase :=
  match ph with
  | PhCampaigns => Some PhDonations
  | PhDonations => Some PhBadges
  | PhBadges => Some PhWithdrawals
  | PhWithdrawals => None
  end.

(** The process as the event loop runs it.  An invocation of
    [syncFromPonder] runs without interruption up to its next [await];
    [tasks] are the invocations suspended at one: at [pool.connect()], or
    inside the try block before the given phase.  One phase is taken as
    one step. *)
Inductive task : Type :=
  | Connecting
  | Syncing (ph : phase).

Record process : Type := {
  isRunning : bool;
  tasks : list task;
  pstore : store;
  requests : nat;      (* queries sent to the indexer *)
  skipped : nat        (* "Sync already in progress, skipping..." *)
}.

Inductive event : Type :=
  | Tick                                         (* syncFromPonder() is called *)
  | Connected (i : nat) (ok : bool)              (* pool.connect() settles *)
  | Resumed (i : nat) (now : Z) (ix : indexer).  (* task i runs its phase *)

Definition step (e : event) (p : process) : process :=
  match e with
  | Tick =>
      if isRunning p
      then {| isRunning := isRunning p; tasks := tasks p; pstore := pstore p;
              requests := requests p; skipped := S (skipped p) |}
      else {| isRunning := true; tasks := tasks p ++ [Connecting];
              pstore := pstore p; requests := requests p;
              skipped := skipped p |}
  | Connected i ok =>
      match tasks p !! i with
      | Some Connecting =>
          if ok
          then {| isRunning := isRunning p;
                  tasks := <[i := Syncing PhCampaigns]> (tasks p);
                  pstore := pstore p; requests := requests p;
                  skipped := skipped p |}
          else (* the await is outside the try: the rejection leaves the
                  function, and nothing resets the flag *)
               {| isRunning := isRunning p; tasks := delete i (tasks p);
                  pstore := pstore p; requests := requests p;
                  skipped := skipped p |}
      | _ => p
      end
  | Resumed i now ix =>
      match tasks p !! i with
      | Some (Syncing ph) =>
          match next_phase ph with
          | Some ph' =>
              {| isRunning := isRunning p;
                 tasks := <[i := Syncing ph']> (tasks p);
                 pstore := run_phase now ix ph (pstore p);
                 requests := S (requests p); skipped := skipped p |}
          | None =>
              (* finally: client.release(); isRunning = false *)
              {| isRunning := false; tasks := delete i (tasks p);
                 pstore := run_phase now ix ph (pstore p);
                 requests := S (requests p); skipped := skipped p |}
          end
      | _ => p
      end
  end.

Definition run (es : list event) (p : process) : process :=
  fold_left (fun q e => step e q) es p.

Definition boot (s : store) : process :=
  {| isRunning := false; tasks := []; pstore := s;
     requests := 0; skipped := 0 |}.

(** The property of the flag: at most one invocation is past the test, and
    while there is one the flag is set. *)
Definition single_flight (p : process) : Prop :=
  tasks p = [] \/ (exists t, tasks p = [t] /\ isRunning p = true).

(** The flag is set although no invocation is left to clear it. *)
Definition wedged (s : store) (p : process) : Prop :=
  isRunning p = true /\ tasks p = [] /\ pstore p = s /\ requests p = 0%nat.

End Poller.

(* ===================================================================== *)
(** ** Strings of the settlement path *)
(* ===================================================================== *)

(** [s.includes(needle)]. *)
Fixpoint includes (s needle : string) : bool :=
  String.prefix needle s
  || match s with
     | EmptyString => false
     | String _ rest => includes rest needle
     end.

(** [s.split(sep)] for a one-character separator. *)
Fixpoint split_on (sep : ascii) (s : string) : list string :=
  match s with
  | EmptyString => [EmptyString]
  | String c rest =>
      if Ascii.eqb c sep then EmptyString :: split_on sep rest
      else match split_on sep rest with
           | t :: ts => String c t :: ts
           | [] => [String c EmptyString]
           end
  end.

(** [k] holds of some suffix of [s]: what [%] does in a LIKE pattern. *)
Fixpoint like_any (k : string -> bool) (s : string) : bool :=
  k s
  || match s with
     | EmptyString => false
     | String _ rest => like_any k rest
     end.

(** [s LIKE p] with the default escape character: [%] is any sequence,
    [_] any one character, a backslash takes the next character
    literally.  (A pattern that ends in a lone backslash is an error of
    the server; the patterns built below end in [%].) *)
Fixpoint sql_like (p s : string) : bool :=
  match p with
  | EmptyString => match s with EmptyString => true | _ => false end
  | String c p' =>
      if Ascii.eqb c "%"%char then like_any (sql_like p') s
      else if Ascii.eqb c "_"%char then
        match s with
        | String _ s' => sql_like p' s'
        | EmptyString => false
        end
      else if Ascii.eqb c "\"%char then
        match p', s with
        | String e p'', String d s' => Ascii.eqb e d && sql_like p'' s'
        | _, _ => false
        end
      else
        match s with
        | String d s' => Ascii.eqb c d && sql_like p' s'
        | EmptyString => false
        end
  end.

(** The decimal digits of an integer, with its sign. *)
Definition show (n : Z) : string := NilZero.string_of_int (Z.to_int n).

(** The IEEE double nearest to a natural number, ties to the even
    significand; [2 ^ 1024] stands for a value out of range. *)
Definition to_double (m : Z) : Z :=
  if m <? 2 ^ 53 then m
  else
    let e := Z.log2 m - 52 in
    let q := Z.shiftr m e in
    let r := m - Z.shiftl q e in
    let half := 2 ^ (e - 1) in
    let q' := if (half <? r) || ((r =? half) && Z.odd q) then q + 1 else q in
    Z.shiftl q' e.

Definition decimal_length (m : Z) : Z := Z.of_nat (String.length (show m)).

(** The number with [k] significant digits that reads back as the double
    [x] (of [d] digits), the nearer one and then the even one when there
    are two. *)
Definition with_digits (x d k : Z) : option Z :=
  let u := 10 ^ (d - k) in
  let s := x / u in
  let lo := s * u in
  let hi := lo + u in
  match to_double lo =? x, to_double hi =? x with
  | true, true =>
      Some (if x - lo <? hi - x then lo
            else if hi - x <? x - lo then hi
            else if Z.even s then lo else hi)
  | true, false => Some lo
  | false, true => Some hi
  | false, false => None
  end.

(** The fewest digits first. *)
Fixpoint shortest (x d k : Z) (fuel : nat) : Z :=
  match fuel with
  | O => x
  | S fuel' =>
      match with_digits x d k with
      | Some v => v
      | None => shortest x d (k + 1) fuel'
      end
  end.

Fixpoint strip_zeros (s : string) : string :=
  match s with
  | EmptyString => EmptyString
  | String c rest =>
      match strip_zeros rest with
      | EmptyString => if Ascii.eqb c "0"%char then EmptyString
                       else String c EmptyString
      | rest' => String c rest'
      end
  end.

(** [d.ddde+n] *)
Definition exponent_form (v : Z) : string :=
  let digits := show v in
  let e := show (decimal_length v - 1) in
  match strip_zeros digits with
  | EmptyString => digits
  | String c EmptyString => String c ("e+" +:+ e)
  | String c rest => String c ("." +:+ rest +:+ "e+" +:+ e)
  end.

(** [`${n}`] and [String(n)] for a number whose value is the integer [n]
    (Number::toString of ECMAScript).  Every integer up to [2 ^ 53] is a
    number of its own and is printed with all its digits.  Above, the
    number is the double nearest to [n]; it is printed with the fewest
    digits that read back as that double, followed by zeros below
    [10 ^ 21] and in exponent form from there on. *)
Definition number_text (n : Z) : string :=
  if Z.abs n <=? 2 ^ 53 then show n
  else
    let x := to_double (Z.abs n) in
    let sign := if n <? 0 then "-" else "" in
    if 2 ^ 1024 <=? x then sign +:+ "Infinity"
    else
      let v := shortest x (decimal_length x) 1 17 in
      sign +:+ (if v <? 10 ^ 21 then show v else exponent_form v).

(* ===================================================================== *)
(** ** The Chain Writer (contributionController.ts, mintAndDonateIDRX) *)
(* ===================================================================== *)

(** A thrown JavaScript error, as far as the catch block reads it. *)
Record jserror : Type := {
  e_code : option string;
  e_message : option string
}.

(** Confirmed transactions of the backend wallet, oldest first. *)
Inductive chain_tx : Type :=
  | TxMint (nonce : nat) (amount : Z)
  | TxApprove (nonce : nat) (amount : Z)
  | TxDonate (nonce : nat) (campaignId : Z) (amount : Z).

Definition chain : Type := list chain_tx.

Record receipt : Type := {
  rc_hash : string;
  rc_block : Z
}.

Record addresses : Type := {
  idrxAddress : string;
  campaignAddress : string
}.

(** What the outside world answers during one run of the sequence: the
    contract set-up, then for each step either the error thrown by the
    nonce query, the submission or the wait, or the receipt. *)
Record oracle : Type := {
  o_setup : jserror + addresses;
  o_mint : jserror + receipt;
  o_approve : jserror + receipt;
  o_donate : jserror + receipt
}.

(** Library functions of the runtime that the handler calls. *)
Class Runtime : Type := {
  parseInt : string -> option Z;        (* [None] is NaN *)
  parseFloat : string -> option Z;      (* [None] is NaN; whole amounts *)
  parseUnits2 : Z -> jserror + Z;       (* parseUnits(amount.toString(), 2) *)
  toLowerCase : string -> string
}.

Record donate_data : Type := {
  mintTxHash : string;
  approveTxHash : string;
  donateTxHash : string;
  blockNumber : Z;
  dd_amount : Z;
  dd_campaignId : Z;
  dd_idrxAddress : string;
  dd_campaignAddress : string
}.

(** [{ success: true, data }] or [{ success: false, message, error }]. *)
Inductive donate_result : Type :=
  | Donated (data : donate_data)
  | Failure (message : string) (error : option string).

Definition code_is (err : jserror) (c : string) : bool :=
  match e_code err with
  | Some c' => String.eqb c' c
  | None => false
  end.

(** [err.message?.includes(needle)], read as a condition. *)
Definition message_includes (err : jserror) (needle : string) : bool :=
  match e_message err with
  | Some m => includes m needle
  | None => false
  end.

(** [err.code === 'NONCE_EXPIRED' || err.message?.includes('nonce')] *)
Definition is_nonce_error (err : jserror) : bool :=
  code_is err "NONCE_EXPIRED" || message_includes err "nonce".

(** The answer of the first branch of the catch block. *)
Definition nonce_conflict : donate_result :=
  Failure "Transaction nonce conflict. Please try again in a few seconds."
          (Some "NONCE_ERROR").

(** The catch block of [mintAndDonateIDRX], lines 567-592. *)
Definition classify (campaignId : Z) (err : jserror) : donate_result :=
  if is_nonce_error err then nonce_conflict
  else if message_includes err "CampaignNotFound" then
    Failure ("Campaign #" +:+ number_text campaignId
             +:+ " does not exist on blockchain")
            (Some "CAMPAIGN_NOT_FOUND")
  else
    Failure (match e_message err with
             | Some m => if String.eqb m "" then "Failed to mint and donate IDRX"
                         else m
             | None => "Failed to mint and donate IDRX"
             end)
            None.

Section ChainWriter.
Context `{rt : Runtime}.

(** The nonce of every step is the transaction count of the wallet at
    that moment. *)
Definition mintAndDonateIDRX (amount : option Z) (campaignId : Z) (o : oracle)
    (ch : chain) : donate_result * chain :=
  match amount with
  | None => (Failure "Amount and campaignId are required" None, ch)
  | Some a =>
      if a =? 0 then (Failure "Amount and campaignId are required" None, ch)
      else
      match o_setup o with
      | inl err => (classify campaignId err, ch)
      | inr addr =>
          match parseUnits2 a with
          | inl err => (classify campaignId err, ch)
          | inr amountToMint =>
              match o_mint o with
              | inl err => (classify campaignId err, ch)
              | inr mintTx =>
                  let ch1 := ch ++ [TxMint (length ch) amountToMint] in
                  match o_approve o with
                  | inl err => (classify campaignId err, ch1)
                  | inr approveTx =>
                      let ch2 := ch1 ++ [TxApprove (length ch1) amountToMint] in
                      match o_donate o with
                      | inl err => (classify campaignId err, ch2)
                      | inr donateReceipt =>
                          (Donated
                             {| mintTxHash := rc_hash mintTx;
                                approveTxHash := rc_hash approveTx;
                                donateTxHash := rc_hash donateReceipt;
                                blockNumber := rc_block donateReceipt;
                                dd_amount := a;
                                dd_campaignId := campaignId;
                                dd_idrxAddress := idrxAddress addr;
                                dd_campaignAddress := campaignAddress addr |},
                           ch2 ++ [TxDonate (length ch2) campaignId amountToMint])
                      end
                  end
              end
          end
      end
  end.

End ChainWriter.

(** How many sequences were started on a chain: one per confirmed mint. *)
Definition is_mint (t : chain_tx) : bool :=
  match t with TxMint _ _ => true | _ => false end.

Definition sequences (ch : chain) : nat := length (List.filter is_mint ch).

(* ===================================================================== *)
(** ** The settlement handler (contributionController.ts, getQRISStatus) *)
(* ===================================================================== *)

(** The fields read from the answer of the payment provider. *)
Record midtrans : Type := {
  transaction_status : string;
  order_id : string;
  gross_amount : string
}.

(** The store and the chain, which the handler both touches. *)
Record world : Type := {
  w_store : store;
  w_chain : chain
}.

Inductive qris_reply : Type :=
  | AlreadyProcessed (row : donation_row)         (* 200 *)
  | NotSettled (status : string)                  (* 200, success: false *)
  | InvalidOrderId                                (* 400 *)
  | CampaignNotFound                              (* 404 *)
  | MintFailed (message : string)                 (* 500 *)
  | Processed (data : donate_data) (donationId : string)  (* 200 *)
  | InternalError.                                (* 500, outer catch *)

Definition zero_address : string := "0x0000000000000000000000000000000000000000".

Section Settlement.
Context `{casts : PgCasts} `{rt : Runtime}.

(** [`qris-${orderId}%`] *)
Definition qris_pattern (orderId : string) : string :=
  "qris-" +:+ orderId +:+ "%".

(** [SELECT * FROM blockchain_donations WHERE id LIKE $1]; the query has
    no ORDER BY, the rows come in the order of the map. *)
Definition select_donations_like (pattern : string) (s : store) : list donation_row :=
  List.filter (fun r => sql_like pattern (d_id r))
              (snd <$> map_to_list (donations s)).

(** The INSERT of lines 414-431: no ON CONFLICT clause, and three columns
    that the table must have. *)
Definition sql_qris_donation (now : Z)
    (id campaign donor amount txhash block ts method order gross : jsval)
    (s : store) : res store :=
  if qris_columns s then
    try! r := bind_donation now id campaign donor amount txhash block ts in
    match donations s !! d_id r with
    | Some _ => Err UniqueViolation
    | None =>
        match campaigns s !! d_campaign_id r with
        | Some _ =>
            Ok (set_donations
                  (<[d_id r :=
                       {| d_id := d_id r; d_campaign_id := d_campaign_id r;
                          d_donor := d_donor r; d_amount := d_amount r;
                          d_transaction_hash := d_transaction_hash r;
                          d_block_number := d_block_number r;
                          d_timestamp := d_timestamp r;
                          d_last_synced_at := d_last_synced_at r;
                          d_created_at := d_created_at r;
                          d_payment_method := method;
                          d_qris_order_id := order;
                          d_qris_gross_amount := gross |}]> (donations s)) s)
        | None => Err ForeignKeyViolation
        end
    end
  else Err UndefinedColumn.

(** Lines 405-439: the record of a settled payment; whatever the try block
    throws is logged and dropped. *)
Definition record_qris_donation (now : Z) (r : midtrans) (campaignId a : Z)
    (data : donate_data) (s : store) : store :=
  match parseUnits2 a with
  | inl _ => s
  | inr units =>
      match sql_qris_donation now
              (JStr ("qris-" +:+ order_id r))
              (JNum campaignId)
              (JStr (toLowerCase
                       (if String.eqb (dd_campaignAddress data) ""
                        then zero_address else dd_campaignAddress data)))
              (JStr (show units))
              (js_or (JStr (donateTxHash data)) (JStr "pending"))
              (js_or (JNum (blockNumber data)) (JNum 0))
              (JNum now)
              (JStr "QRIS")
              (JStr (order_id r))
              (JNum a) s with
      | Ok s' => s'
      | Err _ => s
      end
  end.

(** Everything after the replay check, lines 358-459. *)
Definition qris_settle (now : Z) (provider : option midtrans) (o : oracle)
    (w : world) : qris_reply * world :=
  match provider with
  | None => (InternalError, w)
  | Some r =>
      if String.eqb (transaction_status r) "settlement" then
        match (match split_on "-" (order_id r) !! 1%nat with
               | Some part => parseInt part
               | None => None
               end) with
        | None => (InvalidOrderId, w)
        | Some campaignId =>
            match cast_integer (JNum campaignId) with
            | None => (InternalError, w)
            | Some key =>
                match campaigns (w_store w) !! key with
                | None => (CampaignNotFound, w)
                | Some _ =>
                    let amount := parseFloat (gross_amount r) in
                    match mintAndDonateIDRX amount campaignId o (w_chain w) with
                    | (Failure m _, ch) =>
                        (MintFailed m, {| w_store := w_store w; w_chain := ch |})
                    | (Donated data, ch) =>
                        (Processed data ("qris-" +:+ order_id r),
                         {| w_store :=
                              record_qris_donation now r campaignId
                                (dd_amount data) data (w_store w);
                            w_chain := ch |})
                    end
                end
            end
        end
      else (NotSettled (transaction_status r), w)
  end.

(** [getQRISStatus]: the replay check of lines 86-102, then the rest. *)
Definition getQRISStatus (now : Z) (orderId : string)
    (provider : option midtrans) (o : oracle) (w : world) : qris_reply * world :=
  match select_donations_like (qris_pattern orderId) (w_store w) with
  | row :: _ => (AlreadyProcessed row, w)
  | [] => qris_settle now provider o w
  end.

(** Two requests for the same order that overlap: the second one runs its
    replay check while the first one is still waiting for the provider or
    the chain, and both go on from there. *)
Definition getQRISStatus_overlapping (now1 now2 : Z) (orderId : string)
    (p1 p2 : option midtrans) (o1 o2 : oracle) (w : world)
    : qris_reply * qris_reply * world :=
  match select_donations_like (qris_pattern orderId) (w_store w),
        select_donations_like (qris_pattern orderId) (w_store w) with
  | [], [] =>
      let '(r1, w1) := qris_settle now1 p1 o1 w in
      let '(r2, w2) := qris_settle now2 p2 o2 w1 in
      (r1, r2, w2)
  | row :: _, _ | _, row :: _ => (AlreadyProcessed row, AlreadyProcessed row, w)
  end.

End Settlement.

(* ===================================================================== *)
(** ** A reference instance of the server and of the runtime *)
(* ===================================================================== *)

(** The store after the three QRIS columns were added to the table. *)
Definition migrated (s : store) : store :=
  {| campaigns := campaigns s; donations := donations s;
     withdrawals := withdrawals s; badges := badges s;
     sync_status := sync_status s; qris_columns := true |}.

(** No backslash, the escape character of LIKE. *)
Fixpoint no_escape (s : string) : bool :=
  match s with
  | EmptyString => true
  | String c rest => negb (Ascii.eqb c "\"%char) && no_escape rest
  end.

(** Decimal text, as both the server and [parseInt] read it. *)
Definition read_decimal (s : string) : option Z :=
  match NilZero.int_of_string s with
  | Some i => Some (Z.of_int i)
  | None => None
  end.

Definition in_range (lo hi : Z) (o : option Z) : option Z :=
  match o with
  | Some n => if (lo <=? n) && (n <=? hi) then Some n else None
  | None => None
  end.

Definition as_number (v : jsval) : option Z :=
  match v with
  | JNum n => Some n
  | JStr s => read_decimal s
  | _ => None
  end.

Definition as_text (n : nat) (v : jsval) : option string :=
  match v with
  | JStr s => if (String.length s <=? n)%nat then Some s else None
  | JNum z => Some (show z)
  | JBool true => Some "true"
  | JBool false => Some "false"
  | _ => None
  end.

Definition reference_casts : PgCasts :=
  {| cast_integer := fun v => in_range (-2147483648) 2147483647 (as_number v);
     cast_bigint := fun v =>
       in_range (-9223372036854775808) 9223372036854775807 (as_number v);
     cast_numeric := fun v => in_range (- 10 ^ 30 + 1) (10 ^ 30 - 1) (as_number v);
     cast_varchar := as_text |}.

Definition lower (c : ascii) : ascii :=
  let n := nat_of_ascii c in
  if ((65 <=? n) && (n <=? 90))%nat then ascii_of_nat (n + 32) else c.

Fixpoint lower_case (s : string) : string :=
  match s with
  | EmptyString => EmptyString
  | String c rest => String (lower c) (lower_case rest)
  end.

Definition reference_runtime : Runtime :=
  {| parseInt := read_decimal;
     parseFloat := read_decimal;
     parseUnits2 := fun a => inr (100 * a);
     toLowerCase := lower_case |}.

(* ===================================================================== *)
(** ** Sample data *)
(* ===================================================================== *)

Definition camp7 : campaign_body :=
  {| cb_id := JNum 7; cb_name := JStr "Well"; cb_creatorName := JStr "Ann";
     cb_owner := JStr "0xa"; cb_balance := JStr "100";
     cb_targetAmount := JStr "5000"; cb_creationTime := JNum 1690000000 |}.

(* the same campaign as the indexer reports it later *)
Definition camp7' : campaign_body :=
  {| cb_id := JNum 7; cb_name := JStr "Well 2"; cb_creatorName := JStr "Bob";
     cb_owner := JStr "0xb"; cb_balance := JStr "80";
     cb_targetAmount := JStr "6000"; cb_creationTime := JNum 1690000999 |}.

(* the donation of the end-to-end scenario *)
Definition don1 : donation_body :=
  {| db_id := JStr "d1"; db_campaignId := JNum 7; db_donor := JStr "0xabc";
     db_amount := JStr "10000"; db_transactionHash := JStr "0x123";
     db_blockNumber := JNum 100; db_timestamp := JNum 1700000000 |}.

(* the same id with another payload *)
Definition don1' : donation_body :=
  {| db_id := JStr "d1"; db_campaignId := JNum 7; db_donor := JStr "0xdef";
     db_amount := JStr "5"; db_transactionHash := JStr "0x456";
     db_blockNumber := JNum 50; db_timestamp := JNum 1700000500 |}.

(* all seven fields present, block number 0 *)
Definition don_block0 : donation_body :=
  {| db_id := JStr "d0"; db_campaignId := JNum 7; db_donor := JStr "0xabc";
     db_amount := JStr "10000"; db_transactionHash := JStr "0x123";
     db_blockNumber := JNum 0; db_timestamp := JNum 1700000000 |}.

(* no donor *)
Definition don_no_donor : donation_body :=
  {| db_id := JStr "d2"; db_campaignId := JNum 7; db_donor := JUndefined;
     db_amount := JStr "1"; db_transactionHash := JStr "0x789";
     db_blockNumber := JNum 101; db_timestamp := JNum 1700000001 |}.

Definition don3 : donation_body :=
  {| db_id := JStr "d3"; db_campaignId := JNum 7; db_donor := JStr "0xabc";
     db_amount := JStr "2"; db_transactionHash := JStr "0xabc";
     db_blockNumber := JNum 102; db_timestamp := JNum 1700000002 |}.

Definition badge3 : badge_body :=
  {| bb_tokenId := JNum 3; bb_owner := JStr "0xa"; bb_name := JStr "A";
     bb_transactionHash := JStr "0xm1"; bb_blockNumber := JNum 10;
     bb_timestamp := JNum 1700000000 |}.

Definition badge3' : badge_body :=
  {| bb_tokenId := JNum 3; bb_owner := JStr "0xb"; bb_name := JStr "B";
     bb_transactionHash := JStr "0xm2"; bb_blockNumber := JNum 20;
     bb_timestamp := JNum 1700000900 |}.

(** The seeded store after campaign 7 arrived by webhook at time 10. *)
Definition store7 : store :=
  snd (syncCampaign (casts := reference_casts) 10 camp7 (ddl_store 0)).

(** ... and after donation d1 at time 20, badge 3 at time 25. *)
Definition store7d : store :=
  snd (syncDonation (casts := reference_casts) 20 don1 store7).

Definition store7b : store :=
  snd (syncBadge (casts := reference_casts) 25 badge3 store7).

(** Three donations, the second without donor, after their campaign. *)
Definition batch3 : batch_body :=
  {| bt_campaigns := Some [camp7];
     bt_donations := Some [don1; don_no_donor; don3];
     bt_withdrawals := None; bt_badges := None |}.

(** The indexer reports campaign 7 with its later state and donation d1. *)
Definition ix7 : indexer :=
  {| ix_campaigns := Some [camp7']; ix_donations := Some [don1];
     ix_badges := Some []; ix_withdrawals := Some [] |}.

Definition batch7 : batch_body :=
  {| bt_campaigns := Some [camp7']; bt_donations := Some [don1];
     bt_withdrawals := None; bt_badges := None |}.

(** A settled payment of 10000 for campaign 7 and a chain on which every
    step is confirmed. *)
Definition order7 : string := "qris-7-1700000000000".

Definition settled7 : midtrans :=
  {| transaction_status := "settlement"; order_id := order7;
     gross_amount := "10000" |}.

Definition contracts : addresses :=
  {| idrxAddress := "0xAC90f99347766F9b3b425Ca54248150e2C9D1Bde";
     campaignAddress := "0x00000000000000000000000000000000CafeBabe" |}.

Definition oracle_ok : oracle :=
  {| o_setup := inr contracts;
     o_mint := inr {| rc_hash := "0xm"; rc_block := 501 |};
     o_approve := inr {| rc_hash := "0xa"; rc_block := 502 |};
     o_donate := inr {| rc_hash := "0xd"; rc_block := 503 |} |}.

(** The mint is confirmed, the approval is refused for its nonce. *)
Definition oracle_approve_fails : oracle :=
  {| o_setup := inr contracts;
     o_mint := inr {| rc_hash := "0xm"; rc_block := 501 |};
     o_approve := inl {| e_code := Some "NONCE_EXPIRED";
                         e_message := Some "nonce has already been used" |};
     o_donate := inr {| rc_hash := "0xd"; rc_block := 503 |} |}.

(** A revert of the campaign contract whose message also quotes the
    transaction that was sent, nonce included. *)
Definition revert_not_found : jserror :=
  {| e_code := Some "UNPREDICTABLE_GAS_LIMIT";
     e_message := Some "cannot estimate gas (reason=execution reverted: CampaignNotFound, transaction={to:0xCafe,nonce:5})" |}.

(** Mint and approval are confirmed, the donation reverts so. *)
Definition oracle_donate_reverts : oracle :=
  {| o_setup := inr contracts;
     o_mint := inr {| rc_hash := "0xm"; rc_block := 501 |};
     o_approve := inr {| rc_hash := "0xa"; rc_block := 502 |};
     o_donate := inl revert_not_found |}.

(** The tuples the reference server builds from these payloads. *)
Definition don1_row : donation_row :=
  {| d_id := "d1"; d_campaign_id := 7; d_donor := "0xabc"; d_amount := 10000;
     d_transaction_hash := "0x123"; d_block_number := 100;
     d_timestamp := 1700000000; d_last_synced_at := 20; d_created_at := 20;
     d_payment_method := JNull; d_qris_order_id := JNull;
     d_qris_gross_amount := JNull |}.

Definition don1'_row : donation_row :=
  {| d_id := "d1"; d_campaign_id := 7; d_donor := "0xdef"; d_amount := 5;
     d_transaction_hash := "0x456"; d_block_number := 50;
     d_timestamp := 1700000500; d_last_synced_at := 30; d_created_at := 30;
     d_payment_method := JNull; d_qris_order_id := JNull;
     d_qris_gross_amount := JNull |}.

Definition badge3_row : badge_row :=
  {| b_token_id := 3; b_owner := "0xa"; b_name := "A";
     b_transaction_hash := "0xm1"; b_block_number := 10;
     b_timestamp := 1700000000; b_last_synced_at := 25; b_created_at := 25 |}.

Definition badge3'_row : badge_row :=
  {| b_token_id := 3; b_owner := "0xb"; b_name := "B";
     b_transaction_hash := "0xm2"; b_block_number := 20;
     b_timestamp := 1700000900; b_last_synced_at := 40; b_created_at := 40 |}.

(* ===================================================================== *)
(** ** The rest of the handlers *)
(* ===================================================================== *)

Definition reply_missing_balance : response :=
  {| r_status := 400; r_success := false;
     r_message := Text "Missing campaignId or newBalance" |}.

Section Balance.
Context `{casts : PgCasts}.

(** [UPDATE blockchain_campaigns SET balance = $1, last_synced_at =
    CURRENT_TIMESTAMP, updated_at = CURRENT_TIMESTAMP WHERE id = $2],
    syncController.ts 140-147.  The balance column is nullable; an id
    that is NULL or not stored selects no row. *)
Definition sql_campaign_balance (now : Z) (newBalance campaignId : jsval)
    (s : store) : res store :=
  try! balance := bind_col cast_numeric newBalance in
  try! id := bind_col cast_integer campaignId in
  match id with
  | None => Ok s
  | Some k =>
      match campaigns s !! k with
      | None => Ok s
      | Some old =>
          Ok (set_campaigns
                (<[k := {| c_id := c_id old; c_name := c_name old;
                           c_creator_name := c_creator_name old;
                           c_owner := c_owner old; c_balance := balance;
                           c_target_amount := c_target_amount old;
                           c_creation_time := c_creation_time old;
                           c_last_synced_at := now;
                           c_created_at := c_created_at old;
                           c_updated_at := now |}]> (campaigns s)) s)
      end
  end.

(** [syncCampaignBalance], syncController.ts 113-166. *)
Definition syncCampaignBalance (now : Z) (campaignId newBalance : jsval)
    (s : store) : response * store :=
  if is_undefined campaignId || is_undefined newBalance
  then (reply_missing_balance, s)
  else match sql_campaign_balance now newBalance campaignId s with
       | Ok s' => (reply_ok "Campaign balance updated", s')
       | Err e => (reply_error e, s)
       end.

(** The statements of a list one after the other, each on the store the
    one before left, up to the first that raises. *)
Fixpoint run_all {A} (stmt : A -> store -> res store) (items : list A)
    (s : store) : res store :=
  match items with
  | [] => Ok s
  | x :: rest => try! s' := stmt x s in run_all stmt rest s'
  end.

Definition run_array {A} (stmt : A -> store -> res store)
    (items : option (list A)) (s : store) : res store :=
  match items with
  | Some l => run_all stmt l s
  | None => Ok s
  end.

(** The statements of a batch in the order of [syncBatch], without the
    transaction around them. *)
Definition batch_in_order (now : Z) (b : batch_body) (s : store) : res store :=
  try! s1 := run_array (sql_campaign_batch now) (bt_campaigns b) s in
  try! s2 := run_array (sql_donation now) (bt_donations b) s1 in
  try! s3 := run_array (sql_withdrawal_batch now) (bt_withdrawals b) s2 in
  run_array (sql_badge now) (bt_badges b) s3.

Definition array_length {A} (items : option (list A)) : nat :=
  match items with
  | Some l => length l
  | None => 0%nat
  end.

End Balance.

(* --------------------------------------------------------------------- *)
(** *** createQRIS (contributionController.ts 269-327) *)
(* --------------------------------------------------------------------- *)

(** [`${v}`] for the values of a JSON field. *)
Definition template (v : jsval) : string :=
  match v with
  | JUndefined => "undefined"
  | JNull => "null"
  | JBool true => "true"
  | JBool false => "false"
  | JNum n => number_text n
  | JStr s => s
  end.

(** What the payment provider answers to the creation of a transaction. *)
Record snap : Type := {
  token : string;
  redirect_url : string
}.

Inductive create_reply : Type :=
  | QrisCreated (orderId : string) (campaign_id amount : jsval)
                (tok redirect : string)                         (* 200 *)
  | QrisRejected                                                (* 400 *)
  | QrisFailed.                                                 (* 500 *)

(** [now] is [Date.now()]; [provider] is [None] when the request to the
    provider throws. *)
Definition createQRIS (now : Z) (campaign_id amount : jsval)
    (provider : option snap) : create_reply :=
  if negb (truthy campaign_id) || negb (truthy amount) then QrisRejected
  else
    let orderId :=
      "qris-" +:+ template campaign_id +:+ "-" +:+ number_text now in
    match provider with
    | Some r => QrisCreated orderId campaign_id amount (token r) (redirect_url r)
    | None => QrisFailed
    end.

(** No hyphen in a text. *)
Fixpoint no_dash (s : string) : bool :=
  match s with
  | EmptyString => true
  | String c rest => negb (Ascii.eqb c "-"%char) && no_dash rest
  end.

(* --------------------------------------------------------------------- *)
(** *** The requests the process serves *)
(* --------------------------------------------------------------------- *)

(** The requests that reach a handler of the three files, and the phases
    of the poller, with what the outside answers to each. *)
Inductive request : Type :=
  | PostCampaign (now : Z) (b : campaign_body)
  | PostCampaignBalance (now : Z) (campaignId newBalance : jsval)
  | PostDonation (now : Z) (b : donation_body)
  | PostWithdrawal (now : Z) (b : withdrawal_body)
  | PostBadge (now : Z) (b : badge_body)
  | PostBatch (now : Z) (b : batch_body)
  | PollerPhase (now : Z) (ix : indexer) (ph : phase)
  | PostQrisStatus (now : Z) (orderId : string) (provider : option midtrans)
                   (o : oracle).

Section Serving.
Context `{casts : PgCasts} `{rt : Runtime}.

Definition on_store (f : store -> store) (w : world) : world :=
  {| w_store := f (w_store w); w_chain := w_chain w |}.

Definition serve (r : request) (w : world) : world :=
  match r with
  | PostCampaign now b => on_store (fun s => snd (syncCampaign now b s)) w
  | PostCampaignBalance now id bal =>
      on_store (fun s => snd (syncCampaignBalance now id bal s)) w
  | PostDonation now b => on_store (fun s => snd (syncDonation now b s)) w
  | PostWithdrawal now b => on_store (fun s => snd (syncWithdrawal now b s)) w
  | PostBadge now b => on_store (fun s => snd (syncBadge now b s)) w
  | PostBatch now b => on_store (fun s => snd (syncBatch now b s)) w
  | PollerPhase now ix ph => on_store (run_phase now ix ph) w
  | PostQrisStatus now orderId provider o =>
      snd (getQRISStatus now orderId provider o w)
  end.

Definition serve_all (rs : list request) (w : world) : world :=
  fold_left (fun v r => serve r v) rs w.

End Serving.

(** What no request takes away from the store. *)

(* a campaign stays, with its id, its creation time and created_at *)
Definition campaigns_kept (m m' : gmap Z campaign_row) : Prop :=
  forall k c, m !! k = Some c ->
    exists c', m' !! k = Some c' /\ c_id c' = c_id c /\
               c_creation_time c' = c_creation_time c /\
               c_created_at c' = c_created_at c.

(* a badge stays, with everything but its owner and last_synced_at *)
Definition badges_kept (m m' : gmap Z badge_row) : Prop :=
  forall k b, m !! k = Some b ->
    exists b', m' !! k = Some b' /\ b_token_id b' = b_token_id b /\
               b_name b' = b_name b /\
               b_transaction_hash b' = b_transaction_hash b /\
               b_block_number b' = b_block_number b /\
               b_timestamp b' = b_timestamp b /\
               b_created_at b' = b_created_at b.

(* the ledger keeps its rows and their entity types; a counter does not
   go down and a healthy row stays healthy *)
Definition ledger_steady (l l' : list sync_row) : Prop :=
  length l' = length l /\
  forall i r, l !! i = Some r ->
    exists r', l' !! i = Some r' /\ s_entity_type r' = s_entity_type r /\
               s_created_at r' = s_created_at r /\
               s_total_synced r <= s_total_synced r' /\
               (s_status r = "healthy" -> s_status r' = "healthy").

Definition grows (s s' : store) : Prop :=
  donations s ⊆ donations s' /\ withdrawals s ⊆ withdrawals s' /\
  campaigns_kept (campaigns s) (campaigns s') /\
  badges_kept (badges s) (badges s') /\
  ledger_steady (sync_status s) (sync_status s') /\
  qris_columns s' = qris_columns s.

Definition grower (stmt : store -> res store) : Prop :=
  forall s s', stmt s = Ok s' -> grows s s'.

(** The nonce of a transaction, and a chain on which every transaction
    carries its position as nonce. *)
Definition tx_nonce (t : chain_tx) : nat :=
  match t with
  | TxMint n _ | TxApprove n _ | TxDonate n _ _ => n
  end.

Definition well_nonced (ch : chain) : Prop :=
  forall i t, ch !! i = Some t -> tx_nonce t = i.

(** Every connection the poller asked for was granted. *)
Definition connects_granted (es : list event) : bool :=
  forallb (fun e => match e with Connected _ ok => ok | _ => true end) es.

(** The flag tells whether an invocation is in flight. *)
Definition flag_exact (p : process) : Prop :=
  (tasks p = [] /\ isRunning p = false)
  \/ (exists t, tasks p = [t] /\ isRunning p = true).

(** More sample data. *)
Definition wd_no_block : withdrawal_body :=
  {| wb_id := JStr "w1"; wb_campaignId := JNum 7; wb_name := JStr "Well";
     wb_owner := JStr "0xa"; wb_creatorName := JStr "Ann";
     wb_amount := JStr "500"; wb_transactionHash := JStr "0xw1";
     wb_blockNumber := JUndefined; wb_timestamp := JNum 1700000100 |}.

Definition badge_no_block : badge_body :=
  {| bb_tokenId := JNum 4; bb_owner := JStr "0xa"; bb_name := JStr "C";
     bb_transactionHash := JStr "0xm3"; bb_blockNumber := JNull;
     bb_timestamp := JNum 1700000000 |}.

(* a donation for a campaign that is not cached *)
Definition don_orphan : donation_body :=
  {| db_id := JStr "d9"; db_campaignId := JNum 9; db_donor := JStr "0xabc";
     db_amount := JStr "1"; db_transactionHash := JStr "0x999";
     db_blockNumber := JNum 103; db_timestamp := JNum 1700000003 |}.

Definition don_orphan_row : donation_row :=
  {| d_id := "d9"; d_campaign_id := 9; d_donor := "0xabc"; d_amount := 1;
     d_transaction_hash := "0x999"; d_block_number := 103;
     d_timestamp := 1700000003; d_last_synced_at := 70; d_created_at := 70;
     d_payment_method := JNull; d_qris_order_id := JNull;
     d_qris_gross_amount := JNull |}.

Definition don3_row : donation_row :=
  {| d_id := "d3"; d_campaign_id := 7; d_donor := "0xabc"; d_amount := 2;
     d_transaction_hash := "0xabc"; d_block_number := 102;
     d_timestamp := 1700000002; d_last_synced_at := 70; d_created_at := 70;
     d_payment_method := JNull; d_qris_order_id := JNull;
     d_qris_gross_amount := JNull |}.

Definition camp7_row : campaign_row :=
  {| c_id := 7; c_name := "Well"; c_creator_name := Some "Ann";
     c_owner := "0xa"; c_balance := Some 100; c_target_amount := 5000;
     c_creation_time := 1690000000; c_last_synced_at := 10;
     c_created_at := 10; c_updated_at := 10 |}.

Definition camp7'_row : campaign_row :=
  {| c_id := 7; c_name := "Well 2"; c_creator_name := Some "Bob";
     c_owner := "0xb"; c_balance := Some 80; c_target_amount := 6000;
     c_creation_time := 1690000999; c_last_synced_at := 60;
     c_created_at := 60; c_updated_at := 60 |}.

(* what a confirmed sequence for the settled order reports and records *)
Definition donated7 : donate_data :=
  {| mintTxHash := "0xm"; approveTxHash := "0xa"; donateTxHash := "0xd";
     blockNumber := 503; dd_amount := 10000; dd_campaignId := 7;
     dd_idrxAddress := "0xAC90f99347766F9b3b425Ca54248150e2C9D1Bde";
     dd_campaignAddress := "0x00000000000000000000000000000000CafeBabe" |}.

Definition settled_row : donation_row :=
  {| d_id := "qris-qris-7-1700000000000"; d_campaign_id := 7;
     d_donor := "0x00000000000000000000000000000000cafebabe";
     d_amount := 1000000; d_transaction_hash := "0xd";
     d_block_number := 503; d_timestamp := 100; d_last_synced_at := 100;
     d_created_at := 100; d_payment_method := JStr "QRIS";
     d_qris_order_id := JStr "qris-7-1700000000000";
     d_qris_gross_amount := JNum 10000 |}.


(* one full cycle of the poller and the tick after it *)
Definition cycle_then_tick : list event :=
  [Tick; Connected 0 true; Resumed 0 60 ix7; Resumed 0 61 ix7;
   Resumed 0 62 ix7; Resumed 0 63 ix7; Tick].

(* requests of every kind, served one after the other *)
Definition mixed_requests : list request :=
  [PostDonation 30 don1'; PostCampaign 60 camp7';
   PostCampaignBalance 61 (JNum 7) (JStr "5"); PostBadge 62 badge3';
   PostBatch 63 batch7; PollerPhase 64 ix7 PhDonations;
   PostQrisStatus 100 order7 (Some settled7) oracle_ok;
   PostWithdrawal 65 wd_no_block].

(* the ledger with the donation counter at the top of INTEGER *)
Definition store7_full : store :=
  set_sync_status
    [seed_row 0 "campaign";
     {| s_entity_type := "donation"; s_last_block_number := 99;
        s_last_synced_at := 5; s_total_synced := 2147483647;
        s_status := "healthy"; s_error_message := None;
        s_created_at := 0; s_updated_at := 5 |};
     seed_row 0 "withdrawal"; seed_row 0 "badge"] store7.

(* the store after a settled order was recorded on a migrated table *)
Definition world7_settled : world :=
  snd (getQRISStatus (casts := reference_casts) (rt := reference_runtime)
         100 order7 (Some settled7) oracle_ok
         {| w_store := migrated store7; w_chain := [] |}).

(* ===================================================================== *)
(** * Properties of the upsert engine *)
(* ===================================================================== *)

Section EngineFacts.
Context `{casts : PgCasts}.

Lemma insert_donation_conflict (r old : donation_row) (s : store) :
  donations s !! d_id r = Some old ->
  insert_donation_do_nothing r s = Ok s.
Proof. intros H. unfold insert_donation_do_nothing. now rewrite H. Qed.

Lemma insert_donation_fresh (r : donation_row) (s s' : store) :
  donations s !! d_id r = None ->
  insert_donation_do_nothing r s = Ok s' ->
  s' = set_donations (<[d_id r := r]> (donations s)) s.
Proof.
  intros Hnone. unfold insert_donation_do_nothing. rewrite Hnone.
  destruct (campaigns s !! d_campaign_id r); intros H; now inversion H.
Qed.

(** The ledger statement touches no entity table. *)
Lemma updateSyncStatus_tables (now : Z) (entity : string) (v : jsval) (s : store) :
  let s' := updateSyncStatus now entity v s in
  campaigns s' = campaigns s /\ donations s' = donations s /\
  withdrawals s' = withdrawals s /\ badges s' = badges s /\
  qris_columns s' = qris_columns s.
Proof.
  unfold updateSyncStatus, sql_update_sync_status.
  destruct (bind_col cast_bigint v) as [blk|]; simpl; [|tauto].
  destruct (update_sync_rows now blk entity (sync_status s)); simpl; tauto.
Qed.

(** A row by row account of the UPDATE. *)
Lemma update_sync_rows_lookup (now : Z) (blk : option Z) (entity : string)
    (rows rows' : list sync_row) :
  update_sync_rows now blk entity rows = Ok rows' ->
  forall (i : nat) (r : sync_row), rows !! i = Some r ->
  exists r', rows' !! i = Some r' /\
    (if String.eqb (s_entity_type r) entity
     then update_sync_row now blk r = Ok r' else r' = r).
Proof.
  revert rows'. induction rows as [|r0 rest IH]; intros rows' H i r Hi.
  - discriminate.
  - simpl in H.
    destruct (if String.eqb (s_entity_type r0) entity
              then update_sync_row now blk r0 else Ok r0) as [r0'|] eqn:E0;
      simpl in H; [|discriminate].
    destruct (update_sync_rows now blk entity rest) as [rest'|] eqn:Er;
      simpl in H; [|discriminate].
    inversion H; subst rows'; clear H.
    destruct i as [|i]; simpl in Hi.
    + inversion Hi; subst r0. exists r0'. split; [reflexivity|].
      destruct (String.eqb (s_entity_type r) entity); [exact E0|].
      now inversion E0.
    + destruct (IH rest' eq_refl i r Hi) as (r' & Hr' & Hif).
      exists r'. split; [exact Hr'|exact Hif].
Qed.

(** The UPDATE only raises when a counter is at the top of INTEGER. *)
Lemma update_sync_rows_succeeds (now : Z) (blk : option Z) (entity : string)
    (rows : list sync_row) :
  counter_room entity rows = true ->
  exists rows', update_sync_rows now blk entity rows = Ok rows'.
Proof.
  induction rows as [|r0 rest IH]; intros Hall.
  - now exists [].
  - simpl in Hall. apply andb_prop in Hall as [H0 Hrest].
    destruct (IH Hrest) as [rest' Hr]. simpl. rewrite Hr.
    destruct (String.eqb (s_entity_type r0) entity) eqn:E; simpl in *.
    + unfold update_sync_row.
      destruct (int4_max <? s_total_synced r0 + 1) eqn:Eo.
      * apply Z.ltb_lt in Eo. apply Z.leb_le in H0. lia.
      * simpl. eauto.
    + eauto.
Qed.

End EngineFacts.

Section WebhookFacts.
Context `{casts : PgCasts}.

(** C10.  At the donation webhook a payload whose blockNumber is 0, whose
    timestamp is 0 or whose amount is the empty string is answered 400
    "Missing required fields" and nothing is written, whatever the other
    fields hold: the test of the handler takes these values for absent
    ones. *)
Theorem syncDonation_rejects_falsy (now : Z) (b : donation_body) (s : store) :
  db_blockNumber b = JNum 0 \/ db_timestamp b = JNum 0 \/ db_amount b = JStr "" ->
  syncDonation now b s = (reply_missing, s) /\
  r_status (fst (syncDonation now b s)) = 400%nat /\
  r_message (fst (syncDonation now b s)) = Text "Missing required fields".
Proof.
  intros H.
  assert (Hrej : donation_rejected b = true).
  { unfold donation_rejected.
    destruct H as [H|[H|H]]; rewrite H; simpl;
      rewrite ?orb_true_r; reflexivity. }
  unfold syncDonation. rewrite Hrej. simpl. auto.
Qed.

(** C2.  A donation id that is not yet stored is inserted by the first
    successful statement (on the webhook: by the first request, answered
    200): one more row, holding the first payload.  In every store with
    that donation table, any later statement with the same id, whatever
    the rest of its payload, succeeds and leaves the store as it is; this
    is so for the statement itself (which the batch shares), for the loop
    of the poller and for the webhook, which answers 200 and leaves the
    donation table as it is. *)
Theorem donation_insert_idempotent (now1 now2 : Z) (b1 b2 : donation_body)
    (r1 r2 : donation_row) (s s1 : store) :
  donation_tuple now1 b1 = Ok r1 ->
  donation_tuple now2 b2 = Ok r2 ->
  d_id r2 = d_id r1 ->
  donations s !! d_id r1 = None ->
  sql_donation now1 b1 s = Ok s1 ->
  donations s1 !! d_id r1 = Some r1 /\
  size (donations s1) = S (size (donations s)) /\
  (donation_rejected b1 = false ->
     fst (syncDonation now1 b1 s) = reply_ok "Donation synced successfully" /\
     donations (snd (syncDonation now1 b1 s)) = donations s1) /\
  forall t : store,
    donations t = donations s1 ->
    sql_donation now2 b2 t = Ok t /\
    poll_each (sql_donation now2) [b2] t 0 = (t, 1%nat) /\
    (donation_rejected b2 = false ->
       fst (syncDonation now2 b2 t) = reply_ok "Donation synced successfully" /\
       donations (snd (syncDonation now2 b2 t)) = donations t).
Proof.
  intros Ht1 Ht2 Hid Hnone H1.
  pose proof H1 as Hfirst.
  unfold sql_donation in H1. rewrite Ht1 in H1. simpl in H1.
  apply insert_donation_fresh in H1; [|exact Hnone].
  assert (Hrow : donations s1 !! d_id r1 = Some r1).
  { subst s1. simpl. apply lookup_insert_eq. }
  split; [exact Hrow|].
  split; [subst s1; simpl; now apply map_size_insert_None|].
  split.
  { intros Hrej. unfold syncDonation. rewrite Hrej, Hfirst. simpl.
    split; [reflexivity|]. apply updateSyncStatus_tables. }
  intros t Ht.
  assert (Hagain : sql_donation now2 b2 t = Ok t).
  { unfold sql_donation. rewrite Ht2. simpl.
    apply insert_donation_conflict with (old := r1). now rewrite Hid, Ht. }
  split; [exact Hagain|].
  split; [simpl; now rewrite Hagain|].
  intros Hrej. unfold syncDonation. rewrite Hrej, Hagain. simpl.
  split; [reflexivity|]. apply updateSyncStatus_tables.
Qed.

(** C3, as the code has it.  When a block number is supplied, the UPDATE
    stores that number in every row of the entity type, whatever the
    previous value: the last write wins. *)
Theorem sync_status_block_overwritten (now : Z) (entity : string) (v : jsval)
    (b : Z) (s : store) (i : nat) (r : sync_row) :
  bind_col cast_bigint v = Ok (Some b) ->
  counter_room entity (sync_status s) = true ->
  sync_status s !! i = Some r ->
  s_entity_type r = entity ->
  exists r', sync_status (updateSyncStatus now entity v s) !! i = Some r' /\
             s_entity_type r' = entity /\
             s_last_block_number r' = b.
Proof.
  intros Hv Hroom Hi He.
  destruct (update_sync_rows_succeeds now (Some b) entity (sync_status s) Hroom)
    as [rows' Hrows].
  destruct (update_sync_rows_lookup _ _ _ _ _ Hrows i r Hi) as (r' & Hr' & Hif).
  exists r'.
  unfold updateSyncStatus, sql_update_sync_status. rewrite Hv. simpl.
  rewrite Hrows. simpl. split; [exact Hr'|].
  rewrite He, String.eqb_refl in Hif. unfold update_sync_row in Hif.
  destruct (int4_max <? s_total_synced r + 1); [discriminate|].
  inversion Hif; subst r'; simpl. auto.
Qed.

(** C6.  When the token id is already stored, the statement that the
    webhook, the poller and the batch share replaces the owner and
    last_synced_at and keeps the name, the mint transaction hash, the
    block number, the timestamp and created_at of the stored row. *)
Theorem badge_upsert_keeps_identity (now : Z) (b : badge_body)
    (r old : badge_row) (s : store) :
  badge_tuple now b = Ok r ->
  badges s !! b_token_id r = Some old ->
  exists s' row,
    sql_badge now b s = Ok s' /\
    badges s' !! b_token_id r = Some row /\
    b_owner row = b_owner r /\ b_last_synced_at row = now /\
    b_name row = b_name old /\
    b_transaction_hash row = b_transaction_hash old /\
    b_block_number row = b_block_number old /\
    b_timestamp row = b_timestamp old /\
    b_created_at row = b_created_at old /\
    (forall k, k <> b_token_id r -> badges s' !! k = badges s !! k) /\
    (* the three callers *)
    (badge_rejected b = false -> badges (snd (syncBadge now b s)) = badges s') /\
    poll_each (sql_badge now) [b] s 0 = (s', 1%nat) /\
    syncBatch now {| bt_campaigns := None; bt_donations := None;
                     bt_withdrawals := None; bt_badges := Some [b] |} s
    = (reply_ok "Batch sync completed",
       Some {| n_campaigns := 0; n_donations := 0; n_withdrawals := 0;
               n_badges := 1 |}, s').
Proof.
  intros Ht Hold.
  set (s' := set_badges (<[b_token_id r := badge_set now old r]> (badges s)) s).
  assert (Hs' : sql_badge now b s = Ok s').
  { unfold sql_badge. rewrite Ht. simpl. unfold upsert_badge. now rewrite Hold. }
  exists s', (badge_set now old r).
  split; [exact Hs'|].
  split; [subst s'; simpl; apply lookup_insert_eq|].
  do 7 (split; [reflexivity|]).
  split; [intros k Hk; subst s'; simpl; now apply lookup_insert_ne|].
  split.
  { intros Hrej. unfold syncBadge. rewrite Hrej, Hs'. simpl.
    apply updateSyncStatus_tables. }
  split; [simpl; now rewrite Hs'|].
  unfold syncBatch, batch_statements, batch_loop, for_each.
  unfold db_bind, sql_begin, sql_commit, db_ret, query. cbn -[sql_badge].
  rewrite Hs'. reflexivity.
Qed.

End WebhookFacts.

(* --------------------------------------------------------------------- *)
(** *** The engine on the sample data *)
(* --------------------------------------------------------------------- *)

Lemma syncDonation_rejects_falsy_witness :
  (db_blockNumber don_block0 = JNum 0 \/ db_timestamp don_block0 = JNum 0
   \/ db_amount don_block0 = JStr "") /\
  syncDonation (casts := reference_casts) 20 don_block0 store7
  = (reply_missing, store7).
Proof.
  split; [left; reflexivity|].
  apply (syncDonation_rejects_falsy (casts := reference_casts) 20 don_block0 store7).
  left; reflexivity.
Defined.

Lemma donation_insert_idempotent_witness :
  let s1 := set_donations (<["d1" := don1_row]> (donations store7)) store7 in
  donations store7d !! "d1" = Some don1_row /\
  size (donations store7d) = 1%nat /\
  fst (syncDonation (casts := reference_casts) 30 don1' store7d)
  = reply_ok "Donation synced successfully" /\
  donations (snd (syncDonation (casts := reference_casts) 30 don1' store7d))
  = donations store7d.
Proof.
  intros s1.
  destruct (donation_insert_idempotent (casts := reference_casts)
              20 30 don1 don1' don1_row don1'_row store7 s1)
    as (Hrow & Hsize & Hfirst & Hlater);
    [reflexivity | reflexivity | reflexivity | reflexivity
    | vm_compute; reflexivity |].
  destruct (Hfirst eq_refl) as [_ Hd].
  destruct (Hlater store7d Hd) as (_ & _ & Hweb).
  destruct (Hweb eq_refl) as [Hok Hsame].
  unfold store7d at 1 2. rewrite Hd.
  split; [exact Hrow|]. split; [exact Hsize|].
  split; [exact Hok|exact Hsame].
Defined.

Lemma sync_status_block_overwritten_witness :
  exists r', sync_status (updateSyncStatus (casts := reference_casts)
                            30 "donation" (JNum 50) store7d) !! 1%nat = Some r' /\
             s_entity_type r' = "donation" /\ s_last_block_number r' = 50.
Proof.
  apply (sync_status_block_overwritten (casts := reference_casts)
           30 "donation" (JNum 50) 50 store7d 1
           {| s_entity_type := "donation"; s_last_block_number := 100;
              s_last_synced_at := 20; s_total_synced := 1;
              s_status := "healthy"; s_error_message := None;
              s_created_at := 0; s_updated_at := 20 |});
    reflexivity.
Defined.

(** C3 as the specification words it fails: after donation d1 (block 100)
    a status update that supplies block 50 leaves 50 in the ledger, not
    max(100, 50). *)
Lemma sync_status_block_not_max :
  ~ (forall (casts : PgCasts) (now : Z) (entity : string) (v : jsval) (b : Z)
            (s : store) (i : nat) (r : sync_row),
       bind_col cast_bigint v = Ok (Some b) ->
       sync_status s !! i = Some r ->
       s_entity_type r = entity ->
       exists r', sync_status (updateSyncStatus now entity v s) !! i = Some r' /\
                  s_last_block_number r' = Z.max (s_last_block_number r) b).
Proof.
  intros H.
  destruct (H reference_casts 30 "donation" (JNum 50) 50 store7d 1%nat
              {| s_entity_type := "donation"; s_last_block_number := 100;
                 s_last_synced_at := 20; s_total_synced := 1;
                 s_status := "healthy"; s_error_message := None;
                 s_created_at := 0; s_updated_at := 20 |}
              eq_refl eq_refl eq_refl) as (r' & Hr' & Hmax).
  vm_compute in Hr'. inversion Hr'; subst r'. vm_compute in Hmax. discriminate.
Qed.

Lemma badge_upsert_keeps_identity_witness :
  exists s' row,
    sql_badge (casts := reference_casts) 40 badge3' store7b = Ok s' /\
    badges s' !! 3 = Some row /\
    b_owner row = "0xb" /\ b_last_synced_at row = 40 /\ b_name row = "A".
Proof.
  destruct (badge_upsert_keeps_identity (casts := reference_casts)
              40 badge3' badge3'_row badge3_row store7b)
    as (s' & row & H1 & H2 & H3 & H4 & H5 & _);
    [reflexivity | reflexivity |].
  exists s', row. repeat split; assumption.
Defined.

(* ===================================================================== *)
(** * The batch is one transaction *)
(* ===================================================================== *)

Section BatchFacts.
Context `{casts : PgCasts}.

Lemma query_inside (s : store) (stmt : store -> res store) (c : session) :
  inside s c -> inside s (snd (query stmt c)).
Proof.
  intros [Hc Ht]. unfold query.
  destruct (txn c) as [|w|] eqn:E; [congruence| |].
  - destruct (stmt w); simpl; split; auto; discriminate.
  - simpl. split; [exact Hc|congruence].
Qed.

Lemma for_each_inside {A} (s : store) (stmt : A -> store -> res store)
    (items : list A) :
  forall (k : nat) (c : session),
    inside s c -> inside s (snd (for_each stmt items k c)).
Proof.
  induction items as [|x rest IH]; intros k c Hin; simpl.
  - exact Hin.
  - unfold db_bind. pose proof (query_inside s (stmt x) c Hin) as Hq.
    destruct (query (stmt x) c) as [[u|e] c']; simpl in *.
    + now apply IH.
    + exact Hq.
Qed.

Lemma batch_loop_inside {A} (s : store) (stmt : A -> store -> res store)
    (items : option (list A)) (c : session) :
  inside s c -> inside s (snd (batch_loop stmt items c)).
Proof.
  intros Hin. destruct items as [l|]; simpl.
  - now apply for_each_inside.
  - exact Hin.
Qed.

(** When a statement of the batch raises, the committed store is still
    the one the request started from. *)
Lemma batch_statements_err (now : Z) (b : batch_body) (s : store)
    (e : dberror) (c : session) :
  batch_statements now b {| committed := s; txn := Idle |} = (Err e, c) ->
  committed c = s.
Proof.
  unfold batch_statements, db_bind, sql_begin. simpl.
  assert (H0 : inside s {| committed := s; txn := Open s |})
    by (split; [reflexivity|discriminate]).
  pose proof (batch_loop_inside s (sql_campaign_batch now) (bt_campaigns b) _ H0) as H1.
  destruct (batch_loop (sql_campaign_batch now) (bt_campaigns b) _) as [[nc|e1] c1];
    simpl in H1; [|intros H; inversion H; subst; apply H1].
  pose proof (batch_loop_inside s (sql_donation now) (bt_donations b) _ H1) as H2.
  destruct (batch_loop (sql_donation now) (bt_donations b) _) as [[nd|e2] c2];
    simpl in H2; [|intros H; inversion H; subst; apply H2].
  pose proof (batch_loop_inside s (sql_withdrawal_batch now) (bt_withdrawals b) _ H2) as H3.
  destruct (batch_loop (sql_withdrawal_batch now) (bt_withdrawals b) _) as [[nw|e3] c3];
    simpl in H3; [|intros H; inversion H; subst; apply H3].
  pose proof (batch_loop_inside s (sql_badge now) (bt_badges b) _ H3) as H4.
  destruct (batch_loop (sql_badge now) (bt_badges b) _) as [[nb|e4] c4];
    simpl in H4; [|intros H; inversion H; subst; apply H4].
  unfold sql_commit, db_ret. destruct (txn c4); discriminate.
Qed.

Lemma raises_bind_l {A B} (m : db A) (k : A -> db B) :
  raises m -> raises (db_bind m k).
Proof.
  intros Hm c. destruct (Hm c) as (e & c' & H). exists e, c'.
  unfold db_bind. now rewrite H.
Qed.

Lemma raises_bind_r {A B} (m : db A) (k : A -> db B) :
  (forall a, raises (k a)) -> raises (db_bind m k).
Proof.
  intros Hk c. unfold db_bind. destruct (m c) as [[a|e] c'].
  - apply Hk.
  - eauto.
Qed.

Lemma query_raises (stmt : store -> res store) :
  (forall w, exists e, stmt w = Err e) -> raises (query stmt).
Proof.
  intros H c. unfold query. destruct (txn c) as [|w|].
  - destruct (H (committed c)) as [e He]. rewrite He. eauto.
  - destruct (H w) as [e He]. rewrite He. eauto.
  - eauto.
Qed.

Lemma for_each_raises {A B} (tuple : A -> res B) (stmt : A -> store -> res store)
    (items : list A) :
  (forall x, is_err (tuple x) = true -> forall w, exists e, stmt x w = Err e) ->
  existsb (fun x => is_err (tuple x)) items = true ->
  forall k, raises (for_each stmt items k).
Proof.
  intros Hstmt. induction items as [|x rest IH]; intros Hex k; simpl in *.
  - discriminate.
  - destruct (is_err (tuple x)) eqn:Ex; simpl in Hex.
    + apply raises_bind_l, query_raises. now apply Hstmt.
    + apply raises_bind_r. intros _. now apply IH.
Qed.

Lemma batch_loop_raises {A B} (tuple : A -> res B) (stmt : A -> store -> res store)
    (items : option (list A)) :
  (forall x, is_err (tuple x) = true -> forall w, exists e, stmt x w = Err e) ->
  unbindable tuple items = true ->
  raises (batch_loop stmt items).
Proof.
  intros Hstmt Hun. destruct items as [l|]; simpl in *; [|discriminate].
  now apply for_each_raises with (tuple := tuple).
Qed.

Lemma malformed_raises (now : Z) (b : batch_body) :
  malformed now b = true -> raises (batch_statements now b).
Proof.
  unfold malformed, batch_statements. intros H.
  apply raises_bind_r; intros ?.
  destruct (unbindable (campaign_tuple_batch now) (bt_campaigns b)) eqn:E1.
  { apply raises_bind_l, batch_loop_raises with (tuple := campaign_tuple_batch now);
      [|exact E1].
    intros x Hx w. unfold sql_campaign_batch.
    destruct (campaign_tuple_batch now x); [discriminate|simpl; eauto]. }
  apply raises_bind_r; intros ?.
  destruct (unbindable (donation_tuple now) (bt_donations b)) eqn:E2.
  { apply raises_bind_l, batch_loop_raises with (tuple := donation_tuple now);
      [|exact E2].
    intros x Hx w. unfold sql_donation.
    destruct (donation_tuple now x); [discriminate|simpl; eauto]. }
  apply raises_bind_r; intros ?.
  destruct (unbindable (withdrawal_tuple_batch now) (bt_withdrawals b)) eqn:E3.
  { apply raises_bind_l, batch_loop_raises with (tuple := withdrawal_tuple_batch now);
      [|exact E3].
    intros x Hx w. unfold sql_withdrawal_batch.
    destruct (withdrawal_tuple_batch now x); [discriminate|simpl; eauto]. }
  apply raises_bind_r; intros ?.
  simpl in H.
  apply raises_bind_l, batch_loop_raises with (tuple := badge_tuple now);
    [|exact H].
  intros x Hx w. unfold sql_badge.
  destruct (badge_tuple now x); [discriminate|simpl; eauto].
Qed.

(** C4.  When a statement of the batch raises, and in particular when some
    item of some array cannot be bound (a required field is missing), the
    handler answers 500 and the store it leaves is the store it found:
    no row of the batch is kept, whatever came before the failing item,
    and the sync-status ledger is as it was. *)
Theorem syncBatch_atomic (now : Z) (b : batch_body) (s : store) :
  (exists e c, batch_statements now b {| committed := s; txn := Idle |} = (Err e, c))
  \/ malformed now b = true ->
  exists e, syncBatch now b s = (reply_error e, None, s) /\
            sync_status (snd (syncBatch now b s)) = sync_status s.
Proof.
  intros H.
  assert (Herr : exists e c,
             batch_statements now b {| committed := s; txn := Idle |} = (Err e, c)).
  { destruct H as [H|H]; [exact H|]. apply (malformed_raises now b H). }
  destruct Herr as (e & c & Hrun). exists e.
  pose proof (batch_statements_err now b s e c Hrun) as Hc.
  unfold syncBatch. rewrite Hrun. simpl. rewrite Hc. auto.
Qed.

End BatchFacts.

Lemma syncBatch_atomic_witness :
  malformed (casts := reference_casts) 50 batch3 = true /\
  exists e, syncBatch (casts := reference_casts) 50 batch3 (ddl_store 0)
            = (reply_error e, None, ddl_store 0).
Proof.
  split; [reflexivity|].
  destruct (syncBatch_atomic (casts := reference_casts) 50 batch3 (ddl_store 0))
    as (e & H & _); [right; reflexivity|].
  exists e. exact H.
Defined.

(* ===================================================================== *)
(** * Campaign upserts and the ledger, path by path *)
(* ===================================================================== *)

Section PathFacts.
Context `{casts : PgCasts}.

(** What a campaign upsert leaves when the id is already stored. *)
Lemma campaign_upsert_conflict (now : Z) (r old : campaign_row) (s : store)
    (on_conflict : Z -> campaign_row -> campaign_row -> campaign_row) :
  campaigns s !! c_id r = Some old ->
  campaigns (upsert_campaign on_conflict now r s) !! c_id r
  = Some (on_conflict now old r).
Proof.
  intros Hold. unfold upsert_campaign. rewrite Hold. simpl.
  apply lookup_insert_eq.
Qed.

(** Every path replaces the name, the balance, the target amount and
    last_synced_at and keeps the creation time; the owner is replaced by
    the webhook alone. *)
Lemma campaign_set_fields (now : Z) (old r : campaign_row)
    (on_conflict : Z -> campaign_row -> campaign_row -> campaign_row) :
  on_conflict = campaign_set_webhook \/ on_conflict = campaign_set_poller
  \/ on_conflict = campaign_set_batch ->
  let row := on_conflict now old r in
  c_name row = c_name r /\ c_balance row = c_balance r /\
  c_target_amount row = c_target_amount r /\ c_last_synced_at row = now /\
  c_creation_time row = c_creation_time old /\
  c_created_at row = c_created_at old.
Proof. intros [->|[->| ->]]; simpl; repeat split. Qed.

Lemma campaign_set_owner (now : Z) (old r : campaign_row) :
  c_owner (campaign_set_webhook now old r) = c_owner r /\
  c_owner (campaign_set_poller now old r) = c_owner old /\
  c_owner (campaign_set_batch now old r) = c_owner old.
Proof. repeat split. Qed.

(** An id that is not stored is inserted as sent. *)
Lemma campaign_upsert_fresh (now : Z) (r : campaign_row) (s : store)
    (on_conflict : Z -> campaign_row -> campaign_row -> campaign_row) :
  campaigns s !! c_id r = None ->
  campaigns (upsert_campaign on_conflict now r s) !! c_id r = Some r.
Proof.
  intros Hnone. unfold upsert_campaign. rewrite Hnone. simpl.
  apply lookup_insert_eq.
Qed.

(** No upsert statement raises because the id is taken. *)
Lemma campaign_upsert_never_conflicts (now : Z) (b : campaign_body) (s : store) :
  (is_err (campaign_tuple now b) = false ->
     is_err (sql_campaign_webhook now b s) = false /\
     is_err (sql_campaign_poller now b s) = false) /\
  (is_err (campaign_tuple_batch now b) = false ->
     is_err (sql_campaign_batch now b s) = false).
Proof.
  unfold sql_campaign_webhook, sql_campaign_poller, sql_campaign_batch.
  split.
  - destruct (campaign_tuple now b); simpl; [auto|discriminate].
  - destruct (campaign_tuple_batch now b); simpl; [auto|discriminate].
Qed.

(** The statements of the engine do not write to the ledger. *)
Lemma sql_campaign_poller_ledger (now : Z) (b : campaign_body) :
  ledger_kept (sql_campaign_poller now b).
Proof.
  intros s s'. unfold sql_campaign_poller, upsert_campaign.
  destruct (campaign_tuple now b) as [r|]; simpl; [|discriminate].
  destruct (campaigns s !! c_id r); intros H; now inversion H.
Qed.

Lemma sql_campaign_batch_ledger (now : Z) (b : campaign_body) :
  ledger_kept (sql_campaign_batch now b).
Proof.
  intros s s'. unfold sql_campaign_batch, upsert_campaign.
  destruct (campaign_tuple_batch now b) as [r|]; simpl; [|discriminate].
  destruct (campaigns s !! c_id r); intros H; now inversion H.
Qed.

Lemma sql_donation_ledger (now : Z) (b : donation_body) :
  ledger_kept (sql_donation now b).
Proof.
  intros s s'. unfold sql_donation, insert_donation_do_nothing.
  destruct (donation_tuple now b) as [r|]; simpl; [|discriminate].
  destruct (donations s !! d_id r); [intros H; now inversion H|].
  destruct (campaigns s !! d_campaign_id r); intros H; now inversion H.
Qed.

Lemma sql_withdrawal_ledger (now : Z) (b : withdrawal_body) :
  ledger_kept (sql_withdrawal now b) /\ ledger_kept (sql_withdrawal_batch now b).
Proof.
  split; intros s s';
    unfold sql_withdrawal, sql_withdrawal_batch, insert_withdrawal_do_nothing.
  - destruct (withdrawal_tuple now b) as [r|]; simpl; [|discriminate].
    destruct (withdrawals s !! w_id r); [intros H; now inversion H|].
    destruct (campaigns s !! w_campaign_id r); intros H; now inversion H.
  - destruct (withdrawal_tuple_batch now b) as [r|]; simpl; [|discriminate].
    destruct (withdrawals s !! w_id r); [intros H; now inversion H|].
    destruct (campaigns s !! w_campaign_id r); intros H; now inversion H.
Qed.

Lemma sql_badge_ledger (now : Z) (b : badge_body) :
  ledger_kept (sql_badge now b).
Proof.
  intros s s'. unfold sql_badge, upsert_badge.
  destruct (badge_tuple now b) as [r|]; simpl; [|discriminate].
  destruct (badges s !! b_token_id r); intros H; now inversion H.
Qed.

Lemma poll_each_ledger {A} (stmt : A -> store -> res store) (items : list A) :
  (forall x, ledger_kept (stmt x)) ->
  forall s k, sync_status (fst (poll_each stmt items s k)) = sync_status s.
Proof.
  intros Hk. induction items as [|x rest IH]; intros s k; simpl.
  - reflexivity.
  - destruct (stmt x s) as [s'|] eqn:E; [|reflexivity].
    rewrite IH. now apply (Hk x).
Qed.

(** A whole phase of the poller leaves the ledger as it was. *)
Lemma run_phase_ledger (now : Z) (ix : indexer) (ph : phase) (s : store) :
  sync_status (run_phase now ix ph s) = sync_status s.
Proof.
  destruct ph; simpl; unfold poll_entity.
  - destruct (ix_campaigns ix); [|reflexivity].
    apply poll_each_ledger. intros x. apply sql_campaign_poller_ledger.
  - destruct (ix_donations ix); [|reflexivity].
    apply poll_each_ledger. intros x. apply sql_donation_ledger.
  - destruct (ix_badges ix); [|reflexivity].
    apply poll_each_ledger. intros x. apply sql_badge_ledger.
  - destruct (ix_withdrawals ix); [|reflexivity].
    apply poll_each_ledger. intros x. apply sql_withdrawal_ledger.
Qed.

Lemma query_ledger (l : list sync_row) (stmt : store -> res store) (c : session) :
  ledger_kept stmt -> ledger_is l c -> ledger_is l (snd (query stmt c)).
Proof.
  intros Hk [Hc Hw]. unfold query, ledger_is.
  destruct (txn c) as [|w|] eqn:E.
  - destruct (stmt (committed c)) as [s'|] eqn:Es; simpl.
    + split; [|exact I]. rewrite (Hk _ _ Es). exact Hc.
    + split; [exact Hc|]. now rewrite E.
  - destruct (stmt w) as [w'|] eqn:Es; simpl.
    + split; [exact Hc|]. rewrite (Hk _ _ Es). exact Hw.
    + split; [exact Hc|exact I].
  - simpl. split; [exact Hc|]. now rewrite E.
Qed.

Lemma batch_loop_ledger {A} (l : list sync_row) (stmt : A -> store -> res store)
    (items : option (list A)) :
  (forall x, ledger_kept (stmt x)) ->
  forall c, ledger_is l c -> ledger_is l (snd (batch_loop stmt items c)).
Proof.
  intros Hk. destruct items as [xs|]; simpl; [|auto].
  generalize 0%nat. induction xs as [|x rest IH]; intros k c Hl; simpl.
  - exact Hl.
  - unfold db_bind. pose proof (query_ledger l (stmt x) c (Hk x) Hl) as Hq.
    destruct (query (stmt x) c) as [[u|e] c']; simpl in *.
    + now apply IH.
    + exact Hq.
Qed.

(** The batch handler leaves the ledger as it was, whatever it stores. *)
Lemma syncBatch_ledger (now : Z) (b : batch_body) (s : store) :
  sync_status (snd (syncBatch now b s)) = sync_status s.
Proof.
  unfold syncBatch, batch_statements, db_bind, sql_begin. simpl.
  set (l := sync_status s).
  assert (H0 : ledger_is l {| committed := s; txn := Open s |})
    by (split; reflexivity).
  pose proof (batch_loop_ledger l (sql_campaign_batch now) (bt_campaigns b)
                (sql_campaign_batch_ledger now) _ H0) as H1.
  destruct (batch_loop (sql_campaign_batch now) (bt_campaigns b) _) as [[nc|e1] c1];
    simpl in H1; [|simpl; apply H1].
  pose proof (batch_loop_ledger l (sql_donation now) (bt_donations b)
                (sql_donation_ledger now) _ H1) as H2.
  destruct (batch_loop (sql_donation now) (bt_donations b) _) as [[nd|e2] c2];
    simpl in H2; [|simpl; apply H2].
  pose proof (batch_loop_ledger l (sql_withdrawal_batch now) (bt_withdrawals b)
                (fun x => proj2 (sql_withdrawal_ledger now x)) _ H2) as H3.
  destruct (batch_loop (sql_withdrawal_batch now) (bt_withdrawals b) _)
    as [[nw|e3] c3]; simpl in H3; [|simpl; apply H3].
  pose proof (batch_loop_ledger l (sql_badge now) (bt_badges b)
                (sql_badge_ledger now) _ H3) as H4.
  destruct (batch_loop (sql_badge now) (bt_badges b) _) as [[nb|e4] c4];
    simpl in H4; [|simpl; apply H4].
  unfold sql_commit, db_ret. destruct H4 as [Hc Hw].
  destruct (txn c4); simpl; assumption.
Qed.

End PathFacts.

Section LedgerFacts.
Context `{casts : PgCasts}.

(** The row a status update leaves, when the statement does not raise. *)
Lemma updateSyncStatus_row (now : Z) (entity : string) (v : jsval)
    (blk : option Z) (s : store) (i : nat) (r : sync_row) :
  bind_col cast_bigint v = Ok blk ->
  counter_room entity (sync_status s) = true ->
  sync_status s !! i = Some r ->
  s_entity_type r = entity ->
  sync_status (updateSyncStatus now entity v s) !! i
  = Some {| s_entity_type := s_entity_type r;
            s_last_block_number :=
              match blk with Some b => b | None => s_last_block_number r end;
            s_last_synced_at := now;
            s_total_synced := s_total_synced r + 1;
            s_status := "healthy"; s_error_message := None;
            s_created_at := s_created_at r; s_updated_at := now |}.
Proof.
  intros Hv Hroom Hi He.
  destruct (update_sync_rows_succeeds now blk entity (sync_status s) Hroom)
    as [rows' Hrows].
  destruct (update_sync_rows_lookup _ _ _ _ _ Hrows i r Hi) as (r' & Hr' & Hif).
  unfold updateSyncStatus, sql_update_sync_status. rewrite Hv. simpl.
  rewrite Hrows. simpl. rewrite Hr'.
  rewrite He, String.eqb_refl in Hif. unfold update_sync_row in Hif.
  destruct (int4_max <? s_total_synced r + 1); [discriminate|].
  now inversion Hif.
Qed.

Lemma bind_donation_block (now : Z) (id c d a t blk ts : jsval) (r : donation_row) :
  bind_donation now id c d a t blk ts = Ok r ->
  bind_col cast_bigint blk = Ok (Some (d_block_number r)).
Proof.
  unfold bind_donation.
  repeat match goal with
         | |- context [res_bind (bind_col ?f ?x) _] =>
             destruct (bind_col f x) as [[?|]|]; simpl; try discriminate
         end.
  intros H; inversion H; reflexivity.
Qed.

(** On the webhook a donation that is accepted, stored or already there,
    adds one to the counter of every "donation" row of the ledger and
    stamps it, unless a counter is at the top of INTEGER. *)
Lemma syncDonation_counts (now : Z) (b : donation_body) (s s1 : store)
    (i : nat) (r : sync_row) :
  donation_rejected b = false ->
  sql_donation now b s = Ok s1 ->
  counter_room "donation" (sync_status s) = true ->
  sync_status s !! i = Some r ->
  s_entity_type r = "donation" ->
  exists r', sync_status (snd (syncDonation now b s)) !! i = Some r' /\
             s_total_synced r' = s_total_synced r + 1 /\
             s_last_synced_at r' = now.
Proof.
  intros Hrej Hs1 Hroom Hi He.
  pose proof (sql_donation_ledger now b s s1 Hs1) as Hl.
  unfold syncDonation. rewrite Hrej, Hs1. simpl.
  assert (Hblk : exists z, bind_col cast_bigint (db_blockNumber b) = Ok (Some z)).
  { unfold sql_donation in Hs1.
    destruct (donation_tuple now b) as [row|] eqn:Et; [|discriminate].
    exists (d_block_number row). now apply bind_donation_block in Et. }
  destruct Hblk as [z Hz].
  eexists. split.
  - apply (updateSyncStatus_row now "donation" _ (Some z) s1 i r Hz);
      rewrite ?Hl; assumption.
  - simpl. auto.
Qed.

End LedgerFacts.

(** C5 on the sample data: campaign 7 is stored with owner 0xa, and the
    indexer now reports it with owner 0xb and a new name.  The webhook
    stores the new owner; the poller and the batch store the new name and
    keep the old owner. *)
Theorem campaign_owner_kept_by_poller_and_batch :
  let after_webhook := snd (syncCampaign (casts := reference_casts) 60 camp7' store7) in
  let after_poller := run_phase (casts := reference_casts) 60 ix7 PhCampaigns store7 in
  let after_batch := snd (syncBatch (casts := reference_casts) 60 batch7 store7) in
  c_owner <$> campaigns store7 !! 7 = Some "0xa" /\
  c_owner <$> campaigns after_webhook !! 7 = Some "0xb" /\
  c_owner <$> campaigns after_poller !! 7 = Some "0xa" /\
  c_owner <$> campaigns after_batch !! 7 = Some "0xa" /\
  c_name <$> campaigns after_poller !! 7 = Some "Well 2" /\
  c_name <$> campaigns after_batch !! 7 = Some "Well 2".
Proof. vm_compute. repeat split. Qed.

(** C7 on the code: a phase of the poller and a batch never write to the
    ledger.  On the sample data donation d1 is stored by either of them
    and the "donation" counter stays at 0, while the webhook brings it to
    1 and, replayed, to 2. *)
Theorem sync_status_not_updated_by_poller_and_batch :
  (forall (casts : PgCasts) now ix ph s,
     sync_status (run_phase now ix ph s) = sync_status s) /\
  (forall (casts : PgCasts) now b s,
     sync_status (snd (syncBatch now b s)) = sync_status s) /\
  let after_poller := run_phase (casts := reference_casts) 60 ix7 PhDonations store7 in
  let after_batch := snd (syncBatch (casts := reference_casts) 60 batch7 store7) in
  let after_webhook := snd (syncDonation (casts := reference_casts) 60 don1 store7) in
  let replayed := snd (syncDonation (casts := reference_casts) 61 don1 after_webhook) in
  is_Some (donations after_poller !! "d1") /\
  is_Some (donations after_batch !! "d1") /\
  s_total_synced <$> sync_status store7 !! 1%nat = Some 0 /\
  s_total_synced <$> sync_status after_poller !! 1%nat = Some 0 /\
  s_total_synced <$> sync_status after_batch !! 1%nat = Some 0 /\
  s_total_synced <$> sync_status after_webhook !! 1%nat = Some 1 /\
  s_total_synced <$> sync_status replayed !! 1%nat = Some 2 /\
  size (donations replayed) = 1%nat.
Proof.
  split; [intros; apply run_phase_ledger|].
  split; [intros; apply syncBatch_ledger|].
  vm_compute. repeat split; eauto.
Qed.

(* ===================================================================== *)
(** * The in-progress flag of the poller *)
(* ===================================================================== *)

Section PollerFacts.
Context `{casts : PgCasts}.

Lemma run_cons (e : event) (es : list event) (p : process) :
  run (e :: es) p = run es (step e p).
Proof. reflexivity. Qed.

Lemma step_single_flight (e : event) (p : process) :
  single_flight p -> single_flight (step e p).
Proof.
  intros Hinv. pose proof Hinv as Hp.
  destruct e as [|i ok|i now ix]; unfold step, single_flight.
  - destruct (isRunning p) eqn:E; simpl.
    + destruct Hinv as [Hnil|(t & Ht & _)]; [now left|right; eauto].
    + destruct Hinv as [Hnil|(t & _ & Hrun)]; [|congruence].
      right. exists Connecting. now rewrite Hnil.
  - destruct Hinv as [Hnil|(t & Ht & Hrun)].
    + rewrite Hnil. exact Hp.
    + rewrite Ht. destruct i as [|i]; simpl; [|exact Hp].
      destruct t; [|exact Hp].
      destruct ok; simpl; [right; eauto|now left].
  - destruct Hinv as [Hnil|(t & Ht & Hrun)].
    + rewrite Hnil. exact Hp.
    + rewrite Ht. destruct i as [|i]; simpl; [|exact Hp].
      destruct t as [|ph]; [exact Hp|].
      destruct (next_phase ph); simpl; [right; eauto|now left].
Qed.

Lemma run_single_flight (es : list event) :
  forall p, single_flight p -> single_flight (run es p).
Proof.
  induction es as [|e es IH]; intros p Hinv; [exact Hinv|].
  rewrite run_cons. apply IH. now apply step_single_flight.
Qed.

(** Whatever the order in which timer ticks and completions arrive, at
    most one invocation of the poller is past the test of the flag. *)
Lemma poller_single_flight (es : list event) (s : store) :
  (length (tasks (run es (boot s))) <= 1)%nat /\
  (tasks (run es (boot s)) <> [] -> isRunning (run es (boot s)) = true).
Proof.
  assert (H : single_flight (run es (boot s))).
  { apply run_single_flight. now left. }
  destruct H as [Hnil|(t & Ht & Hrun)].
  - rewrite Hnil. simpl. split; [lia|congruence].
  - rewrite Ht. simpl. split; [lia|auto].
Qed.

(** A call that finds the flag set sends nothing to the indexer, writes
    nothing and starts no task: it only logs. *)
Lemma tick_while_running (p : process) :
  isRunning p = true ->
  pstore (step Tick p) = pstore p /\ requests (step Tick p) = requests p /\
  tasks (step Tick p) = tasks p /\ skipped (step Tick p) = S (skipped p).
Proof. intros H. unfold step. rewrite H. simpl. auto. Qed.

(** A cycle that gets its connection clears the flag at its end, also
    when requests or statements of the cycle fail. *)
Lemma cycle_clears_flag (s : store) (t1 t2 t3 t4 : Z) (i1 i2 i3 i4 : indexer) :
  let p := run [Tick; Connected 0 true; Resumed 0 t1 i1; Resumed 0 t2 i2;
                Resumed 0 t3 i3; Resumed 0 t4 i4] (boot s) in
  isRunning p = false /\ tasks p = [] /\ requests p = 4%nat.
Proof. simpl. auto. Qed.

Lemma step_wedged (s : store) (e : event) (p : process) :
  wedged s p -> wedged s (step e p).
Proof.
  intros Hw. pose proof Hw as (Hrun & Hnil & Hs & Hr).
  destruct e as [|i ok|i now ix]; unfold step.
  - rewrite Hrun. unfold wedged. simpl. auto.
  - rewrite Hnil. exact Hw.
  - rewrite Hnil. exact Hw.
Qed.

(** C8 on the code: [pool.connect()] is awaited after the flag is set and
    before the try block.  When the first call of the poller cannot get a
    connection, the flag stays set with no invocation left to clear it:
    whatever happens afterwards, every later call is skipped, nothing is
    asked of the indexer and nothing is written. *)
Theorem poller_wedged_after_failed_connect (s : store) (es : list event) :
  let p := run es (run [Tick; Connected 0 false] (boot s)) in
  isRunning p = true /\ tasks p = [] /\ pstore p = s /\ requests p = 0%nat.
Proof.
  assert (H0 : wedged s (run [Tick; Connected 0 false] (boot s))).
  { simpl. repeat split. }
  revert H0. generalize (run [Tick; Connected 0 false] (boot s)).
  induction es as [|e es IH]; intros p Hw; [exact Hw|].
  rewrite run_cons. apply IH. now apply step_wedged.
Qed.

End PollerFacts.

(* ===================================================================== *)
(** * The Chain Writer *)
(* ===================================================================== *)

Section ChainFacts.
Context `{rt : Runtime}.

(** The first test of the catch block, on the code of the error. *)
Lemma classify_nonce_code (cid : Z) (err : jserror) :
  e_code err = Some "NONCE_EXPIRED" -> classify cid err = nonce_conflict.
Proof.
  intros H. unfold classify, is_nonce_error, code_is. rewrite H.
  reflexivity.
Qed.

(** The first test of the catch block, on the message of the error. *)
Lemma classify_nonce_message (cid : Z) (err : jserror) (msg : string) :
  e_message err = Some msg -> includes msg "nonce" = true ->
  classify cid err = nonce_conflict.
Proof.
  intros Hm Hn. unfold classify, is_nonce_error, message_includes.
  rewrite Hm, Hn, orb_true_r. reflexivity.
Qed.

(** The second test is reached only past the first. *)
Lemma classify_campaign_not_found (cid : Z) (err : jserror) (msg : string) :
  e_code err <> Some "NONCE_EXPIRED" ->
  e_message err = Some msg -> includes msg "nonce" = false ->
  includes msg "CampaignNotFound" = true ->
  classify cid err
  = Failure ("Campaign #" +:+ number_text cid +:+ " does not exist on blockchain")
            (Some "CAMPAIGN_NOT_FOUND").
Proof.
  intros Hc Hm Hn Hf. unfold classify, is_nonce_error, message_includes, code_is.
  rewrite Hm, Hn, Hf.
  destruct (e_code err) as [c|]; [|reflexivity].
  destruct (String.eqb_spec c "NONCE_EXPIRED"); [congruence|reflexivity].
Qed.

(** Any other error is returned with its own message when it has one. *)
Lemma classify_other (cid : Z) (err : jserror) :
  e_code err <> Some "NONCE_EXPIRED" ->
  (forall msg, e_message err = Some msg ->
               includes msg "nonce" = false /\
               includes msg "CampaignNotFound" = false) ->
  classify cid err
  = Failure (match e_message err with
             | Some msg => if String.eqb msg "" then "Failed to mint and donate IDRX"
                           else msg
             | None => "Failed to mint and donate IDRX"
             end) None.
Proof.
  intros Hc Hm. unfold classify, is_nonce_error, message_includes, code_is.
  assert (Hcode : match e_code err with
                  | Some c' => String.eqb c' "NONCE_EXPIRED"
                  | None => false
                  end = false).
  { destruct (e_code err) as [c|]; [|reflexivity].
    destruct (String.eqb_spec c "NONCE_EXPIRED"); [congruence|reflexivity]. }
  rewrite Hcode.
  destruct (e_message err) as [msg|]; [|reflexivity].
  destruct (Hm msg eq_refl) as [Hn Hf]. rewrite Hn, Hf. reflexivity.
Qed.

(** The catch block never answers success. *)
Lemma classify_fails (cid : Z) (err : jserror) :
  exists m e, classify cid err = Failure m e.
Proof.
  unfold classify. destruct (is_nonce_error err); [eauto|].
  destruct (message_includes err "CampaignNotFound"); eauto.
Qed.

(** A step that throws ends the sequence in the catch block, and the
    steps confirmed before it stay on the chain. *)
Lemma failed_step_keeps_earlier_steps (a cid : Z) (o : oracle) (ch : chain)
    (addr : addresses) (units : Z) :
  a <> 0 ->
  o_setup o = inr addr ->
  parseUnits2 a = inr units ->
  let result := mintAndDonateIDRX (Some a) cid o ch in
  (forall err, o_mint o = inl err -> result = (classify cid err, ch)) /\
  (forall m err, o_mint o = inr m -> o_approve o = inl err ->
     result = (classify cid err, ch ++ [TxMint (length ch) units])) /\
  (forall m ap err, o_mint o = inr m -> o_approve o = inr ap ->
     o_donate o = inl err ->
     result = (classify cid err,
               ch ++ [TxMint (length ch) units;
                      TxApprove (S (length ch)) units])).
Proof.
  intros Ha Hsetup Hunits result. subst result.
  unfold mintAndDonateIDRX.
  apply Z.eqb_neq in Ha. rewrite Ha, Hsetup, Hunits.
  split; [intros err Hm; now rewrite Hm|].
  split; [intros m err Hm Hap; now rewrite Hm, Hap|].
  intros m ap err Hm Hap Hd. rewrite Hm, Hap, Hd.
  rewrite length_app, Nat.add_1_r, <- app_assoc. reflexivity.
Qed.

(** C9.  The catch block tests for a nonce conflict first, and that test
    accepts every message that holds the word nonce.  A donation that
    reverts with CampaignNotFound, in an error whose message also quotes
    the transaction sent, nonce included, is therefore answered
    NONCE_ERROR, please try again, and not CAMPAIGN_NOT_FOUND as the
    second test of the catch block announces, while the mint and the
    approval confirmed before it stay on the chain.  The same failure of
    the same sequence is answered CAMPAIGN_NOT_FOUND when the error has
    neither the code NONCE_EXPIRED nor the word nonce, and NONCE_ERROR
    when it has the code NONCE_EXPIRED. *)
Theorem campaign_not_found_answered_as_nonce_conflict (a cid : Z) (o : oracle)
    (ch : chain) (addr : addresses) (units : Z) (m ap : receipt)
    (err : jserror) (msg : string) :
  a <> 0 ->
  o_setup o = inr addr ->
  parseUnits2 a = inr units ->
  o_mint o = inr m ->
  o_approve o = inr ap ->
  o_donate o = inl err ->
  e_message err = Some msg ->
  includes msg "CampaignNotFound" = true ->
  includes msg "nonce" = true ->
  let ch2 := ch ++ [TxMint (length ch) units; TxApprove (S (length ch)) units] in
  let failing (e : jserror) :=
    mintAndDonateIDRX (Some a) cid
      {| o_setup := o_setup o; o_mint := o_mint o; o_approve := o_approve o;
         o_donate := inl e |} ch in
  mintAndDonateIDRX (Some a) cid o ch = (nonce_conflict, ch2) /\
  (forall e msg', e_code e <> Some "NONCE_EXPIRED" ->
     e_message e = Some msg' -> includes msg' "nonce" = false ->
     includes msg' "CampaignNotFound" = true ->
     failing e
     = (Failure ("Campaign #" +:+ number_text cid
                 +:+ " does not exist on blockchain")
                (Some "CAMPAIGN_NOT_FOUND"), ch2)) /\
  (forall e, e_code e = Some "NONCE_EXPIRED" ->
     failing e = (nonce_conflict, ch2)).
Proof.
  intros Ha Hsetup Hunits Hm Hap Hd Hmsg Hfound Hnonce ch2 failing.
  subst ch2 failing.
  split.
  { destruct (failed_step_keeps_earlier_steps a cid o ch addr units
                Ha Hsetup Hunits) as (_ & _ & H3).
    rewrite (H3 m ap err Hm Hap Hd).
    now rewrite (classify_nonce_message cid err msg Hmsg Hnonce). }
  split.
  - intros e msg' Hc Hm' Hn' Hf'.
    destruct (failed_step_keeps_earlier_steps a cid
                {| o_setup := o_setup o; o_mint := o_mint o;
                   o_approve := o_approve o; o_donate := inl e |}
                ch addr units Ha Hsetup Hunits) as (_ & _ & H3).
    rewrite (H3 m ap e Hm Hap eq_refl).
    now rewrite (classify_campaign_not_found cid e msg' Hc Hm' Hn' Hf').
  - intros e Hc.
    destruct (failed_step_keeps_earlier_steps a cid
                {| o_setup := o_setup o; o_mint := o_mint o;
                   o_approve := o_approve o; o_donate := inl e |}
                ch addr units Ha Hsetup Hunits) as (_ & _ & H3).
    rewrite (H3 m ap e Hm Hap eq_refl).
    now rewrite (classify_nonce_code cid e Hc).
Qed.

End ChainFacts.

Lemma campaign_not_found_answered_as_nonce_conflict_witness :
  mintAndDonateIDRX (rt := reference_runtime) (Some 10000) 7
    oracle_donate_reverts []
  = (Failure "Transaction nonce conflict. Please try again in a few seconds."
             (Some "NONCE_ERROR"),
     [TxMint 0 1000000; TxApprove 1 1000000]).
Proof.
  destruct (campaign_not_found_answered_as_nonce_conflict
              (rt := reference_runtime) 10000 7 oracle_donate_reverts []
              contracts 1000000
              {| rc_hash := "0xm"; rc_block := 501 |}
              {| rc_hash := "0xa"; rc_block := 502 |}
              revert_not_found
              "cannot estimate gas (reason=execution reverted: CampaignNotFound, transaction={to:0xCafe,nonce:5})")
    as (H & _);
    [lia | reflexivity | reflexivity | reflexivity | reflexivity | reflexivity
    | reflexivity | reflexivity | reflexivity |].
  exact H.
Defined.

(* ===================================================================== *)
(** * The replay check of the settlement handler *)
(* ===================================================================== *)

Lemma like_any_here (k : string -> bool) (s : string) :
  k s = true -> like_any k s = true.
Proof. intros H. destruct s; simpl; now rewrite H. Qed.

Lemma like_any_skip (k : string -> bool) (c : ascii) (s : string) :
  like_any k s = true -> like_any k (String c s) = true.
Proof. intros H. simpl. rewrite H. apply orb_true_r. Qed.

Lemma like_percent (s : string) : sql_like "%" s = true.
Proof.
  change (like_any (sql_like "") s = true).
  induction s as [|c s IH].
  - reflexivity.
  - now apply like_any_skip.
Qed.

(** A text without backslash, followed by [%], matches everything that
    starts with that text. *)
Lemma like_prefix (p suffix : string) :
  no_escape p = true -> sql_like (p +:+ "%") (p +:+ suffix) = true.
Proof.
  induction p as [|c p IH]; intros Hp.
  - apply like_percent.
  - simpl in Hp. apply andb_prop in Hp as [Hc Hrest].
    specialize (IH Hrest).
    change (String c p +:+ "%") with (String c (p +:+ "%")).
    change (String c p +:+ suffix) with (String c (p +:+ suffix)).
    cbn [sql_like].
    destruct (Ascii.eqb c "%") eqn:E1.
    + now apply like_any_skip, like_any_here.
    + destruct (Ascii.eqb c "_") eqn:E2; [exact IH|].
      destruct (Ascii.eqb c "\") eqn:E3; [discriminate|].
      rewrite Ascii.eqb_refl. exact IH.
Qed.

Lemma append_empty (s : string) : s +:+ "" = s.
Proof.
  induction s as [|c s IH]; [reflexivity|].
  change (String c s +:+ "") with (String c (s +:+ "")). now rewrite IH.
Qed.

Section SettlementFacts.
Context `{casts : PgCasts} `{rt : Runtime}.

(** The id under which a settled order is recorded matches the pattern
    of the replay check. *)
Lemma qris_pattern_matches (orderId : string) :
  no_escape orderId = true ->
  sql_like (qris_pattern orderId) ("qris-" +:+ orderId) = true.
Proof.
  intros H. unfold qris_pattern.
  rewrite <- (append_empty orderId) at 2.
  pose proof (like_prefix orderId "" H) as Hl.
  cbn. exact Hl.
Qed.

(** When a donation recorded for the order is in the store at the start,
    the handler answers with a stored row that matches the pattern and
    touches neither the provider, nor the chain, nor the store. *)
Lemma qris_replay_guard (now : Z) (orderId : string) (provider : option midtrans)
    (o : oracle) (w : world) (k : string) (row : donation_row) :
  donations (w_store w) !! k = Some row ->
  d_id row = "qris-" +:+ orderId ->
  no_escape orderId = true ->
  exists r, getQRISStatus now orderId provider o w = (AlreadyProcessed r, w) /\
            sql_like (qris_pattern orderId) (d_id r) = true /\
            exists k', donations (w_store w) !! k' = Some r.
Proof.
  intros Hk Hid Hesc. unfold getQRISStatus, select_donations_like.
  set (rows := snd <$> map_to_list (donations (w_store w))).
  assert (Hin : In row (List.filter
                          (fun r => sql_like (qris_pattern orderId) (d_id r)) rows)).
  { apply filter_In. split.
    - apply list_elem_of_In. subst rows. apply list_elem_of_fmap.
      exists (k, row). split; [reflexivity|]. now apply elem_of_map_to_list.
    - rewrite Hid. now apply qris_pattern_matches. }
  destruct (List.filter _ rows) as [|r rest] eqn:El; [destruct Hin|].
  exists r. split; [reflexivity|].
  assert (Hr : In r (List.filter
                       (fun r => sql_like (qris_pattern orderId) (d_id r)) rows)).
  { rewrite El. now left. }
  apply filter_In in Hr as [Hr1 Hr2]. split; [exact Hr2|].
  apply list_elem_of_In in Hr1. subst rows.
  apply list_elem_of_fmap in Hr1 as ([k' r'] & -> & Hkr).
  exists k'. now apply elem_of_map_to_list in Hkr.
Qed.

End SettlementFacts.

(** C1 on the code.  The same settled order is confirmed twice.
    - On the store that the DDL of the repository creates, the INSERT
      that should record the donation names columns the table does not
      have; it raises, the handler drops the error, nothing is recorded,
      and the second request runs the whole sequence again.
    - With the columns added, two requests that overlap both pass the
      replay check before either has recorded anything: again two
      sequences.
    - With the columns added and the requests one after the other, the
      second one is answered from the store and the chain sees one
      sequence. *)
Theorem qris_replayed_mints_twice :
  let go := getQRISStatus (casts := reference_casts) (rt := reference_runtime) in
  let w0 := {| w_store := store7; w_chain := [] |} in
  let w1 := snd (go 100 order7 (Some settled7) oracle_ok w0) in
  let w2 := snd (go 200 order7 (Some settled7) oracle_ok w1) in
  let m0 := {| w_store := migrated store7; w_chain := [] |} in
  let m1 := snd (go 100 order7 (Some settled7) oracle_ok m0) in
  let m2 := go 200 order7 (Some settled7) oracle_ok m1 in
  let both := getQRISStatus_overlapping (casts := reference_casts)
                (rt := reference_runtime) 100 200 order7
                (Some settled7) (Some settled7) oracle_ok oracle_ok m0 in
  (qris_columns store7 = false /\ donations (w_store w1) = ∅ /\
   sequences (w_chain w1) = 1%nat /\ sequences (w_chain w2) = 2%nat) /\
  (sequences (w_chain (snd both)) = 2%nat /\
   size (donations (w_store (snd both))) = 1%nat) /\
  (is_Some (donations (w_store m1) !! ("qris-" +:+ order7)) /\
   sequences (w_chain m1) = 1%nat /\ snd m2 = m1 /\
   sequences (w_chain (snd m2)) = 1%nat).
Proof. vm_compute. repeat split; eauto. Qed.

(* ===================================================================== *)
(** * The batch against its statements taken in order *)
(* ===================================================================== *)

Section BatchOrder.
Context `{casts : PgCasts}.

Lemma for_each_open {A} (stmt : A -> store -> res store) (items : list A) :
  forall (k : nat) (s0 w : store),
    for_each stmt items k {| committed := s0; txn := Open w |}
    = match run_all stmt items w with
      | Ok w' => (Ok (k + length items)%nat, {| committed := s0; txn := Open w' |})
      | Err e => (Err e, {| committed := s0; txn := Failed |})
      end.
Proof.
  induction items as [|x rest IH]; intros k s0 w; simpl.
  - unfold db_ret. now rewrite Nat.add_0_r.
  - unfold db_bind, query. simpl.
    destruct (stmt x w) as [w'|e]; simpl; [|reflexivity].
    rewrite IH. destruct (run_all stmt rest w'); [|reflexivity].
    now rewrite Nat.add_succ_r.
Qed.

Lemma batch_loop_open {A} (stmt : A -> store -> res store)
    (items : option (list A)) (s0 w : store) :
  batch_loop stmt items {| committed := s0; txn := Open w |}
  = match run_array stmt items w with
    | Ok w' => (Ok (array_length items), {| committed := s0; txn := Open w' |})
    | Err e => (Err e, {| committed := s0; txn := Failed |})
    end.
Proof.
  destruct items as [l|]; simpl; [|reflexivity].
  now rewrite for_each_open.
Qed.

(** The transaction of [syncBatch] unfolded into its statements. *)
Lemma syncBatch_as_statements (now : Z) (b : batch_body) (s : store) :
  syncBatch now b s
  = match batch_in_order now b s with
    | Ok s' =>
        (reply_ok "Batch sync completed",
         Some {| n_campaigns := array_length (bt_campaigns b);
                 n_donations := array_length (bt_donations b);
                 n_withdrawals := array_length (bt_withdrawals b);
                 n_badges := array_length (bt_badges b) |}, s')
    | Err e => (reply_error e, None, s)
    end.
Proof.
  unfold syncBatch, batch_statements, batch_in_order.
  unfold db_bind at 1. unfold sql_begin at 1. cbn [committed txn].
  unfold db_bind at 1. rewrite batch_loop_open.
  destruct (run_array (sql_campaign_batch now) (bt_campaigns b) s) as [s1|e];
    [|reflexivity]. cbn [res_bind].
  unfold db_bind at 1. rewrite batch_loop_open.
  destruct (run_array (sql_donation now) (bt_donations b) s1) as [s2|e];
    [|reflexivity]. cbn [res_bind].
  unfold db_bind at 1. rewrite batch_loop_open.
  destruct (run_array (sql_withdrawal_batch now) (bt_withdrawals b) s2) as [s3|e];
    [|reflexivity]. cbn [res_bind].
  unfold db_bind at 1. rewrite batch_loop_open.
  destruct (run_array (sql_badge now) (bt_badges b) s3) as [s4|e];
    [|reflexivity].
  reflexivity.
Qed.

(** X1.  [syncBatch] answers exactly as its statements taken in order
    do: when none of them raises, the store is the one they leave one
    after the other (campaigns, donations, withdrawals, badges) and the
    counts of the reply are the lengths of the four arrays, an absent
    array counting 0; when one raises, the reply carries the error of
    that statement and the store is the one the request found. *)
Theorem syncBatch_in_order (now : Z) (b : batch_body) (s : store) :
  syncBatch now b s
  = match batch_in_order now b s with
    | Ok s' =>
        (reply_ok "Batch sync completed",
         Some {| n_campaigns := array_length (bt_campaigns b);
                 n_donations := array_length (bt_donations b);
                 n_withdrawals := array_length (bt_withdrawals b);
                 n_badges := array_length (bt_badges b) |}, s')
    | Err e => (reply_error e, None, s)
    end.
Proof. apply syncBatch_as_statements. Qed.

End BatchOrder.

(* ===================================================================== *)
(** * What no request takes away *)
(* ===================================================================== *)

Lemma campaigns_kept_refl (m : gmap Z campaign_row) : campaigns_kept m m.
Proof. intros k c H. exists c. auto. Qed.

Lemma campaigns_kept_trans (m1 m2 m3 : gmap Z campaign_row) :
  campaigns_kept m1 m2 -> campaigns_kept m2 m3 -> campaigns_kept m1 m3.
Proof.
  intros H12 H23 k c Hk.
  destruct (H12 k c Hk) as (c2 & Hk2 & E1 & E2 & E3).
  destruct (H23 k c2 Hk2) as (c3 & Hk3 & F1 & F2 & F3).
  exists c3. repeat split; congruence.
Qed.

Lemma badges_kept_refl (m : gmap Z badge_row) : badges_kept m m.
Proof. intros k b H. exists b. repeat split; auto. Qed.

Lemma badges_kept_trans (m1 m2 m3 : gmap Z badge_row) :
  badges_kept m1 m2 -> badges_kept m2 m3 -> badges_kept m1 m3.
Proof.
  intros H12 H23 k b Hk.
  destruct (H12 k b Hk) as (b2 & Hk2 & E1 & E2 & E3 & E4 & E5 & E6).
  destruct (H23 k b2 Hk2) as (b3 & Hk3 & F1 & F2 & F3 & F4 & F5 & F6).
  exists b3. repeat split; congruence.
Qed.

Lemma ledger_steady_refl (l : list sync_row) : ledger_steady l l.
Proof.
  split; [reflexivity|]. intros i r H. exists r. repeat split; auto. lia.
Qed.

Lemma ledger_steady_trans (l1 l2 l3 : list sync_row) :
  ledger_steady l1 l2 -> ledger_steady l2 l3 -> ledger_steady l1 l3.
Proof.
  intros [L12 H12] [L23 H23]. split; [congruence|].
  intros i r Hi.
  destruct (H12 i r Hi) as (r2 & Hi2 & E1 & E2 & E3 & E4).
  destruct (H23 i r2 Hi2) as (r3 & Hi3 & F1 & F2 & F3 & F4).
  exists r3. repeat split; try congruence; [lia|auto].
Qed.

Lemma grows_refl (s : store) : grows s s.
Proof.
  split; [reflexivity|]. split; [reflexivity|].
  split; [apply campaigns_kept_refl|]. split; [apply badges_kept_refl|].
  split; [apply ledger_steady_refl|reflexivity].
Qed.

Lemma grows_trans (s1 s2 s3 : store) : grows s1 s2 -> grows s2 s3 -> grows s1 s3.
Proof.
  intros (A1 & A2 & A3 & A4 & A5 & A6) (B1 & B2 & B3 & B4 & B5 & B6).
  split; [etrans; eassumption|].
  split; [etrans; eassumption|].
  split; [eapply campaigns_kept_trans; eassumption|].
  split; [eapply badges_kept_trans; eassumption|].
  split; [eapply ledger_steady_trans; eassumption|congruence].
Qed.

Section Growth.
Context `{casts : PgCasts}.

Lemma upsert_campaign_grows
    (on_conflict : Z -> campaign_row -> campaign_row -> campaign_row)
    (now : Z) (r : campaign_row) (s : store) :
  (forall old ex, c_id (on_conflict now old ex) = c_id old /\
                  c_creation_time (on_conflict now old ex) = c_creation_time old /\
                  c_created_at (on_conflict now old ex) = c_created_at old) ->
  grows s (upsert_campaign on_conflict now r s).
Proof.
  intros Hoc. unfold upsert_campaign.
  destruct (campaigns s !! c_id r) as [old|] eqn:E;
    (split; [reflexivity|]; split; [reflexivity|];
     split; [|split; [apply badges_kept_refl|
                      split; [apply ledger_steady_refl|reflexivity]]]);
    intros k c Hk; simpl; destruct (decide (k = c_id r)) as [->|Hne].
  - rewrite lookup_insert_eq. rewrite E in Hk. inversion Hk; subst c.
    exists (on_conflict now old r). split; [reflexivity|apply Hoc].
  - rewrite lookup_insert_ne by congruence. exists c. auto.
  - congruence.
  - rewrite lookup_insert_ne by congruence. exists c. auto.
Qed.

Lemma upsert_badge_grows (now : Z) (r : badge_row) (s : store) :
  grows s (upsert_badge now r s).
Proof.
  unfold upsert_badge.
  destruct (badges s !! b_token_id r) as [old|] eqn:E;
    (split; [reflexivity|]; split; [reflexivity|];
     split; [apply campaigns_kept_refl|
             split; [|split; [apply ledger_steady_refl|reflexivity]]]);
    intros k b Hk; simpl; destruct (decide (k = b_token_id r)) as [->|Hne].
  - rewrite lookup_insert_eq. rewrite E in Hk. inversion Hk; subst b.
    exists (badge_set now old r). repeat split.
  - rewrite lookup_insert_ne by congruence. exists b. repeat split; auto.
  - congruence.
  - rewrite lookup_insert_ne by congruence. exists b. repeat split; auto.
Qed.

Lemma set_donations_grows (m : gmap string donation_row) (s : store) :
  donations s ⊆ m -> grows s (set_donations m s).
Proof.
  intros H. split; [exact H|]. split; [reflexivity|].
  split; [apply campaigns_kept_refl|]. split; [apply badges_kept_refl|].
  split; [apply ledger_steady_refl|reflexivity].
Qed.

Lemma insert_donation_grows (r : donation_row) : grower (insert_donation_do_nothing r).
Proof.
  intros s s'. unfold insert_donation_do_nothing.
  destruct (donations s !! d_id r) eqn:E.
  - intros H; inversion H; subst. apply grows_refl.
  - destruct (campaigns s !! d_campaign_id r); intros H; inversion H; subst.
    apply set_donations_grows. now apply insert_subseteq.
Qed.

Lemma insert_withdrawal_grows (r : withdrawal_row) :
  grower (insert_withdrawal_do_nothing r).
Proof.
  intros s s'. unfold insert_withdrawal_do_nothing.
  destruct (withdrawals s !! w_id r) eqn:E.
  - intros H; inversion H; subst. apply grows_refl.
  - destruct (campaigns s !! w_campaign_id r); intros H; inversion H; subst.
    split; [reflexivity|]. split; [simpl; now apply insert_subseteq|].
    split; [apply campaigns_kept_refl|]. split; [apply badges_kept_refl|].
    split; [apply ledger_steady_refl|reflexivity].
Qed.

Lemma sql_campaign_grows (now : Z) (b : campaign_body) :
  grower (sql_campaign_webhook now b) /\ grower (sql_campaign_poller now b) /\
  grower (sql_campaign_batch now b).
Proof.
  unfold sql_campaign_webhook, sql_campaign_poller, sql_campaign_batch.
  split; [|split]; intros s s'.
  - destruct (campaign_tuple now b); simpl; intros H; inversion H.
    apply upsert_campaign_grows. intros; repeat split.
  - destruct (campaign_tuple now b); simpl; intros H; inversion H.
    apply upsert_campaign_grows. intros; repeat split.
  - destruct (campaign_tuple_batch now b); simpl; intros H; inversion H.
    apply upsert_campaign_grows. intros; repeat split.
Qed.

Lemma sql_donation_grows (now : Z) (b : donation_body) : grower (sql_donation now b).
Proof.
  intros s s'. unfold sql_donation.
  destruct (donation_tuple now b); simpl; [|discriminate].
  apply insert_donation_grows.
Qed.

Lemma sql_withdrawal_grows (now : Z) (b : withdrawal_body) :
  grower (sql_withdrawal now b) /\ grower (sql_withdrawal_batch now b).
Proof.
  unfold sql_withdrawal, sql_withdrawal_batch. split; intros s s'.
  - destruct (withdrawal_tuple now b); simpl; [|discriminate].
    apply insert_withdrawal_grows.
  - destruct (withdrawal_tuple_batch now b); simpl; [|discriminate].
    apply insert_withdrawal_grows.
Qed.

Lemma sql_badge_grows (now : Z) (b : badge_body) : grower (sql_badge now b).
Proof.
  intros s s'. unfold sql_badge.
  destruct (badge_tuple now b); simpl; intros H; inversion H.
  apply upsert_badge_grows.
Qed.

Lemma sql_campaign_balance_grows (now : Z) (bal id : jsval) :
  grower (sql_campaign_balance now bal id).
Proof.
  intros s s'. unfold sql_campaign_balance.
  destruct (bind_col cast_numeric bal) as [balance|]; simpl; [|discriminate].
  destruct (bind_col cast_integer id) as [[k|]|]; simpl; try discriminate;
    [|intros H; inversion H; apply grows_refl].
  destruct (campaigns s !! k) as [old|] eqn:E; intros H; inversion H;
    [|apply grows_refl].
  split; [reflexivity|]. split; [reflexivity|].
  split; [|split; [apply badges_kept_refl|
                   split; [apply ledger_steady_refl|reflexivity]]].
  intros k' c Hk. simpl. destruct (decide (k' = k)) as [->|Hne].
  - rewrite lookup_insert_eq. rewrite E in Hk. inversion Hk; subst c.
    eexists. split; [reflexivity|]. repeat split.
  - rewrite lookup_insert_ne by congruence. exists c. auto.
Qed.

Lemma update_sync_rows_length (now : Z) (blk : option Z) (entity : string)
    (rows rows' : list sync_row) :
  update_sync_rows now blk entity rows = Ok rows' -> length rows' = length rows.
Proof.
  revert rows'. induction rows as [|r0 rest IH]; intros rows' H; simpl in H.
  - now inversion H.
  - destruct (if String.eqb (s_entity_type r0) entity
              then update_sync_row now blk r0 else Ok r0); simpl in H;
      [|discriminate].
    destruct (update_sync_rows now blk entity rest) as [rest'|]; simpl in H;
      [|discriminate].
    inversion H. simpl. f_equal. now apply IH.
Qed.

Lemma updateSyncStatus_grows (now : Z) (entity : string) (v : jsval) (s : store) :
  grows s (updateSyncStatus now entity v s).
Proof.
  unfold updateSyncStatus, sql_update_sync_status.
  destruct (bind_col cast_bigint v) as [blk|]; simpl; [|apply grows_refl].
  destruct (update_sync_rows now blk entity (sync_status s)) as [rows'|] eqn:E;
    simpl; [|apply grows_refl].
  split; [reflexivity|]. split; [reflexivity|].
  split; [apply campaigns_kept_refl|]. split; [apply badges_kept_refl|].
  split; [|reflexivity]. simpl.
  split; [eapply update_sync_rows_length; eassumption|].
  intros i r Hi.
  destruct (update_sync_rows_lookup _ _ _ _ _ E i r Hi) as (r' & Hr' & Hif).
  exists r'. split; [exact Hr'|].
  destruct (String.eqb (s_entity_type r) entity).
  - unfold update_sync_row in Hif.
    destruct (int4_max <? s_total_synced r + 1); [discriminate|].
    inversion Hif; subst r'; simpl. repeat split; auto. lia.
  - subst r'. repeat split; auto. lia.
Qed.

Lemma handlers_grow (now : Z) (s : store) :
  (forall b, grows s (snd (syncCampaign now b s))) /\
  (forall id bal, grows s (snd (syncCampaignBalance now id bal s))) /\
  (forall b, grows s (snd (syncDonation now b s))) /\
  (forall b, grows s (snd (syncWithdrawal now b s))) /\
  (forall b, grows s (snd (syncBadge now b s))).
Proof.
  split; [|split; [|split; [|split]]].
  - intros b. unfold syncCampaign.
    destruct (campaign_rejected b); [apply grows_refl|].
    destruct (sql_campaign_webhook now b s) as [s'|] eqn:E; simpl;
      [|apply grows_refl].
    eapply grows_trans; [apply (proj1 (sql_campaign_grows now b)), E|].
    apply updateSyncStatus_grows.
  - intros id bal. unfold syncCampaignBalance.
    destruct (is_undefined id || is_undefined bal); [apply grows_refl|].
    destruct (sql_campaign_balance now bal id s) as [s'|] eqn:E; simpl;
      [|apply grows_refl].
    apply (sql_campaign_balance_grows now bal id), E.
  - intros b. unfold syncDonation.
    destruct (donation_rejected b); [apply grows_refl|].
    destruct (sql_donation now b s) as [s'|] eqn:E; simpl; [|apply grows_refl].
    eapply grows_trans; [apply (sql_donation_grows now b), E|].
    apply updateSyncStatus_grows.
  - intros b. unfold syncWithdrawal.
    match goal with |- context [if ?c then _ else _] => destruct c end;
      [apply grows_refl|].
    destruct (sql_withdrawal now b s) as [s'|] eqn:E; simpl; [|apply grows_refl].
    eapply grows_trans; [apply (proj1 (sql_withdrawal_grows now b)), E|].
    apply updateSyncStatus_grows.
  - intros b. unfold syncBadge.
    destruct (badge_rejected b); [apply grows_refl|].
    destruct (sql_badge now b s) as [s'|] eqn:E; simpl; [|apply grows_refl].
    eapply grows_trans; [apply (sql_badge_grows now b), E|].
    apply updateSyncStatus_grows.
Qed.

Lemma poll_each_grows {A} (stmt : A -> store -> res store) (items : list A) :
  (forall x, grower (stmt x)) ->
  forall s k, grows s (fst (poll_each stmt items s k)).
Proof.
  intros Hg. induction items as [|x rest IH]; intros s k; simpl.
  - apply grows_refl.
  - destruct (stmt x s) as [s'|] eqn:E; [|apply grows_refl].
    eapply grows_trans; [apply (Hg x), E|apply IH].
Qed.

Lemma run_phase_grows (now : Z) (ix : indexer) (ph : phase) (s : store) :
  grows s (run_phase now ix ph s).
Proof.
  destruct ph; simpl; unfold poll_entity.
  - destruct (ix_campaigns ix); [|apply grows_refl].
    apply poll_each_grows. intros x. apply sql_campaign_grows.
  - destruct (ix_donations ix); [|apply grows_refl].
    apply poll_each_grows. intros x. apply sql_donation_grows.
  - destruct (ix_badges ix); [|apply grows_refl].
    apply poll_each_grows. intros x. apply sql_badge_grows.
  - destruct (ix_withdrawals ix); [|apply grows_refl].
    apply poll_each_grows. intros x. apply sql_withdrawal_grows.
Qed.

Lemma run_array_grows {A} (stmt : A -> store -> res store)
    (items : option (list A)) :
  (forall x, grower (stmt x)) -> grower (run_array stmt items).
Proof.
  intros Hg. destruct items as [l|]; simpl;
    [|intros s s' H; inversion H; apply grows_refl].
  induction l as [|x rest IH]; intros s s'; simpl.
  - intros H; inversion H; apply grows_refl.
  - destruct (stmt x s) as [s1|] eqn:E; simpl; [|discriminate].
    intros H. eapply grows_trans; [apply (Hg x), E|now apply IH].
Qed.

Lemma syncBatch_grows (now : Z) (b : batch_body) (s : store) :
  grows s (snd (syncBatch now b s)).
Proof.
  rewrite syncBatch_as_statements. unfold batch_in_order.
  destruct (run_array (sql_campaign_batch now) (bt_campaigns b) s) as [s1|] eqn:E1;
    simpl; [|apply grows_refl].
  destruct (run_array (sql_donation now) (bt_donations b) s1) as [s2|] eqn:E2;
    simpl; [|apply grows_refl].
  destruct (run_array (sql_withdrawal_batch now) (bt_withdrawals b) s2)
    as [s3|] eqn:E3; simpl; [|apply grows_refl].
  destruct (run_array (sql_badge now) (bt_badges b) s3) as [s4|] eqn:E4;
    simpl; [|apply grows_refl].
  eapply grows_trans;
    [eapply run_array_grows; [|exact E1]; intros x; apply sql_campaign_grows|].
  eapply grows_trans;
    [eapply run_array_grows; [|exact E2]; intros x; apply sql_donation_grows|].
  eapply grows_trans;
    [eapply run_array_grows; [|exact E3]; intros x; apply sql_withdrawal_grows|].
  eapply run_array_grows; [|exact E4]. intros x; apply sql_badge_grows.
Qed.

End Growth.

(* ===================================================================== *)
(** * The chain under the Chain Writer and the settlement handler *)
(* ===================================================================== *)

Lemma well_nonced_snoc (ch : chain) (t : chain_tx) :
  well_nonced ch -> tx_nonce t = length ch -> well_nonced (ch ++ [t]).
Proof.
  intros Hw Ht i t' Hi. apply lookup_app_Some in Hi as [Hi|[Hge Hi]].
  - now apply Hw.
  - apply list_lookup_singleton_Some in Hi as [Hi ->]. lia.
Qed.

Section ChainGrowth.
Context `{casts : PgCasts} `{rt : Runtime}.

(** The ways the sequence can leave the chain: as it was, or longer by
    the steps that were confirmed, each with the next nonce. *)
Lemma mint_chain_shape (amount : option Z) (cid : Z) (o : oracle) (ch : chain) :
  let n := length ch in
  let ch' := snd (mintAndDonateIDRX amount cid o ch) in
  ch' = ch
  \/ (exists u, ch' = ch ++ [TxMint n u])
  \/ (exists u, ch' = (ch ++ [TxMint n u]) ++ [TxApprove (S n) u])
  \/ (exists u, ch' = ((ch ++ [TxMint n u]) ++ [TxApprove (S n) u])
                      ++ [TxDonate (S (S n)) cid u]).
Proof.
  unfold mintAndDonateIDRX.
  destruct amount as [a|]; [|now left].
  destruct (a =? 0); [now left|].
  destruct (o_setup o); [now left|].
  destruct (parseUnits2 a) as [|u]; [now left|].
  destruct (o_mint o); [now left|].
  destruct (o_approve o); [right; left; now exists u|].
  destruct (o_donate o); simpl.
  - right; right; left. exists u. now rewrite length_app, Nat.add_1_r.
  - right; right; right. exists u.
    now rewrite !length_app, !Nat.add_1_r.
Qed.

Lemma mint_well_nonced (amount : option Z) (cid : Z) (o : oracle) (ch : chain) :
  well_nonced ch -> well_nonced (snd (mintAndDonateIDRX amount cid o ch)).
Proof.
  intros Hw.
  destruct (mint_chain_shape amount cid o ch)
    as [->|[[u ->]|[[u ->]|[u ->]]]]; [exact Hw| | |].
  - now apply well_nonced_snoc.
  - apply well_nonced_snoc; [now apply well_nonced_snoc|].
    now rewrite length_app, Nat.add_1_r.
  - apply well_nonced_snoc;
      [apply well_nonced_snoc; [now apply well_nonced_snoc|]|];
      now rewrite ?length_app, ?Nat.add_1_r.
Qed.

Lemma mint_prefix (amount : option Z) (cid : Z) (o : oracle) (ch : chain) :
  ch `prefix_of` snd (mintAndDonateIDRX amount cid o ch).
Proof.
  destruct (mint_chain_shape amount cid o ch)
    as [->|[[u ->]|[[u ->]|[u ->]]]]; [reflexivity| | |];
    rewrite <- ?app_assoc; now eexists.
Qed.

Lemma sql_qris_donation_grows (now : Z)
    (id campaign donor amount txhash block ts method order gross : jsval) :
  grower (sql_qris_donation now id campaign donor amount txhash block ts
            method order gross).
Proof.
  intros s s'. unfold sql_qris_donation.
  destruct (qris_columns s); [|discriminate].
  destruct (bind_donation now id campaign donor amount txhash block ts) as [r|];
    simpl; [|discriminate].
  destruct (donations s !! d_id r) eqn:E; [discriminate|].
  destruct (campaigns s !! d_campaign_id r); intros H; inversion H.
  apply set_donations_grows. now apply insert_subseteq.
Qed.

Lemma record_qris_donation_grows (now : Z) (r : midtrans) (cid a : Z)
    (data : donate_data) (s : store) :
  grows s (record_qris_donation now r cid a data s).
Proof.
  unfold record_qris_donation.
  destruct (parseUnits2 a); [apply grows_refl|].
  match goal with
  | |- context [match ?q with Ok _ => _ | Err _ => _ end] =>
      destruct q as [s'|] eqn:E
  end; [|apply grows_refl].
  eapply sql_qris_donation_grows, E.
Qed.

(** One request of the settlement handler: the store only grows, and the
    chain is the one the Chain Writer left, if it was called at all. *)
Lemma getQRISStatus_world (now : Z) (orderId : string)
    (provider : option midtrans) (o : oracle) (w : world) :
  let w' := snd (getQRISStatus now orderId provider o w) in
  grows (w_store w) (w_store w') /\
  (w_chain w' = w_chain w
   \/ exists amount cid,
        w_chain w' = snd (mintAndDonateIDRX amount cid o (w_chain w))).
Proof.
  unfold getQRISStatus.
  destruct (select_donations_like (qris_pattern orderId) (w_store w));
    [|simpl; split; [apply grows_refl|now left]].
  unfold qris_settle.
  destruct provider as [r|]; [|simpl; split; [apply grows_refl|now left]].
  destruct (String.eqb (transaction_status r) "settlement");
    [|simpl; split; [apply grows_refl|now left]].
  destruct (match split_on "-" (order_id r) !! 1%nat with
            | Some part => parseInt part
            | None => None
            end) as [cid|]; [|simpl; split; [apply grows_refl|now left]].
  destruct (cast_integer (JNum cid)) as [key|];
    [|simpl; split; [apply grows_refl|now left]].
  destruct (campaigns (w_store w) !! key);
    [|simpl; split; [apply grows_refl|now left]].
  destruct (mintAndDonateIDRX (parseFloat (gross_amount r)) cid o (w_chain w))
    as [[data|m e] ch] eqn:E; simpl.
  - split; [apply record_qris_donation_grows|].
    right. exists (parseFloat (gross_amount r)), cid. now rewrite E.
  - split; [apply grows_refl|].
    right. exists (parseFloat (gross_amount r)), cid. now rewrite E.
Qed.

Lemma serve_grows (r : request) (w : world) :
  grows (w_store w) (w_store (serve r w)).
Proof.
  destruct r; simpl; try apply handlers_grow.
  - apply syncBatch_grows.
  - apply run_phase_grows.
  - apply getQRISStatus_world.
Qed.

Lemma serve_chain (r : request) (w : world) :
  w_chain w `prefix_of` w_chain (serve r w) /\
  (well_nonced (w_chain w) -> well_nonced (w_chain (serve r w))).
Proof.
  destruct r; simpl; try (split; [reflexivity|auto]).
  destruct (getQRISStatus_world now orderId provider o w)
    as [_ [->|(amount & cid & ->)]]; [split; [reflexivity|auto]|].
  split; [apply mint_prefix|apply mint_well_nonced].
Qed.

Lemma serve_all_cons (r : request) (rs : list request) (w : world) :
  serve_all (r :: rs) w = serve_all rs (serve r w).
Proof. reflexivity. Qed.

Lemma serve_all_grows (rs : list request) :
  forall w, grows (w_store w) (w_store (serve_all rs w)).
Proof.
  induction rs as [|r rs IH]; intros w; [apply grows_refl|].
  rewrite serve_all_cons.
  eapply grows_trans; [apply serve_grows|apply IH].
Qed.

Lemma serve_all_chain (rs : list request) :
  forall w, w_chain w `prefix_of` w_chain (serve_all rs w) /\
            (well_nonced (w_chain w) -> well_nonced (w_chain (serve_all rs w))).
Proof.
  induction rs as [|r rs IH]; intros w; [split; [reflexivity|auto]|].
  rewrite serve_all_cons.
  destruct (serve_chain r w) as [P1 W1].
  destruct (IH (serve r w)) as [P2 W2].
  split; [etrans; eassumption|auto].
Qed.

(** X2.  Whatever requests are served after it was stored (webhook calls,
    balance updates, batches, phases of the poller, settlement checks), a
    donation row is still there under its key with every field as it
    was; so is a withdrawal row. *)
Theorem stored_events_never_change (rs : list request) (w : world) :
  (forall k r, donations (w_store w) !! k = Some r ->
               donations (w_store (serve_all rs w)) !! k = Some r) /\
  (forall k r, withdrawals (w_store w) !! k = Some r ->
               withdrawals (w_store (serve_all rs w)) !! k = Some r).
Proof.
  destruct (serve_all_grows rs w) as (Hd & Hw & _).
  split; intros k r Hk.
  - eapply (proj1 (map_subseteq_spec _ _)); eassumption.
  - eapply (proj1 (map_subseteq_spec _ _)); eassumption.
Qed.

(** X3.  Whatever requests are served (webhook calls, balance updates,
    batches, phases of the poller, settlement checks), a cached campaign
    stays cached with its id, creation time and created_at, and a cached
    badge stays cached with its token id, name, mint transaction hash,
    block number, timestamp and created_at: none of these requests
    deletes either, and only the other fields are ever replaced. *)
Theorem identities_never_change (rs : list request) (w : world) :
  campaigns_kept (campaigns (w_store w)) (campaigns (w_store (serve_all rs w))) /\
  badges_kept (badges (w_store w)) (badges (w_store (serve_all rs w))).
Proof.
  destruct (serve_all_grows rs w) as (_ & _ & Hc & Hb & _). auto.
Qed.

(** X4.  Whatever requests are served, the ledger keeps its rows, in
    place and with their entity types; no counter goes down, and a row
    that is healthy stays healthy: nothing in the three files ever writes
    another status. *)
Theorem ledger_never_degrades (rs : list request) (w : world) :
  ledger_steady (sync_status (w_store w)) (sync_status (w_store (serve_all rs w))).
Proof.
  destruct (serve_all_grows rs w) as (_ & _ & _ & _ & Hl & _). exact Hl.
Qed.

(** X5.  Whatever requests are served, the transactions already confirmed
    stay on the chain in their order, and if every transaction carried
    its position as nonce before, so it is after: each step of a sequence
    is sent with the count of the transactions before it. *)
Theorem chain_only_extends (rs : list request) (w : world) :
  well_nonced (w_chain w) ->
  w_chain w `prefix_of` w_chain (serve_all rs w) /\
  well_nonced (w_chain (serve_all rs w)).
Proof.
  intros Hw. destruct (serve_all_chain rs w) as [P W]. auto.
Qed.

End ChainGrowth.

(* ===================================================================== *)
(** * Edges of the webhook handlers and of the poller loop *)
(* ===================================================================== *)

Section HandlerEdges.
Context `{casts : PgCasts}.

(** X6.  A balance update that names no cached campaign (the id is null,
    or no row has it) is answered 200 "Campaign balance updated" and
    changes nothing: the UPDATE selects no row and the handler does not
    look at the row count. *)
Theorem balance_update_unknown_campaign (now : Z) (id bal : jsval)
    (b : option Z) (ko : option Z) (s : store) :
  is_undefined id = false ->
  is_undefined bal = false ->
  bind_col cast_numeric bal = Ok b ->
  bind_col cast_integer id = Ok ko ->
  (forall k, ko = Some k -> campaigns s !! k = None) ->
  syncCampaignBalance now id bal s = (reply_ok "Campaign balance updated", s).
Proof.
  intros Hid Hbal Hb Hk Hnone. unfold syncCampaignBalance.
  rewrite Hid, Hbal. simpl. unfold sql_campaign_balance. rewrite Hb, Hk. simpl.
  destruct ko as [k|]; [|reflexivity]. now rewrite (Hnone k eq_refl).
Qed.

(** X7.  A balance update for a cached campaign replaces its balance (by
    NULL when the payload says null) and stamps last_synced_at and
    updated_at; the other fields of the row, the other campaigns, the
    other tables and the sync-status ledger stay as they were. *)
Theorem balance_update_frame (now : Z) (id bal : jsval) (b : option Z) (k : Z)
    (old : campaign_row) (s : store) :
  is_undefined bal = false ->
  bind_col cast_numeric bal = Ok b ->
  bind_col cast_integer id = Ok (Some k) ->
  campaigns s !! k = Some old ->
  exists s' row,
    syncCampaignBalance now id bal s = (reply_ok "Campaign balance updated", s') /\
    campaigns s' !! k = Some row /\
    c_balance row = b /\ c_last_synced_at row = now /\ c_updated_at row = now /\
    c_id row = c_id old /\ c_name row = c_name old /\
    c_creator_name row = c_creator_name old /\ c_owner row = c_owner old /\
    c_target_amount row = c_target_amount old /\
    c_creation_time row = c_creation_time old /\
    c_created_at row = c_created_at old /\
    (forall k', k' <> k -> campaigns s' !! k' = campaigns s !! k') /\
    donations s' = donations s /\ withdrawals s' = withdrawals s /\
    badges s' = badges s /\ sync_status s' = sync_status s.
Proof.
  intros Hbal Hb Hk Hold.
  assert (Hid : is_undefined id = false).
  { destruct id; try reflexivity. simpl in Hk. discriminate. }
  unfold syncCampaignBalance. rewrite Hid, Hbal. simpl.
  unfold sql_campaign_balance. rewrite Hb, Hk. simpl. rewrite Hold.
  eexists. eexists. split; [reflexivity|]. simpl.
  split; [apply lookup_insert_eq|]. simpl.
  do 10 (split; [reflexivity|]).
  split; [intros k' Hne; now apply lookup_insert_ne|].
  repeat split.
Qed.

(** X8.  Two campaign webhooks for the same id, the id being new to the
    cache: both are answered 200, and the row left holds the name, the
    creator, the owner, the balance and the target of the second payload
    (a smaller balance included), last_synced_at and updated_at of the
    second request, and the creation time and created_at of the first:
    the creation time sent the second time is ignored. *)
Theorem campaign_last_write_wins (now1 now2 : Z) (b1 b2 : campaign_body)
    (r1 r2 : campaign_row) (s : store) :
  campaign_rejected b1 = false ->
  campaign_rejected b2 = false ->
  campaign_tuple now1 b1 = Ok r1 ->
  campaign_tuple now2 b2 = Ok r2 ->
  c_id r2 = c_id r1 ->
  campaigns s !! c_id r1 = None ->
  let first := syncCampaign now1 b1 s in
  let second := syncCampaign now2 b2 (snd first) in
  r_status (fst first) = 200%nat /\ r_status (fst second) = 200%nat /\
  exists row,
    campaigns (snd second) !! c_id r1 = Some row /\
    c_name row = c_name r2 /\ c_creator_name row = c_creator_name r2 /\
    c_owner row = c_owner r2 /\ c_balance row = c_balance r2 /\
    c_target_amount row = c_target_amount r2 /\
    c_last_synced_at row = now2 /\ c_updated_at row = now2 /\
    c_creation_time row = c_creation_time r1 /\
    c_created_at row = c_created_at r1.
Proof.
  intros Hj1 Hj2 Ht1 Ht2 Hid Hnone first second. subst first second.
  unfold syncCampaign. rewrite Hj1, Hj2.
  unfold sql_campaign_webhook. rewrite Ht1, Ht2. simpl.
  split; [reflexivity|]. split; [reflexivity|].
  set (s1 := upsert_campaign campaign_set_webhook now1 r1 s).
  set (s1' := updateSyncStatus now1 "campaign" JUndefined s1).
  assert (H1 : campaigns s1' !! c_id r2 = Some r1).
  { subst s1'.
    rewrite (proj1 (updateSyncStatus_tables now1 "campaign" JUndefined s1)).
    subst s1. rewrite Hid. now apply campaign_upsert_fresh. }
  exists (campaign_set_webhook now2 r1 r2).
  rewrite (proj1 (updateSyncStatus_tables now2 "campaign" JUndefined _)).
  rewrite <- Hid. split; [now apply campaign_upsert_conflict|].
  repeat split.
Qed.

(** X9.  A donation that binds, is not stored yet and refers to a campaign
    that is not cached is refused by the foreign key: the webhook answers
    500 and leaves the store, ledger included, as it was; the loop of the
    poller ends on it, so that no donation listed after it is stored in
    that cycle. *)
Theorem donation_for_unknown_campaign (now : Z) (b : donation_body)
    (r : donation_row) (s : store) :
  donation_rejected b = false ->
  donation_tuple now b = Ok r ->
  donations s !! d_id r = None ->
  campaigns s !! d_campaign_id r = None ->
  syncDonation now b s = (reply_error ForeignKeyViolation, s) /\
  forall rest, poll_each (sql_donation now) (b :: rest) s 0 = (s, 0%nat).
Proof.
  intros Hrej Ht Hd Hc.
  assert (H : sql_donation now b s = Err ForeignKeyViolation).
  { unfold sql_donation, insert_donation_do_nothing. rewrite Ht. simpl.
    now rewrite Hd, Hc. }
  split.
  - unfold syncDonation. now rewrite Hrej, H.
  - intros rest. simpl. now rewrite H.
Qed.

Lemma bind_withdrawal_needs (now : Z) (id c n o cr a t blk ts : jsval) :
  bind_col cast_bigint blk = Ok None \/ bind_col cast_bigint ts = Ok None ->
  exists e, bind_withdrawal now id c n o cr a t blk ts = Err e.
Proof.
  intros [H|H]; unfold bind_withdrawal; rewrite H;
    repeat match goal with
           | |- context [res_bind (bind_col ?f ?x) _] =>
               destruct (bind_col f x) as [[?|]|]; simpl; eauto
           end.
Qed.

Lemma bind_badge_needs (now : Z) (tok o n t blk ts : jsval) :
  bind_col cast_bigint blk = Ok None \/ bind_col cast_bigint ts = Ok None ->
  exists e, bind_badge now tok o n t blk ts = Err e.
Proof.
  intros [H|H]; unfold bind_badge; rewrite H;
    repeat match goal with
           | |- context [res_bind (bind_col ?f ?x) _] =>
               destruct (bind_col f x) as [[?|]|]; simpl; eauto
           end.
Qed.

Lemma bind_col_null {A} (cast : jsval -> option A) (v : jsval) :
  v = JUndefined \/ v = JNull -> bind_col cast v = Ok None.
Proof. intros [->| ->]; reflexivity. Qed.

(** X10.  The withdrawal and badge handlers do not test blockNumber and
    timestamp, which the tables declare NOT NULL: a payload that passes
    the test of the handler but leaves one of them out (or null) is not
    answered 400; the INSERT raises, the answer is 500 and nothing is
    written. *)
Theorem unchecked_fields_answer_500 (now : Z) (s : store) :
  (forall b : withdrawal_body,
     fst (syncWithdrawal now b s) <> reply_missing ->
     (wb_blockNumber b = JUndefined \/ wb_blockNumber b = JNull)
     \/ (wb_timestamp b = JUndefined \/ wb_timestamp b = JNull) ->
     exists e, syncWithdrawal now b s = (reply_error e, s)) /\
  (forall b : badge_body,
     fst (syncBadge now b s) <> reply_missing ->
     (bb_blockNumber b = JUndefined \/ bb_blockNumber b = JNull)
     \/ (bb_timestamp b = JUndefined \/ bb_timestamp b = JNull) ->
     exists e, syncBadge now b s = (reply_error e, s)).
Proof.
  split; intros b Hpass Hnull.
  - unfold syncWithdrawal in *.
    match goal with |- context [if ?c then _ else _] => destruct c end;
      [now destruct Hpass|].
    destruct (bind_withdrawal_needs now (wb_id b) (wb_campaignId b)
                (js_or (wb_name b) (JStr "")) (wb_owner b)
                (js_or (wb_creatorName b) (JStr "")) (wb_amount b)
                (wb_transactionHash b) (wb_blockNumber b) (wb_timestamp b))
      as [e He].
    { destruct Hnull as [H|H]; [left|right]; now apply bind_col_null. }
    exists e. unfold sql_withdrawal, withdrawal_tuple. now rewrite He.
  - unfold syncBadge in *.
    destruct (badge_rejected b); [now destruct Hpass|].
    destruct (bind_badge_needs now (bb_tokenId b) (bb_owner b) (bb_name b)
                (bb_transactionHash b) (bb_blockNumber b) (bb_timestamp b))
      as [e He].
    { destruct Hnull as [H|H]; [left|right]; now apply bind_col_null. }
    exists e. unfold sql_badge, badge_tuple. now rewrite He.
Qed.

(** X11.  A loop of the poller keeps what it stored before the first
    statement that raises and stops there: the items before it are stored
    and counted, the items after it are not tried, whatever they are. *)
Theorem poller_loop_stops_at_first_failure {A} (stmt : A -> store -> res store)
    (pre post : list A) (x : A) (s s1 : store) (e : dberror) (k : nat) :
  run_all stmt pre s = Ok s1 ->
  stmt x s1 = Err e ->
  poll_each stmt (pre ++ x :: post) s k = (s1, (k + length pre)%nat).
Proof.
  revert s k. induction pre as [|y pre IH]; intros s k Hpre Hx; simpl in *.
  - inversion Hpre; subst s1. rewrite Hx. now rewrite Nat.add_0_r.
  - destruct (stmt y s) as [s'|]; simpl in Hpre; [|discriminate].
    rewrite (IH s' (S k) Hpre Hx). now rewrite Nat.add_succ_r.
Qed.

Lemma update_sync_rows_full (now : Z) (blk : option Z) (entity : string)
    (rows : list sync_row) :
  counter_room entity rows = false ->
  update_sync_rows now blk entity rows = Err NumericOutOfRange.
Proof.
  induction rows as [|r0 rest IH]; intros H; simpl in H; [discriminate|].
  simpl. destruct (String.eqb (s_entity_type r0) entity); simpl in H.
  - unfold update_sync_row.
    destruct (s_total_synced r0 + 1 <=? int4_max) eqn:E; simpl in H.
    + apply Z.leb_le in E.
      destruct (int4_max <? s_total_synced r0 + 1) eqn:E'.
      * apply Z.ltb_lt in E'. lia.
      * simpl. now rewrite (IH H).
    + apply Z.leb_gt in E.
      destruct (int4_max <? s_total_synced r0 + 1) eqn:E'; [reflexivity|].
      apply Z.ltb_ge in E'. lia.
  - simpl. now rewrite (IH H).
Qed.

(** X12.  When a "donation" counter of the ledger is at the top of
    INTEGER, a donation webhook is still answered 200 and the donation is
    stored as usual, but the UPDATE of the ledger raises and is dropped:
    no row of the ledger changes, the last block number and
    last_synced_at included. *)
Theorem ledger_full_update_dropped (now : Z) (b : donation_body) (s s1 : store) :
  donation_rejected b = false ->
  sql_donation now b s = Ok s1 ->
  counter_room "donation" (sync_status s) = false ->
  syncDonation now b s = (reply_ok "Donation synced successfully", s1) /\
  sync_status s1 = sync_status s.
Proof.
  intros Hrej Hs1 Hfull.
  pose proof (sql_donation_ledger now b s s1 Hs1) as Hl.
  split; [|exact Hl].
  unfold syncDonation. rewrite Hrej, Hs1. simpl. f_equal.
  unfold updateSyncStatus, sql_update_sync_status.
  destruct (bind_col cast_bigint (db_blockNumber b)) as [blk|]; simpl;
    [|reflexivity].
  rewrite Hl. now rewrite (update_sync_rows_full now blk "donation" _ Hfull).
Qed.

(** X13.  A status update leaves the rows of the other entity types as
    they were; for an entity type that no row carries it leaves the whole
    ledger as it was. *)
Theorem updateSyncStatus_other_rows (now : Z) (entity : string) (v : jsval)
    (s : store) :
  (forall i r, sync_status s !! i = Some r -> s_entity_type r <> entity ->
               sync_status (updateSyncStatus now entity v s) !! i = Some r) /\
  ((forall i r, sync_status s !! i = Some r -> s_entity_type r <> entity) ->
   sync_status (updateSyncStatus now entity v s) = sync_status s).
Proof.
  assert (Hrows : forall i r, sync_status s !! i = Some r ->
            s_entity_type r <> entity ->
            sync_status (updateSyncStatus now entity v s) !! i = Some r).
  { intros i r Hi Hne. unfold updateSyncStatus, sql_update_sync_status.
    destruct (bind_col cast_bigint v) as [blk|]; simpl; [|exact Hi].
    destruct (update_sync_rows now blk entity (sync_status s)) as [rows'|] eqn:E;
      simpl; [|exact Hi].
    destruct (update_sync_rows_lookup _ _ _ _ _ E i r Hi) as (r' & Hr' & Hif).
    destruct (String.eqb (s_entity_type r) entity) eqn:Eq.
    - apply String.eqb_eq in Eq. contradiction.
    - now subst r'. }
  split; [exact Hrows|].
  intros Hall. apply list_eq. intros i.
  destruct (sync_status s !! i) as [r|] eqn:Hi.
  - apply Hrows; [exact Hi|]. eapply Hall, Hi.
  - apply lookup_ge_None in Hi. apply lookup_ge_None.
    destruct (updateSyncStatus_grows now entity v s)
      as (_ & _ & _ & _ & [Hlen _] & _).
    lia.
Qed.

(** X14.  Two donations with different ids can be inserted in either
    order: the result is the same store, or the same error. *)
Theorem donation_inserts_commute (r1 r2 : donation_row) (s : store) :
  d_id r1 <> d_id r2 ->
  (try! s1 := insert_donation_do_nothing r1 s in insert_donation_do_nothing r2 s1)
  = (try! s2 := insert_donation_do_nothing r2 s in insert_donation_do_nothing r1 s2).
Proof.
  intros Hne. unfold insert_donation_do_nothing.
  destruct (donations s !! d_id r1) eqn:D1;
    destruct (donations s !! d_id r2) eqn:D2; simpl; rewrite ?D1, ?D2.
  - reflexivity.
  - destruct (campaigns s !! d_campaign_id r2); simpl; [|reflexivity].
    rewrite lookup_insert_ne by congruence. now rewrite D1.
  - destruct (campaigns s !! d_campaign_id r1); simpl; [|reflexivity].
    rewrite lookup_insert_ne by congruence. now rewrite D2.
  - destruct (campaigns s !! d_campaign_id r1) eqn:C1;
      destruct (campaigns s !! d_campaign_id r2) eqn:C2; simpl;
      rewrite ?lookup_insert_ne by congruence; rewrite ?D1, ?D2, ?C1, ?C2;
      try reflexivity.
    unfold set_donations. simpl. do 2 f_equal.
    apply insert_insert_ne. congruence.
Qed.

End HandlerEdges.

(* ===================================================================== *)
(** * More on the settlement path *)
(* ===================================================================== *)

Section SettlementEdges.
Context `{casts : PgCasts} `{rt : Runtime}.

(** X15.  The Chain Writer reports success only when the amount is a
    non-zero number, the contracts were set up and all three steps were
    confirmed; the chain is then longer by exactly the mint, the approval
    and the donation, in this order, with consecutive nonces and the same
    amount in token units, and the reply carries the hash and the block
    of the donation receipt. *)
Theorem chain_writer_success (amount : option Z) (cid : Z) (o : oracle)
    (ch ch' : chain) (data : donate_data) :
  mintAndDonateIDRX amount cid o ch = (Donated data, ch') ->
  exists a addr units m ap d,
    amount = Some a /\ a <> 0 /\ o_setup o = inr addr /\
    parseUnits2 a = inr units /\
    o_mint o = inr m /\ o_approve o = inr ap /\ o_donate o = inr d /\
    ch' = ch ++ [TxMint (length ch) units;
                 TxApprove (S (length ch)) units;
                 TxDonate (S (S (length ch))) cid units] /\
    mintTxHash data = rc_hash m /\ approveTxHash data = rc_hash ap /\
    donateTxHash data = rc_hash d /\ blockNumber data = rc_block d /\
    dd_amount data = a /\ dd_campaignId data = cid /\
    dd_campaignAddress data = campaignAddress addr.
Proof.
  unfold mintAndDonateIDRX, classify.
  destruct amount as [a|]; [|discriminate].
  destruct (a =? 0) eqn:Ea; [discriminate|]. apply Z.eqb_neq in Ea.
  destruct (o_setup o) as [err|addr] eqn:E0;
    [destruct (is_nonce_error err); [discriminate|];
     destruct (message_includes err "CampaignNotFound"); discriminate|].
  destruct (parseUnits2 a) as [err|units] eqn:E1;
    [destruct (is_nonce_error err); [discriminate|];
     destruct (message_includes err "CampaignNotFound"); discriminate|].
  destruct (o_mint o) as [err|m] eqn:E2;
    [destruct (is_nonce_error err); [discriminate|];
     destruct (message_includes err "CampaignNotFound"); discriminate|].
  destruct (o_approve o) as [err|ap] eqn:E3;
    [destruct (is_nonce_error err); [discriminate|];
     destruct (message_includes err "CampaignNotFound"); discriminate|].
  destruct (o_donate o) as [err|d] eqn:E4;
    [destruct (is_nonce_error err); [discriminate|];
     destruct (message_includes err "CampaignNotFound"); discriminate|].
  intros H. inversion H; subst. clear H.
  exists a, addr, units, m, ap, d. simpl.
  do 7 (split; [first [reflexivity | assumption]|]).
  split; [|repeat split].
  rewrite !length_app, <- !app_assoc. simpl. now rewrite !Nat.add_1_r.
Qed.

(** X16.  The settlement handler changes the store or the chain only when
    no recorded row matched the replay pattern, the provider answered
    with status "settlement", the order id yields a campaign id and that
    campaign is cached; in every other case it returns the world as it
    found it. *)
Theorem qris_acts_only_on_settlement (now : Z) (orderId : string)
    (provider : option midtrans) (o : oracle) (w : world) :
  snd (getQRISStatus now orderId provider o w) <> w ->
  select_donations_like (qris_pattern orderId) (w_store w) = [] /\
  exists r cid key c,
    provider = Some r /\ transaction_status r = "settlement" /\
    (match split_on "-" (order_id r) !! 1%nat with
     | Some part => parseInt part
     | None => None
     end) = Some cid /\
    cast_integer (JNum cid) = Some key /\
    campaigns (w_store w) !! key = Some c.
Proof.
  unfold getQRISStatus.
  destruct (select_donations_like (qris_pattern orderId) (w_store w));
    [|intros H; now destruct H].
  unfold qris_settle.
  destruct provider as [r|]; [|intros H; now destruct H].
  destruct (String.eqb (transaction_status r) "settlement") eqn:Es;
    [|intros H; now destruct H].
  apply String.eqb_eq in Es.
  destruct (match split_on "-" (order_id r) !! 1%nat with
            | Some part => parseInt part
            | None => None
            end) as [cid|] eqn:Ep; [|intros H; now destruct H].
  destruct (cast_integer (JNum cid)) as [key|] eqn:Ek;
    [|intros H; now destruct H].
  destruct (campaigns (w_store w) !! key) as [c|] eqn:Ec;
    [|intros H; now destruct H].
  intros _. split; [reflexivity|].
  exists r, cid, key, c. auto.
Qed.

(** X17.  The replay check compares with LIKE 'qris-<orderId>%': a
    request is answered "already processed", with a row recorded for
    another order, as soon as some recorded id merely starts with
    qris-<orderId>; nothing is asked of the provider and nothing is
    minted for it. *)
Theorem qris_guard_matches_prefix (now : Z) (orderId suffix : string)
    (provider : option midtrans) (o : oracle) (w : world) (k : string)
    (row : donation_row) :
  donations (w_store w) !! k = Some row ->
  d_id row = "qris-" +:+ orderId +:+ suffix ->
  no_escape orderId = true ->
  exists r, getQRISStatus now orderId provider o w = (AlreadyProcessed r, w).
Proof.
  intros Hk Hid Hesc. unfold getQRISStatus, select_donations_like.
  set (rows := snd <$> map_to_list (donations (w_store w))).
  assert (Hin : In row (List.filter
                          (fun r => sql_like (qris_pattern orderId) (d_id r)) rows)).
  { apply filter_In. split.
    - apply list_elem_of_In. subst rows. apply list_elem_of_fmap.
      exists (k, row). split; [reflexivity|]. now apply elem_of_map_to_list.
    - rewrite Hid. unfold qris_pattern.
      pose proof (like_prefix orderId suffix Hesc) as Hl. cbn. exact Hl. }
  destruct (List.filter _ rows) as [|r rest]; [destruct Hin|].
  now exists r.
Qed.

End SettlementEdges.

Lemma no_dash_digits (d : Decimal.uint) :
  no_dash (NilEmpty.string_of_uint d) = true.
Proof. induction d; simpl; auto. Qed.

Lemma show_no_dash (n : Z) : 0 <= n -> no_dash (show n) = true.
Proof.
  intros Hn. unfold show. destruct n as [|p|p]; [reflexivity| |lia].
  simpl. unfold NilZero.string_of_uint.
  destruct (Pos.to_uint p); try reflexivity; apply no_dash_digits.
Qed.

Lemma split_on_dash (a b : string) :
  no_dash a = true -> split_on "-" (a +:+ String "-" b) = a :: split_on "-" b.
Proof.
  induction a as [|c a IH]; intros Ha.
  - reflexivity.
  - simpl in Ha. apply andb_prop in Ha as [Hc Ha].
    change (String c a +:+ String "-" b) with (String c (a +:+ String "-" b)).
    cbn [split_on]. rewrite (IH Ha).
    destruct (Ascii.eqb c "-"); [discriminate|reflexivity].
Qed.

Section OrderIds.
Context `{casts : PgCasts} `{rt : Runtime}.

(** Up to [2 ^ 53] a number is printed with all its digits. *)
Lemma number_text_exact (n : Z) :
  Z.abs n <= 2 ^ 53 -> number_text n = show n.
Proof.
  intros H. unfold number_text.
  destruct (Z.leb_spec (Z.abs n) (2 ^ 53)); [reflexivity|lia].
Qed.

(** X18.  An order created for a campaign whose id is a whole number from
    1 to 2^53, at a time from 0 to 2^53, carries that id where the
    settlement handler looks for it: [createQRIS] answers with the order
    id qris-<id>-<time>, all digits written out, and the second part of
    that order id, split at the hyphens, is read back as the same
    campaign id, given that [parseInt] reads the decimal text of the id
    as the id.  So the handler, asked about that order once it is
    settled, looks up that campaign, and answers 404 when it is not
    cached. *)
Theorem created_order_names_its_campaign (n ts : Z) (amount : jsval) (p : snap)
    (now : Z) (gross : string) (o : oracle) (w : world) :
  0 < n <= 2 ^ 53 -> 0 <= ts <= 2 ^ 53 ->
  truthy amount = true ->
  parseInt (show n) = Some n ->
  exists oid,
    createQRIS ts (JNum n) amount (Some p)
    = QrisCreated oid (JNum n) amount (token p) (redirect_url p) /\
    oid = "qris-" +:+ show n +:+ "-" +:+ show ts /\
    (match split_on "-" oid !! 1%nat with
     | Some part => parseInt part
     | None => None
     end) = Some n /\
    (cast_integer (JNum n) = Some n -> campaigns (w_store w) !! n = None ->
     qris_settle now (Some {| transaction_status := "settlement";
                              order_id := oid; gross_amount := gross |}) o w
     = (CampaignNotFound, w)).
Proof.
  intros Hn Hts Ham Hparse.
  exists ("qris-" +:+ show n +:+ "-" +:+ show ts).
  assert (Hsplit : split_on "-" ("qris-" +:+ show n +:+ "-" +:+ show ts) !! 1%nat
                   = Some (show n)).
  { change ("qris-" +:+ show n +:+ "-" +:+ show ts)
      with ("qris" +:+ String "-" (show n +:+ String "-" (show ts))).
    rewrite split_on_dash by reflexivity.
    rewrite split_on_dash by (apply show_no_dash; lia).
    reflexivity. }
  split.
  { unfold createQRIS. rewrite Ham.
    assert (Ht : truthy (JNum n) = true).
    { simpl. destruct (Z.eqb_spec n 0); [lia|reflexivity]. }
    rewrite Ht. cbn [negb orb template].
    rewrite (number_text_exact n) by lia.
    rewrite (number_text_exact ts) by lia. reflexivity. }
  split; [reflexivity|].
  split; [now rewrite Hsplit|].
  intros Hcast Hnone. unfold qris_settle. cbn [transaction_status order_id].
  rewrite String.eqb_refl, Hsplit, Hparse, Hcast, Hnone. reflexivity.
Qed.

(** From [10 ^ 21] on the id is printed in exponent form, and the second
    part of the order id is no longer the digits of the id; between
    [2 ^ 53] and [10 ^ 21] the digits past the seventeenth are zeros. *)
Lemma large_campaign_id_in_order_id (p : snap) :
  createQRIS 1700000000000 (JNum (10 ^ 21)) (JNum 10000) (Some p)
  = QrisCreated "qris-1e+21-1700000000000" (JNum (10 ^ 21)) (JNum 10000)
                (token p) (redirect_url p) /\
  template (JNum (2 ^ 70)) = "1.1805916207174113e+21" /\
  template (JNum (2 ^ 64)) = "18446744073709552000" /\
  template (JNum (10 ^ 20)) = "100000000000000000000".
Proof. repeat split; vm_compute; reflexivity. Qed.

End OrderIds.

(* ===================================================================== *)
(** * The flag of the poller when connections are granted *)
(* ===================================================================== *)

Section FlagFacts.
Context `{casts : PgCasts}.

Lemma step_flag_exact (e : event) (p : process) :
  match e with Connected _ ok => ok | _ => true end = true ->
  flag_exact p -> flag_exact (step e p).
Proof.
  intros Hok Hinv. pose proof Hinv as Hp.
  destruct e as [|i ok|i now ix]; unfold step, flag_exact.
  - destruct (isRunning p) eqn:E; simpl.
    + destruct Hinv as [[_ Hf]|(t & Ht & _)]; [congruence|right; eauto].
    + destruct Hinv as [[Hnil _]|(t & _ & Hrun)]; [|congruence].
      right. exists Connecting. now rewrite Hnil.
  - subst ok. destruct Hinv as [[Hnil Hf]|(t & Ht & Hrun)].
    + rewrite Hnil. exact Hp.
    + rewrite Ht. destruct i as [|i]; simpl; [|exact Hp].
      destruct t; [|exact Hp]. simpl. right; eauto.
  - destruct Hinv as [[Hnil Hf]|(t & Ht & Hrun)].
    + rewrite Hnil. exact Hp.
    + rewrite Ht. destruct i as [|i]; simpl; [|exact Hp].
      destruct t as [|ph]; [exact Hp|].
      destruct (next_phase ph); simpl; [right; eauto|now left].
Qed.

(** X19.  As long as every connection the poller asked for was granted,
    the flag is set exactly while an invocation is in flight, whatever
    the order of ticks and completions and whatever failed inside the
    cycles: after a cycle ends the next tick starts a new one. *)
Theorem poller_flag_exact (es : list event) (s : store) :
  connects_granted es = true ->
  let p := run es (boot s) in
  (isRunning p = true <-> tasks p <> []) /\
  (tasks p = [] -> tasks (step Tick p) = [Connecting]).
Proof.
  intros Hok p.
  assert (Hinv : flag_exact p).
  { subst p. assert (H0 : flag_exact (boot s)) by (left; auto).
    revert H0. generalize (boot s).
    induction es as [|e es IH]; intros q Hq; [exact Hq|].
    simpl in Hok. apply andb_prop in Hok as [He Hes].
    rewrite run_cons. apply IH; [exact Hes|].
    now apply step_flag_exact. }
  destruct Hinv as [[Hnil Hf]|(t & Ht & Hrun)].
  - split; [split; [congruence|intros H; now destruct H]|].
    intros _. unfold step. now rewrite Hf, Hnil.
  - split; [split; [intros _; now rewrite Ht|auto]|].
    intros H. rewrite Ht in H. discriminate.
Qed.

End FlagFacts.

(* ===================================================================== *)
(** * The poller and the ledger, what holds of them *)
(* ===================================================================== *)

Section MoreFacts.
Context `{casts : PgCasts}.

(** X20.  Whatever the order in which ticks and completions arrive, at
    most one invocation of the poller is past the test of the flag, the
    flag is set while there is one, and a call that finds the flag set
    asks nothing of the indexer, writes nothing and starts nothing. *)
Theorem poller_never_overlaps (es : list event) (s : store) :
  let p := run es (boot s) in
  (length (tasks p) <= 1)%nat /\
  (tasks p <> [] -> isRunning p = true) /\
  (isRunning p = true ->
   pstore (step Tick p) = pstore p /\ requests (step Tick p) = requests p /\
   tasks (step Tick p) = tasks p).
Proof.
  intros p.
  assert (H : single_flight p).
  { apply run_single_flight. now left. }
  split; [|split].
  - destruct H as [Hnil|(t & Ht & _)]; [rewrite Hnil|rewrite Ht]; simpl; lia.
  - destruct H as [Hnil|(t & _ & Hrun)]; [congruence|auto].
  - intros Hrun. unfold step. rewrite Hrun. simpl. auto.
Qed.

Lemma sql_campaign_webhook_ledger (now : Z) (b : campaign_body) :
  ledger_kept (sql_campaign_webhook now b).
Proof.
  intros s s'. unfold sql_campaign_webhook, upsert_campaign.
  destruct (campaign_tuple now b) as [r|]; simpl; [|discriminate].
  destruct (campaigns s !! c_id r); intros H; now inversion H.
Qed.

Lemma bind_withdrawal_block (now : Z) (id c n o cr a t blk ts : jsval)
    (r : withdrawal_row) :
  bind_withdrawal now id c n o cr a t blk ts = Ok r ->
  bind_col cast_bigint blk = Ok (Some (w_block_number r)).
Proof.
  unfold bind_withdrawal.
  repeat match goal with
         | |- context [res_bind (bind_col ?f ?x) _] =>
             destruct (bind_col f x) as [[?|]|]; simpl; try discriminate
         end.
  all: intros H; inversion H; reflexivity.
Qed.

Lemma bind_badge_block (now : Z) (tok o n t blk ts : jsval) (r : badge_row) :
  bind_badge now tok o n t blk ts = Ok r ->
  bind_col cast_bigint blk = Ok (Some (b_block_number r)).
Proof.
  unfold bind_badge.
  repeat match goal with
         | |- context [res_bind (bind_col ?f ?x) _] =>
             destruct (bind_col f x) as [[?|]|]; simpl; try discriminate
         end.
  intros H; inversion H; reflexivity.
Qed.

(** The row of the ledger after a statement that left the ledger alone
    and the status update that follows it. *)
Lemma counted_after (now : Z) (entity : string) (v : jsval) (blk : option Z)
    (s s1 : store) (i : nat) (r : sync_row) :
  sync_status s1 = sync_status s ->
  bind_col cast_bigint v = Ok blk ->
  counter_room entity (sync_status s) = true ->
  sync_status s !! i = Some r ->
  s_entity_type r = entity ->
  exists r', sync_status (updateSyncStatus now entity v s1) !! i = Some r' /\
             s_total_synced r' = s_total_synced r + 1 /\
             s_last_synced_at r' = now /\ s_status r' = "healthy" /\
             s_error_message r' = None /\
             s_last_block_number r'
             = match blk with Some b => b | None => s_last_block_number r end.
Proof.
  intros Hl Hv Hroom Hi He. eexists. split.
  - apply (updateSyncStatus_row now entity v blk s1 i r Hv);
      rewrite ?Hl; assumption.
  - simpl. auto.
Qed.

(** X21.  A webhook request for a campaign, a donation, a withdrawal or a
    badge that is answered 200 adds one to the counter of every ledger
    row of its entity type, stamps the row and marks it healthy, whether
    the statement inserted, updated or found the row already there; this
    holds as long as no counter of that type is at the top of INTEGER.
    The last block number becomes the block number of the payload; a
    campaign carries none and leaves it as it was. *)
Theorem webhook_counts_every_success (now : Z) (s : store) (i : nat) (r : sync_row) :
  sync_status s !! i = Some r ->
  counter_room (s_entity_type r) (sync_status s) = true ->
  let counted (s' : store) (block : option Z) :=
    exists r', sync_status s' !! i = Some r' /\
               s_total_synced r' = s_total_synced r + 1 /\
               s_last_synced_at r' = now /\ s_status r' = "healthy" /\
               s_error_message r' = None /\
               s_last_block_number r'
               = match block with Some b => b | None => s_last_block_number r end in
  (forall b, s_entity_type r = "campaign" ->
     r_status (fst (syncCampaign now b s)) = 200%nat ->
     counted (snd (syncCampaign now b s)) None) /\
  (forall b, s_entity_type r = "donation" ->
     r_status (fst (syncDonation now b s)) = 200%nat ->
     exists blk, bind_col cast_bigint (db_blockNumber b) = Ok (Some blk) /\
                 counted (snd (syncDonation now b s)) (Some blk)) /\
  (forall b, s_entity_type r = "withdrawal" ->
     r_status (fst (syncWithdrawal now b s)) = 200%nat ->
     exists blk, bind_col cast_bigint (wb_blockNumber b) = Ok (Some blk) /\
                 counted (snd (syncWithdrawal now b s)) (Some blk)) /\
  (forall b, s_entity_type r = "badge" ->
     r_status (fst (syncBadge now b s)) = 200%nat ->
     exists blk, bind_col cast_bigint (bb_blockNumber b) = Ok (Some blk) /\
                 counted (snd (syncBadge now b s)) (Some blk)).
Proof.
  intros Hi Hroom counted. subst counted. cbv beta.
  split; [|split; [|split]]; intros b He.
  - unfold syncCampaign. destruct (campaign_rejected b); [discriminate|].
    destruct (sql_campaign_webhook now b s) as [s1|] eqn:E; [|discriminate].
    intros _. simpl. rewrite He in Hroom.
    pose proof (sql_campaign_webhook_ledger now b s s1 E) as Hl.
    now apply (counted_after now "campaign" JUndefined None s s1 i r).
  - unfold syncDonation. destruct (donation_rejected b); [discriminate|].
    destruct (sql_donation now b s) as [s1|] eqn:E; [|discriminate].
    intros _. simpl. rewrite He in Hroom.
    pose proof (sql_donation_ledger now b s s1 E) as Hl.
    unfold sql_donation in E.
    destruct (donation_tuple now b) as [row|] eqn:Et; [|discriminate].
    apply bind_donation_block in Et.
    exists (d_block_number row). split; [exact Et|].
    now apply (counted_after now "donation" (db_blockNumber b)
                 (Some (d_block_number row)) s s1 i r).
  - unfold syncWithdrawal.
    match goal with |- context [if ?c then _ else _] => destruct c end;
      [discriminate|].
    destruct (sql_withdrawal now b s) as [s1|] eqn:E; [|discriminate].
    intros _. simpl. rewrite He in Hroom.
    pose proof (proj1 (sql_withdrawal_ledger now b) s s1 E) as Hl.
    unfold sql_withdrawal in E.
    destruct (withdrawal_tuple now b) as [row|] eqn:Et; [|discriminate].
    apply bind_withdrawal_block in Et.
    exists (w_block_number row). split; [exact Et|].
    now apply (counted_after now "withdrawal" (wb_blockNumber b)
                 (Some (w_block_number row)) s s1 i r).
  - unfold syncBadge. destruct (badge_rejected b); [discriminate|].
    destruct (sql_badge now b s) as [s1|] eqn:E; [|discriminate].
    intros _. simpl. rewrite He in Hroom.
    pose proof (sql_badge_ledger now b s s1 E) as Hl.
    unfold sql_badge in E.
    destruct (badge_tuple now b) as [row|] eqn:Et; [|discriminate].
    apply bind_badge_block in Et.
    exists (b_block_number row). split; [exact Et|].
    now apply (counted_after now "badge" (bb_blockNumber b)
                 (Some (b_block_number row)) s s1 i r).
Qed.

End MoreFacts.

(* ===================================================================== *)
(** * The properties above on the sample data *)
(* ===================================================================== *)

Lemma stored_events_never_change_witness :
  let w := {| w_store := migrated store7d; w_chain := [] |} in
  donations (w_store (serve_all (casts := reference_casts)
                        (rt := reference_runtime) mixed_requests w)) !! "d1"
  = Some don1_row.
Proof.
  intros w.
  apply (proj1 (stored_events_never_change (casts := reference_casts)
                  (rt := reference_runtime) mixed_requests w)).
  reflexivity.
Defined.

Lemma chain_only_extends_witness :
  let w := {| w_store := migrated store7d; w_chain := [] |} in
  well_nonced (w_chain (serve_all (casts := reference_casts)
                          (rt := reference_runtime) mixed_requests w)) /\
  length (w_chain (serve_all (casts := reference_casts)
                     (rt := reference_runtime) mixed_requests w)) = 3%nat.
Proof.
  intros w. split; [|reflexivity].
  apply (chain_only_extends (casts := reference_casts)
           (rt := reference_runtime) mixed_requests w).
  intros i t H. destruct i; discriminate H.
Defined.

Lemma balance_update_unknown_campaign_witness :
  syncCampaignBalance (casts := reference_casts) 80 (JNum 9) (JStr "55") store7
  = (reply_ok "Campaign balance updated", store7).
Proof.
  apply (balance_update_unknown_campaign (casts := reference_casts)
           80 (JNum 9) (JStr "55") (Some 55) (Some 9) store7);
    try reflexivity.
  intros k H. inversion H. reflexivity.
Defined.

Lemma balance_update_frame_witness :
  exists s' row,
    syncCampaignBalance (casts := reference_casts) 80 (JNum 7) JNull store7
    = (reply_ok "Campaign balance updated", s') /\
    campaigns s' !! 7 = Some row /\ c_balance row = None /\
    c_name row = "Well" /\ sync_status s' = sync_status store7.
Proof.
  destruct (balance_update_frame (casts := reference_casts)
              80 (JNum 7) JNull None 7 camp7_row store7)
    as (s' & row & H1 & H2 & H3 & _ & _ & _ & H7 & _ & _ & _ & _ & _ & _ & _
        & _ & _ & H17); try reflexivity.
  exists s', row. repeat split; assumption.
Defined.

Lemma campaign_last_write_wins_witness :
  exists row,
    campaigns (snd (syncCampaign (casts := reference_casts) 60 camp7'
                      (snd (syncCampaign (casts := reference_casts) 10 camp7
                              (ddl_store 0))))) !! 7 = Some row /\
    c_balance row = Some 80 /\ c_owner row = "0xb" /\
    c_creation_time row = 1690000000 /\ c_created_at row = 10.
Proof.
  destruct (campaign_last_write_wins (casts := reference_casts)
              10 60 camp7 camp7' camp7_row camp7'_row (ddl_store 0))
    as (_ & _ & row & H1 & _ & _ & H4 & H5 & _ & _ & _ & H9 & H10);
    try reflexivity.
  exists row. repeat split; assumption.
Defined.

Lemma donation_for_unknown_campaign_witness :
  syncDonation (casts := reference_casts) 70 don_orphan store7
  = (reply_error ForeignKeyViolation, store7) /\
  poll_each (sql_donation (casts := reference_casts) 70)
            [don_orphan; don3] store7 0 = (store7, 0%nat).
Proof.
  destruct (donation_for_unknown_campaign (casts := reference_casts)
              70 don_orphan don_orphan_row store7) as [H1 H2];
    try reflexivity.
  split; [exact H1|apply H2].
Defined.

Lemma unchecked_fields_answer_500_witness :
  (exists e, syncWithdrawal (casts := reference_casts) 70 wd_no_block store7
             = (reply_error e, store7)) /\
  (exists e, syncBadge (casts := reference_casts) 70 badge_no_block store7
             = (reply_error e, store7)).
Proof.
  destruct (unchecked_fields_answer_500 (casts := reference_casts) 70 store7)
    as [Hw Hb].
  split.
  - apply Hw; [vm_compute; discriminate|left; left; reflexivity].
  - apply Hb; [vm_compute; discriminate|left; right; reflexivity].
Defined.

Lemma poller_loop_stops_at_first_failure_witness :
  let s1 := set_donations (<["d1" := don1_row]> (donations store7)) store7 in
  poll_each (sql_donation (casts := reference_casts) 20)
            [don1; don_no_donor; don3] store7 0 = (s1, 1%nat) /\
  donations s1 !! "d3" = None.
Proof.
  intros s1. split; [|reflexivity].
  apply (poller_loop_stops_at_first_failure
           (sql_donation (casts := reference_casts) 20)
           [don1] [don3] don_no_donor store7 s1 NotNullViolation 0);
    vm_compute; reflexivity.
Defined.

Lemma ledger_full_update_dropped_witness :
  let s1 := set_donations (<["d1" := don1_row]> (donations store7_full))
              store7_full in
  syncDonation (casts := reference_casts) 20 don1 store7_full
  = (reply_ok "Donation synced successfully", s1) /\
  sync_status s1 = sync_status store7_full.
Proof.
  intros s1.
  apply (ledger_full_update_dropped (casts := reference_casts)
           20 don1 store7_full s1); vm_compute; reflexivity.
Defined.

Lemma donation_inserts_commute_witness :
  (try! s1 := insert_donation_do_nothing don1_row store7 in
   insert_donation_do_nothing don3_row s1)
  = (try! s2 := insert_donation_do_nothing don3_row store7 in
     insert_donation_do_nothing don1_row s2).
Proof.
  apply (donation_inserts_commute don1_row don3_row store7).
  simpl. discriminate.
Defined.

Lemma chain_writer_success_witness :
  exists units,
    snd (mintAndDonateIDRX (rt := reference_runtime) (Some 10000) 7 oracle_ok [])
    = [TxMint 0 units; TxApprove 1 units; TxDonate 2 7 units].
Proof.
  destruct (chain_writer_success (rt := reference_runtime)
              (Some 10000) 7 oracle_ok []
              [TxMint 0 1000000; TxApprove 1 1000000; TxDonate 2 7 1000000]
              donated7 eq_refl)
    as (a & addr & units & m & ap & d & _ & _ & _ & _ & _ & _ & _ & Hch & _).
  exists units. exact Hch.
Defined.

Lemma qris_acts_only_on_settlement_witness :
  exists c, campaigns (migrated store7) !! 7 = Some c.
Proof.
  destruct (qris_acts_only_on_settlement (casts := reference_casts)
              (rt := reference_runtime) 100 order7 (Some settled7) oracle_ok
              {| w_store := migrated store7; w_chain := [] |})
    as (_ & r & cid & key & c & Hp & _ & Hcid & Hkey & Hc).
  - intros H. apply (f_equal w_chain) in H. vm_compute in H. discriminate.
  - inversion Hp; subst r. vm_compute in Hcid. inversion Hcid; subst cid.
    vm_compute in Hkey. inversion Hkey; subst key.
    exists c. exact Hc.
Defined.

Lemma qris_guard_matches_prefix_witness :
  exists r,
    getQRISStatus (casts := reference_casts) (rt := reference_runtime)
      200 "qris-7" None oracle_ok world7_settled
    = (AlreadyProcessed r, world7_settled).
Proof.
  apply (qris_guard_matches_prefix (casts := reference_casts)
           (rt := reference_runtime) 200 "qris-7" "-1700000000000" None
           oracle_ok world7_settled "qris-qris-7-1700000000000" settled_row);
    reflexivity.
Defined.

Lemma created_order_names_its_campaign_witness :
  exists oid,
    createQRIS 1700000000000 (JNum 7) (JNum 10000)
      (Some {| token := "tok"; redirect_url := "https://pay" |})
    = QrisCreated oid (JNum 7) (JNum 10000) "tok" "https://pay" /\
    oid = order7.
Proof.
  destruct (created_order_names_its_campaign (casts := reference_casts)
              (rt := reference_runtime) 7 1700000000000 (JNum 10000)
              {| token := "tok"; redirect_url := "https://pay" |}
              100 "10000" oracle_ok {| w_store := ddl_store 0; w_chain := [] |})
    as (oid & Hc & Hoid & _); [lia | lia | reflexivity | reflexivity |].
  exists oid. split; [exact Hc|]. rewrite Hoid. reflexivity.
Defined.

Lemma poller_flag_exact_witness :
  tasks (step (casts := reference_casts) Tick
           (run (casts := reference_casts)
              [Tick; Connected 0 true; Resumed 0 60 ix7; Resumed 0 61 ix7;
               Resumed 0 62 ix7; Resumed 0 63 ix7] (boot store7)))
  = [Connecting].
Proof.
  apply (poller_flag_exact (casts := reference_casts)
           [Tick; Connected 0 true; Resumed 0 60 ix7; Resumed 0 61 ix7;
            Resumed 0 62 ix7; Resumed 0 63 ix7] store7 eq_refl).
  reflexivity.
Defined.

Lemma webhook_counts_every_success_witness :
  exists r', sync_status (snd (syncDonation (casts := reference_casts)
                                 30 don1' store7d)) !! 1%nat = Some r' /\
             s_total_synced r' = 2 /\ s_last_block_number r' = 50.
Proof.
  destruct (webhook_counts_every_success (casts := reference_casts)
              30 store7d 1
              {| s_entity_type := "donation"; s_last_block_number := 100;
                 s_last_synced_at := 20; s_total_synced := 1;
                 s_status := "healthy"; s_error_message := None;
                 s_created_at := 0; s_updated_at := 20 |}
              eq_refl eq_refl) as (_ & Hd & _).
  destruct (Hd don1' eq_refl eq_refl)
    as (blk & Hblk & r' & Hr' & Ht & _ & _ & _ & Hb).
  vm_compute in Hblk. injection Hblk as <-.
  exists r'. split; [exact Hr'|]. split; [exact Ht|exact Hb].
Defined.

(* ===================================================================== *)
(** * Order inside a cycle, and a settlement that failed *)
(* ===================================================================== *)

Section CycleOrder.
Context `{casts : PgCasts}.





End CycleOrder.

Section FailedSettlement.
Context `{casts : PgCasts} `{rt : Runtime}.

(** X23.  A settlement whose sequence fails leaves no record: the store is
    as it was, although steps confirmed before the failure are on the
    chain; the next request for the same order is not stopped by the
    replay check and starts the sequence again from the mint. *)
Theorem failed_settlement_leaves_no_record (now : Z) (orderId : string)
    (provider : option midtrans) (o : oracle) (w w' : world) (m : string) :
  getQRISStatus now orderId provider o w = (MintFailed m, w') ->
  w_store w' = w_store w /\
  w_chain w `prefix_of` w_chain w' /\
  forall now2 provider2 o2,
    getQRISStatus now2 orderId provider2 o2 w'
    = qris_settle now2 provider2 o2 w'.
Proof.
  intros H.
  assert (Hsel : select_donations_like (qris_pattern orderId) (w_store w) = []
                 /\ w_store w' = w_store w).
  { revert H. unfold getQRISStatus.
    destruct (select_donations_like (qris_pattern orderId) (w_store w));
      [|discriminate].
    unfold qris_settle.
    destruct provider as [r|]; [|discriminate].
    destruct (String.eqb (transaction_status r) "settlement"); [|discriminate].
    destruct (match split_on "-" (order_id r) !! 1%nat with
              | Some part => parseInt part
              | None => None
              end) as [cid|]; [|discriminate].
    destruct (cast_integer (JNum cid)) as [key|]; [|discriminate].
    destruct (campaigns (w_store w) !! key); [|discriminate].
    destruct (mintAndDonateIDRX (parseFloat (gross_amount r)) cid o (w_chain w))
      as [[data|m' e] ch]; [discriminate|].
    intros H. inversion H; subst. auto. }
  destruct Hsel as [Hsel Hst].
  split; [exact Hst|]. split.
  - destruct (getQRISStatus_world now orderId provider o w)
      as [_ [Hc|(amount & cid & Hc)]]; rewrite H in Hc; simpl in Hc; rewrite Hc;
      [reflexivity|apply mint_prefix].
  - intros now2 provider2 o2. unfold getQRISStatus. now rewrite Hst, Hsel.
Qed.

End FailedSettlement.


Lemma failed_settlement_leaves_no_record_witness :
  let go := getQRISStatus (casts := reference_casts) (rt := reference_runtime) in
  let w0 := {| w_store := migrated store7; w_chain := [] |} in
  let w1 := {| w_store := migrated store7; w_chain := [TxMint 0 1000000] |} in
  go 100 order7 (Some settled7) oracle_approve_fails w0
  = (MintFailed "Transaction nonce conflict. Please try again in a few seconds.",
     w1) /\
  sequences (w_chain (snd (go 200 order7 (Some settled7) oracle_ok w1))) = 2%nat /\
  size (donations (w_store (snd (go 200 order7 (Some settled7) oracle_ok w1))))
  = 1%nat.
Proof.
  intros go w0 w1.
  assert (H : go 100 order7 (Some settled7) oracle_approve_fails w0
              = (MintFailed
                   "Transaction nonce conflict. Please try again in a few seconds.",
                 w1)) by reflexivity.
  split; [exact H|].
  destruct (failed_settlement_leaves_no_record (casts := reference_casts)
              (rt := reference_runtime) 100 order7 (Some settled7)
              oracle_approve_fails w0 w1 _ H) as (_ & _ & Hnext).
  subst go. rewrite (Hnext 200 (Some settled7) oracle_ok).
  split; reflexivity.
Defined.
